(** * Consent banner, event analytics and GDPR forms: a shallow embedding

    The browser scripts of the repository are embedded as Rocq
    functions over an explicit browser state:
    - the consent banner, [shared-assets/bri-consent-banner.js]
      (module [Banner]);
    - the event analytics library, loaded by the pages as
      [bri-analytics-sanitized.js] (module [Analytics]);
    - the GDPR forms, [assets/js/bri-custom-forms.js] (modules [Forms] and
      [Component]), with the form definitions of [assets/js/form-configs.js]
      (module [FormConfigs]).

    JavaScript strings are modelled by [string]; a character stands for the
    code unit of the same number, so code units above U+00FF are outside the
    model.  Objects used as ordered records are association lists in
    property order (integer-like keys, which JavaScript lists first, are not
    told apart); [localStorage], [Map] and [Set] are stdpp's [gmap] and
    [gset].  What belongs to the platform and not to the repository, the
    URL parser and [decodeURIComponent], is a parameter.  Timers fire at
    their due time, before anything else that happens at that time. *)

From Stdlib Require Import ZArith QArith Ascii String List Bool Lia.
From stdpp Require Import base option gmap strings list.

Local Open Scope Z_scope.

(** ** JavaScript string primitives used by the scripts *)

Module JS.

(** White space of [String.prototype.trim] and of the regular expression
    class [\s], restricted to code units below 256: TAB, LF, VT, FF, CR,
    SPACE and NO-BREAK SPACE. *)
Definition is_whitespace (c : ascii) : bool :=
  let n := nat_of_ascii c in
  ((9 <=? n)%nat && (n <=? 13)%nat) || (n =? 32)%nat || (n =? 160)%nat.

Fixpoint trimStart (s : string) : string :=
  match s with
  | EmptyString => EmptyString
  | String c s' => if is_whitespace c then trimStart s' else s
  end.

Fixpoint trimEnd (s : string) : string :=
  match s with
  | EmptyString => EmptyString
  | String c s' =>
      match trimEnd s' with
      | EmptyString => if is_whitespace c then EmptyString else String c EmptyString
      | r => String c r
      end
  end.

(** [s.trim()] *)
Definition trim (s : string) : string := trimEnd (trimStart s).

(** [s.startsWith(p)] *)
Fixpoint startsWith (p s : string) : bool :=
  match p, s with
  | EmptyString, _ => true
  | String a p', String b s' => Ascii.eqb a b && startsWith p' s'
  | String _ _, EmptyString => false
  end.

(** [s.includes(sub)] *)
Fixpoint includes (sub s : string) : bool :=
  startsWith sub s ||
  match s with
  | EmptyString => false
  | String _ s' => includes sub s'
  end.

(** [s.split(sep)] for a separator of one character. *)
Fixpoint split (sep : ascii) (s : string) : list string :=
  match s with
  | EmptyString => [EmptyString]
  | String c s' =>
      if Ascii.eqb c sep then EmptyString :: split sep s'
      else match split sep s' with
           | p :: ps => String c p :: ps
           | [] => [String c EmptyString]
           end
  end.

(** [parts.join(sep)] *)
Definition join (sep : string) (parts : list string) : string :=
  String.concat sep parts.

(** Truthiness of a string: only the empty string is falsy. *)
Definition truthy_string (s : string) : bool :=
  match s with EmptyString => false | _ => true end.

(** The JavaScript values that occur in event properties. *)
Inductive value :=
| VUndefined
| VNull
| VBool (b : bool)
| VNum (n : Z)
| VNaN
| VStr (s : string).

Definition truthy (v : value) : bool :=
  match v with
  | VUndefined | VNull | VNaN => false
  | VBool b => b
  | VNum n => negb (n =? 0)
  | VStr s => truthy_string s
  end.

(** [a || b] *)
Definition or_else (a b : value) : value := if truthy a then a else b.

(** An object literal: own properties in insertion order. *)
Definition object := list (string * value).

(** [o[k] = v]: an own property keeps its place, a new one comes last. *)
Fixpoint set_prop {A : Type} (k : string) (v : A) (o : list (string * A)) : list (string * A) :=
  match o with
  | [] => [(k, v)]
  | (k', v') :: o' =>
      if String.eqb k k' then (k, v) :: o' else (k', v') :: set_prop k v o'
  end.

(** The own property [k] of [o], if any. *)
Fixpoint own_prop {A : Type} (k : string) (o : list (string * A)) : option A :=
  match o with
  | [] => None
  | (k', v) :: o' => if String.eqb k k' then Some v else own_prop k o'
  end.

(** [o.k] *)
Definition get_prop (k : string) (o : object) : value :=
  match own_prop k o with Some v => v | None => VUndefined end.

(** [Object.assign(o, extra)] and the object spread. *)
Definition assign {A : Type} (o extra : list (string * A)) : list (string * A) :=
  fold_left (fun acc kv => set_prop (fst kv) (snd kv) acc) extra o.

(** [{...o, ...extra}]: later properties overwrite earlier ones in place,
    new ones are appended. *)
Definition spread (o extra : object) : object := assign o extra.

Definition newline : string := String (ascii_of_nat 10) EmptyString.
Definition double_quote : string := String (ascii_of_nat 34) EmptyString.

End JS.

(** ** The browser state the scripts read and write *)

Module Browser.

(** One entry of the cookie jar, as set through [document.cookie = ...]:
    the name, the value and the two attributes the banner writes. *)
Record cookie := Cookie {
  ck_name : string;
  ck_value : string;
  ck_expires : Z;      (* absolute time in milliseconds *)
  ck_path : string
}.

Definition render (c : cookie) : string :=
  ck_name c +:+ "=" +:+ ck_value c.

(** The getter [document.cookie]: the visible cookies as [name=value],
    joined by a semicolon and a space. *)
Definition document_cookie (jar : list cookie) : string :=
  JS.join "; " (map render jar).

Definition same_cookie (c c' : cookie) : bool :=
  String.eqb (ck_name c) (ck_name c') && String.eqb (ck_path c) (ck_path c').

(** The setter [document.cookie = ...] with an expiry in the future: a
    cookie of the same name and path is replaced where it stands, a new
    one is added last. *)
Fixpoint set_cookie (c : cookie) (jar : list cookie) : list cookie :=
  match jar with
  | [] => [c]
  | c' :: jar' =>
      if same_cookie c c' then c :: jar' else c' :: set_cookie c jar'
  end.

Record storage := Storage {
  cookies : list cookie;
  localStorage : gmap string string
}.

(** What [new URL(s)] exposes of a parsed URL. *)
Record URL := {
  url_origin : string;
  url_pathname : string;
  url_search : string;
  url_hash : string
}.

(** The URL parser of the platform; [None] stands for the [TypeError]
    thrown on an input that is not a valid URL. *)
Class URLParser := new_URL : string -> option URL.

(** Elements of the page the analytics script looks for. *)
Record section_element := {
  data_track_section : string;   (* attribute [data-track-section] *)
  element_id : string            (* [id], empty when absent *)
}.

Record cta_element := {
  data_track_cta : string;       (* attribute [data-track-cta] *)
  is_anchor : bool               (* [tagName === 'A'] *)
}.

Record document := Document {
  campaign_attr : option string; (* [data-analytics-campaign] on body *)
  location_href : string;
  location_search : list (string * string);
    (* the pairs [URLSearchParams(window.location.search)] iterates over,
       decoded, in the order of the query string *)
  referrer : string;
  title : string;
  sections : list section_element;
  ctas : list cta_element;
  forms : list (option string);  (* [data-form-type] of each form *)
  banner : option string         (* [#consent-banner] and its animation *)
}.

(** Callbacks handed to [setTimeout] by the two scripts. *)
Inductive callback :=
| ShowConsentBanner
| RemoveBanner
| SectionDwell (sectionId sectionName : string).

Record timer := Timer {
  tm_id : nat;
  tm_due : Z;
  tm_callback : callback
}.

(** Pending timers are kept in firing order: by due time, and among equal
    due times in the order they were set. *)
Fixpoint schedule (tm : timer) (pending : list timer) : list timer :=
  match pending with
  | [] => [tm]
  | tm' :: rest =>
      if tm_due tm <? tm_due tm' then tm :: pending
      else tm' :: schedule tm rest
  end.

(** A call [window.va('track', name, properties)]. *)
Record va_call := {
  va_command : string;
  va_event : string;
  va_properties : JS.object
}.

(** An item [['trackCustomBehavioralEvent', {name, properties}]] pushed
    on [window._hsq]. *)
Record hsq_item := {
  hs_command : string;
  hs_name : string;
  hs_properties : JS.object
}.

(** The [state] object of the analytics script. *)
Record analytics_state := AnalyticsState {
  analyticsId : option string;
  isQR : bool;
  utmParams : JS.object;
  trackedSections : gset string;
  sectionTimers : gmap string nat;
  pageLoadTime : option Z
}.

Definition initial_state : analytics_state :=
  {| analyticsId := None; isQR := false; utmParams := [];
     trackedSections := ∅; sectionTimers := ∅; pageLoadTime := None |}.

Record world := World {
  store : storage;
  doc : document;
  clock : Z;                       (* [Date.now()] *)
  timers : list timer;
  next_timer : nat;
  va : option (list va_call);      (* [window.va], when it is a function *)
  hsq : option (list hsq_item);    (* [window._hsq], when defined *)
  EventAnalytics : bool;           (* [window.EventAnalytics] is defined *)
  st : analytics_state;
  observers : nat;                 (* intersection observers installed *)
  cta_listeners : nat;             (* click listeners on each CTA *)
  form_listeners : nat;            (* submit listeners on each form *)
  console : list string;
  setConsent_calls : list bool
    (* history variable: the arguments of the calls received by
       [window.EventAnalytics.setConsent], oldest first *)
}.

Definition with_store (s : storage) (w : world) : world :=
  World s (doc w) (clock w) (timers w) (next_timer w) (va w) (hsq w)
        (EventAnalytics w) (st w) (observers w) (cta_listeners w)
        (form_listeners w) (console w) (setConsent_calls w).

Definition with_doc (d : document) (w : world) : world :=
  World (store w) d (clock w) (timers w) (next_timer w) (va w) (hsq w)
        (EventAnalytics w) (st w) (observers w) (cta_listeners w)
        (form_listeners w) (console w) (setConsent_calls w).

Definition with_clock (t : Z) (w : world) : world :=
  World (store w) (doc w) t (timers w) (next_timer w) (va w) (hsq w)
        (EventAnalytics w) (st w) (observers w) (cta_listeners w)
        (form_listeners w) (console w) (setConsent_calls w).

Definition with_timers (l : list timer) (n : nat) (w : world) : world :=
  World (store w) (doc w) (clock w) l n (va w) (hsq w)
        (EventAnalytics w) (st w) (observers w) (cta_listeners w)
        (form_listeners w) (console w) (setConsent_calls w).

Definition with_va (v : option (list va_call)) (w : world) : world :=
  World (store w) (doc w) (clock w) (timers w) (next_timer w) v (hsq w)
        (EventAnalytics w) (st w) (observers w) (cta_listeners w)
        (form_listeners w) (console w) (setConsent_calls w).

Definition with_hsq (q : option (list hsq_item)) (w : world) : world :=
  World (store w) (doc w) (clock w) (timers w) (next_timer w) (va w) q
        (EventAnalytics w) (st w) (observers w) (cta_listeners w)
        (form_listeners w) (console w) (setConsent_calls w).

Definition with_st (s : analytics_state) (w : world) : world :=
  World (store w) (doc w) (clock w) (timers w) (next_timer w) (va w) (hsq w)
        (EventAnalytics w) s (observers w) (cta_listeners w)
        (form_listeners w) (console w) (setConsent_calls w).

Definition with_listeners (o c f : nat) (w : world) : world :=
  World (store w) (doc w) (clock w) (timers w) (next_timer w) (va w) (hsq w)
        (EventAnalytics w) (st w) o c f (console w) (setConsent_calls w).

Definition with_console (l : list string) (w : world) : world :=
  World (store w) (doc w) (clock w) (timers w) (next_timer w) (va w) (hsq w)
        (EventAnalytics w) (st w) (observers w) (cta_listeners w)
        (form_listeners w) l (setConsent_calls w).

Definition with_setConsent_calls (l : list bool) (w : world) : world :=
  World (store w) (doc w) (clock w) (timers w) (next_timer w) (va w) (hsq w)
        (EventAnalytics w) (st w) (observers w) (cta_listeners w)
        (form_listeners w) (console w) l.

(** [localStorage.getItem(k)]; [None] is [null]. *)
Definition getItem (k : string) (w : world) : option string :=
  localStorage (store w) !! k.

(** [localStorage.setItem(k, v)] *)
Definition setItem (k v : string) (w : world) : world :=
  with_store (Storage (cookies (store w)) (<[k := v]> (localStorage (store w)))) w.

Definition write_cookie (c : cookie) (w : world) : world :=
  with_store (Storage (set_cookie c (cookies (store w))) (localStorage (store w))) w.

(** [setTimeout(cb, delay)]: returns the new state and the timer's id. *)
Definition setTimeout (cb : callback) (delay : Z) (w : world) : world * nat :=
  let id := next_timer w in
  (with_timers (schedule (Timer id (clock w + delay) cb) (timers w)) (S id) w, id).

(** [clearTimeout(id)] *)
Definition clearTimeout (id : nat) (w : world) : world :=
  with_timers (List.filter (fun tm => negb (Nat.eqb (tm_id tm) id)) (timers w))
              (next_timer w) w.

(** The consent cookie as both scripts look it up:
    [document.cookie.split(';').find(c => c.trim().startsWith('analytics-consent='))]. *)
Definition consentCookie (w : world) : option string :=
  find (fun c => JS.startsWith "analytics-consent=" (JS.trim c))
       (JS.split ";" (document_cookie (cookies (store w)))).

End Browser.

(** ** The event analytics library *)

Module Analytics.
Import Browser.

Module CONFIG.
Definition sectionVisibilityThreshold : Q := 1 # 2.   (* 50% visible *)
Definition sectionEngagementTime : Z := 2000.         (* 2 seconds *)
Definition debug : bool := false.
Definition requireConsent : bool := true.
End CONFIG.

(** [hasUserConsent()]:
    [consentCookie?.includes('true') || localConsent === 'true']. *)
Definition hasUserConsent (w : world) : bool :=
  match consentCookie w with
  | Some c => JS.includes "true" c
  | None => false
  end
  || match getItem "analytics-consent" w with
     | Some v => String.eqb v "true"
     | None => false
     end.

(** [URLSearchParams.get]: the value of the first pair of that name. *)
Definition params_get (k : string) (params : list (string * string)) : option string :=
  match find (fun p => String.eqb (fst p) k) params with
  | Some p => Some (snd p)
  | None => None
  end.

(** [params.get(k) || null] *)
Definition get_or_null (k : string) (params : list (string * string)) : JS.value :=
  match params_get k params with
  | Some v => if JS.truthy_string v then JS.VStr v else JS.VNull
  | None => JS.VNull
  end.

Definition getUTMParams (w : world) : JS.object :=
  let params := location_search (doc w) in
  [ ("source", get_or_null "utm_source" params);
    ("medium", get_or_null "utm_medium" params);
    ("campaign", get_or_null "utm_campaign" params);
    ("content", get_or_null "utm_content" params);
    ("term", get_or_null "utm_term" params) ].

(** [detectQRScan()]: [params.get('utm_medium') === 'qr']. *)
Definition detectQRScan (w : world) : bool :=
  match params_get "utm_medium" (location_search (doc w)) with
  | Some v => String.eqb v "qr"
  | None => false
  end.

Definition id_value (s : analytics_state) : JS.value :=
  match analyticsId s with Some a => JS.VStr a | None => JS.VNull end.

Definition getCampaignContext (w : world) : JS.object :=
  JS.spread [ ("analyticsId", id_value (st w)); ("isQR", JS.VBool (isQR (st w))) ]
            (utmParams (st w)).

(** [sendVercelEvent(eventName, properties)]: never gated by consent. *)
Definition sendVercelEvent (eventName : string) (properties : JS.object) (w : world) : world :=
  match va w with
  | Some calls =>
      with_va (Some (calls ++
        [ {| va_command := "track"; va_event := eventName;
             va_properties :=
               JS.spread properties
                 ([ ("analytics_id", id_value (st w));
                    ("is_qr", JS.VBool (isQR (st w))) ] ++ utmParams (st w)) |} ])) w
  | None => w
  end.

(** [sendHubSpotEvent(eventName, properties)]: returns at once without
    consent, pushes on the queue when the queue exists. *)
Definition sendHubSpotEvent (eventName : string) (properties : JS.object) (w : world) : world :=
  if negb (hasUserConsent w) then w
  else
    match hsq w with
    | Some queue =>
        with_hsq (Some (queue ++
          [ {| hs_command := "trackCustomBehavioralEvent"; hs_name := eventName;
               hs_properties :=
                 JS.spread properties
                   [ ("analytics_id", id_value (st w));
                     ("is_qr", JS.VBool (isQR (st w)));
                     ("campaign", JS.get_prop "campaign" (utmParams (st w)));
                     ("source", JS.get_prop "source" (utmParams (st w)));
                     ("medium", JS.get_prop "medium" (utmParams (st w))) ] |} ])) w
    | None => w
    end.

Definition unknown_unless (v : JS.value) : JS.value := JS.or_else v (JS.VStr "unknown").

Definition trackQRLanding (w : world) : world :=
  if isQR (st w) then
    let w1 :=
      sendVercelEvent "qr_scan_landing"
        [ ("campaign", unknown_unless (JS.get_prop "campaign" (utmParams (st w))));
          ("source", unknown_unless (JS.get_prop "source" (utmParams (st w)))) ] w in
    sendHubSpotEvent "QR Code Scan"
      [ ("event_type", JS.VStr "qr_landing");
        ("campaign", unknown_unless (JS.get_prop "campaign" (utmParams (st w1))));
        ("source", unknown_unless (JS.get_prop "source" (utmParams (st w1))));
        ("landing_page", id_value (st w1)) ] w1
  else w.

(** [Math.round((Date.now() - state.pageLoadTime) / 1000)]; the
    subtraction is [NaN] while [pageLoadTime] is undefined.  [Math.round]
    rounds halves up, which on a whole number of milliseconds is the
    floor of [(ms + 500) / 1000]. *)
Definition time_to_view (w : world) : JS.value :=
  match pageLoadTime (st w) with
  | Some t0 => JS.VNum ((clock w - t0 + 500) / 1000)
  | None => JS.VNaN
  end.

Definition add_tracked (sectionId : string) (s : analytics_state) : analytics_state :=
  AnalyticsState (analyticsId s) (isQR s) (utmParams s)
                 ({[ sectionId ]} ∪ trackedSections s) (sectionTimers s) (pageLoadTime s).

Definition with_sectionTimers (m : gmap string nat) (s : analytics_state) : analytics_state :=
  AnalyticsState (analyticsId s) (isQR s) (utmParams s)
                 (trackedSections s) m (pageLoadTime s).

Definition trackSectionEngagement (sectionId sectionName : string) (w : world) : world :=
  if decide (sectionId ∈ trackedSections (st w)) then w   (* already tracked *)
  else
    let w1 := with_st (add_tracked sectionId (st w)) w in
    let w2 :=
      sendVercelEvent "section_engagement"
        [ ("section_id", JS.VStr sectionId);
          ("section_name", JS.VStr sectionName);
          ("time_to_view", time_to_view w1) ] w1 in
    sendHubSpotEvent "Section Engagement"
      [ ("event_type", JS.VStr "section_engagement");
        ("section_id", JS.VStr sectionId);
        ("section_name", JS.VStr sectionName);
        ("engagement_threshold", JS.VStr "50% visible for 2s") ] w2.

Definition trackCTAClick (ctaId ctaType : string) (w : world) : world :=
  let w1 :=
    sendVercelEvent "cta_conversion"
      [ ("cta_id", JS.VStr ctaId); ("cta_type", JS.VStr ctaType) ] w in
  sendHubSpotEvent "CTA Click"
    [ ("event_type", JS.VStr "cta_click");
      ("cta_id", JS.VStr ctaId);
      ("cta_type", JS.VStr ctaType);
      ("cta_location", JS.VStr "landing_page") ] w1.

Definition trackFormSubmit (formType : string) (w : world) : world :=
  let w1 := sendVercelEvent "form_submission" [ ("form_type", JS.VStr formType) ] w in
  sendHubSpotEvent "Form Submission"
    [ ("event_type", JS.VStr "form_submission");
      ("form_type", JS.VStr formType);
      ("conversion_type", JS.VStr "lead_capture") ] w1.

(** One [IntersectionObserverEntry]. *)
Record entry := Entry {
  target : section_element;
  isIntersecting : bool;
  intersectionRatio : Q
}.

Definition entry_sectionId (e : entry) : string := data_track_section (target e).

(** [entry.target.id || sectionId] *)
Definition entry_sectionName (e : entry) : string :=
  if JS.truthy_string (element_id (target e)) then element_id (target e)
  else entry_sectionId e.

(** [entry.isIntersecting && entry.intersectionRatio >= threshold] *)
Definition entry_visible (e : entry) : bool :=
  isIntersecting e && Qle_bool CONFIG.sectionVisibilityThreshold (intersectionRatio e).

(** The body of the observer's [entries.forEach]. *)
Definition observe_entry (e : entry) (w : world) : world :=
  let sectionId := entry_sectionId e in
  let sectionName := entry_sectionName e in
  if entry_visible e then
    (* section is visible: start the timer unless one is pending *)
    match sectionTimers (st w) !! sectionId with
    | Some _ => w
    | None =>
        let '(w1, id) :=
          setTimeout (SectionDwell sectionId sectionName) CONFIG.sectionEngagementTime w in
        with_st (with_sectionTimers (<[sectionId := id]> (sectionTimers (st w1))) (st w1)) w1
    end
  else
    (* section no longer visible: clear the timer *)
    match sectionTimers (st w) !! sectionId with
    | Some id =>
        let w1 := clearTimeout id w in
        with_st (with_sectionTimers (delete sectionId (sectionTimers (st w1))) (st w1)) w1
    | None => w
    end.

Definition observer_callback (entries : list entry) (w : world) : world :=
  fold_left (fun acc e => observe_entry e acc) entries w.

(** The timer's callback: report the section, then forget the timer. *)
Definition dwell_elapsed (sectionId sectionName : string) (w : world) : world :=
  let w1 := trackSectionEngagement sectionId sectionName w in
  with_st (with_sectionTimers (delete sectionId (sectionTimers (st w1))) (st w1)) w1.

Definition setupSectionObserver (w : world) : world :=
  match sections (doc w) with
  | [] => w
  | _ => with_listeners (S (observers w)) (cta_listeners w) (form_listeners w) w
  end.

Definition setupCTATracking (w : world) : world :=
  match ctas (doc w) with
  | [] => w
  | _ => with_listeners (observers w) (S (cta_listeners w)) (form_listeners w) w
  end.

Definition setupFormTracking (w : world) : world :=
  match forms (doc w) with
  | [] => w
  | _ => with_listeners (observers w) (cta_listeners w) (S (form_listeners w)) w
  end.

(** [state.analyticsId = document.body.getAttribute('data-analytics-campaign')] *)
Definition read_campaign (w : world) : world :=
  let s := st w in
  with_st (AnalyticsState (campaign_attr (doc w)) (isQR s) (utmParams s)
                          (trackedSections s) (sectionTimers s) (pageLoadTime s)) w.

(** [state.utmParams = getUTMParams(); state.isQR = detectQRScan();
    state.pageLoadTime = Date.now()] *)
Definition read_context (w : world) : world :=
  let s := st w in
  with_st (AnalyticsState (analyticsId s) (detectQRScan w) (getUTMParams w)
                          (trackedSections s) (sectionTimers s) (Some (clock w))) w.

Section WithURLParser.
Context `{URLParser}.

(** [sanitizeURL(url)]: the path name of the parsed URL, the root path
    when the constructor throws. *)
Definition sanitizeURL (url : string) : string :=
  match new_URL url with
  | Some u => url_pathname u
  | None => "/"
  end.

Definition sanitizedReferrer (w : world) : string :=
  if JS.truthy_string (referrer (doc w)) then sanitizeURL (referrer (doc w))
  else "direct".

Definition trackPageView (w : world) : world :=
  let sanitizedPath := sanitizeURL (location_href (doc w)) in
  let w1 :=
    sendVercelEvent "page_view"
      [ ("page", JS.VStr sanitizedPath); ("title", JS.VStr (title (doc w))) ] w in
  sendHubSpotEvent "Landing Page View"
    [ ("event_type", JS.VStr "page_view");
      ("page_url", JS.VStr sanitizedPath);
      ("page_title", JS.VStr (title (doc w)));
      ("referrer", JS.VStr (sanitizedReferrer w)) ] w1.

(** [init()] *)
Definition init (w : world) : world :=
  let w1 := read_campaign w in
  match analyticsId (st w1) with
  | None | Some EmptyString => w1          (* silent: no tracking *)
  | Some _ =>
      let w2 := read_context w1 in
      (* track initial events, then set up observers and listeners *)
      setupFormTracking
        (setupCTATracking
           (setupSectionObserver
              (trackQRLanding (trackPageView w2))))
  end.

(** [window.EventAnalytics.setConsent(value)] *)
Definition setConsent (value : bool) (w : world) : world :=
  let w0 := with_setConsent_calls (setConsent_calls w ++ [value]) w in
  let w1 := setItem "analytics-consent" (if value then "true" else "false") w0 in
  if value then init w1 else w1.

End WithURLParser.

End Analytics.

(** ** The consent banner *)

Module Banner.
Import Browser.

(** [hasExistingConsent()]: [consentCookie || localConsent !== null].
    The result is the cookie entry itself when one is found. *)
Definition hasExistingConsent (w : world) : JS.value :=
  JS.or_else
    (match consentCookie w with Some c => JS.VStr c | None => JS.VUndefined end)
    (JS.VBool (match getItem "analytics-consent" w with Some _ => true | None => false end)).

Definition thirty_days : Z := 30 * 24 * 60 * 60 * 1000.

Definition showConsentBanner (w : world) : world :=
  with_doc (Document (campaign_attr (doc w)) (location_href (doc w))
                     (location_search (doc w)) (referrer (doc w)) (title (doc w))
                     (sections (doc w)) (ctas (doc w)) (forms (doc w))
                     (Some EmptyString)) w.

Definition set_banner (b : option string) (w : world) : world :=
  with_doc (Document (campaign_attr (doc w)) (location_href (doc w))
                     (location_search (doc w)) (referrer (doc w)) (title (doc w))
                     (sections (doc w)) (ctas (doc w)) (forms (doc w)) b) w.

Section WithURLParser.
Context `{URLParser}.

(** [setConsent(value)], called with ['true'] or ['false']. *)
Definition setConsent (value : string) (w : world) : world :=
  (* set cookie (30 days) *)
  let w1 := write_cookie (Cookie "analytics-consent" value (clock w + thirty_days) "/") w in
  (* also set localStorage as backup *)
  let w2 := setItem "analytics-consent" value w1 in
  (* trigger analytics re-initialization if consent granted *)
  if String.eqb value "true" && EventAnalytics w2
  then Analytics.setConsent true w2
  else w2.

(** [window.handleConsentChoice(accepted)] *)
Definition handleConsentChoice (accepted : bool) (w : world) : world :=
  let w1 := setConsent (if accepted then "true" else "false") w in
  let w2 :=
    match banner (doc w1) with
    | Some _ =>
        fst (setTimeout RemoveBanner 300
               (set_banner (Some "slideUp 0.3s ease-out reverse") w1))
    | None => w1
    end in
  if EventAnalytics w2
  then with_console
         (console w2 ++
            [if accepted then "Consent choice: Accepted" else "Consent choice: Rejected"]) w2
  else w2.

End WithURLParser.

(** [init()]: only show the banner if there is no existing consent. *)
Definition init (w : world) : world :=
  if negb (JS.truthy (hasExistingConsent w))
  then fst (setTimeout ShowConsentBanner 1000 w)
  else w.

End Banner.

(** ** Page loads and the event loop *)

Module Page.
Import Browser.

Section WithURLParser.
Context `{URLParser}.

Definition run_callback (cb : callback) (w : world) : world :=
  match cb with
  | ShowConsentBanner => Banner.showConsentBanner w
  | RemoveBanner => Banner.set_banner None w
  | SectionDwell sectionId sectionName => Analytics.dwell_elapsed sectionId sectionName w
  end.

Definition is_due (t : Z) (tm : timer) : bool := tm_due tm <=? t.

(** Time passes until [t]: the timers due by then fire in order, each
    at its due time.  No callback of the scripts sets or clears a
    timer, so the timers due are those pending at the start. *)
Definition advance (t : Z) (w : world) : world :=
  let due := List.filter (is_due t) (timers w) in
  let later := List.filter (fun tm => negb (is_due t tm)) (timers w) in
  let w1 := with_timers later (next_timer w) w in
  let w2 :=
    fold_left
      (fun acc tm =>
         run_callback (tm_callback tm) (with_clock (Z.max (clock acc) (tm_due tm)) acc))
      due w1 in
  with_clock (Z.max (clock w2) t) w2.

(** What can happen on a page once it is loaded. *)
Inductive event :=
| Idle
| Intersections (entries : list Analytics.entry)  (* an observer's callback *)
| Click (cta : cta_element)
| Submit (formType : option string)
| ConsentChoice (accepted : bool)                 (* a banner button *)
| CallTrackSectionEngagement (sectionId sectionName : string)
| CallTrackCTAClick (ctaId ctaType : string)
| CallTrackFormSubmit (formType : string)
| CallSetConsent (value : bool).

Definition handle (ev : event) (w : world) : world :=
  match ev with
  | Idle => w
  | Intersections entries =>
      match observers w with
      | O => w
      | S _ => Analytics.observer_callback entries w
      end
  | Click cta =>
      Nat.iter (cta_listeners w)
        (Analytics.trackCTAClick (data_track_cta cta)
           (if is_anchor cta then "link" else "button")) w
  | Submit formType =>
      Nat.iter (form_listeners w)
        (Analytics.trackFormSubmit
           (match formType with
            | Some (String c s) => String c s
            | _ => "contact"
            end)) w
  | ConsentChoice accepted => Banner.handleConsentChoice accepted w
  | CallTrackSectionEngagement sectionId sectionName =>
      if EventAnalytics w then Analytics.trackSectionEngagement sectionId sectionName w else w
  | CallTrackCTAClick ctaId ctaType =>
      if EventAnalytics w then Analytics.trackCTAClick ctaId ctaType w else w
  | CallTrackFormSubmit formType =>
      if EventAnalytics w then Analytics.trackFormSubmit formType w else w
  | CallSetConsent value =>
      if EventAnalytics w then Analytics.setConsent value w else w
  end.

(** An event at time [t]: the timers due by [t] fire first. *)
Definition step (w : world) (tev : Z * event) : world :=
  handle (snd tev) (advance (fst tev) w).

Definition run (trace : list (Z * event)) (w : world) : world :=
  fold_left step trace w.

(** The states a page goes through, the loaded state first. *)
Fixpoint states (trace : list (Z * event)) (w : world) : list world :=
  match trace with
  | [] => [w]
  | tev :: trace' => w :: states trace' (step w tev)
  end.

(** A page: its markup and which scripts and vendor globals it has. *)
Record page := {
  page_doc : document;
  analytics_script : bool;
  banner_script : bool;
  has_va : bool;
  has_hsq : bool
}.

(** A fresh page over the storage left by earlier visits: both
    scripts run their [init] once the DOM is ready. *)
Definition load (p : page) (t0 : Z) (s : storage) : world :=
  let d := page_doc p in
  let w0 :=
    World s
          (Document (campaign_attr d) (location_href d) (location_search d)
                    (referrer d) (title d) (sections d) (ctas d) (forms d) None)
          t0 [] O
          (if has_va p then Some [] else None)
          (if has_hsq p then Some [] else None)
          (analytics_script p) initial_state O O O [] [] in
  let w1 := if analytics_script p then Analytics.init w0 else w0 in
  if banner_script p then Banner.init w1 else w1.

Record visit := {
  visited : page;
  loaded_at : Z;
  activity : list (Z * event)
}.

Definition visit_states (v : visit) (s : storage) : list world :=
  states (activity v) (load (visited v) (loaded_at v) s).

Definition visit_end (v : visit) (s : storage) : storage :=
  store (run (activity v) (load (visited v) (loaded_at v) s)).

(** All states of a sequence of visits; storage carries over. *)
Fixpoint browse (visits : list visit) (s : storage) : list world :=
  match visits with
  | [] => []
  | v :: visits' => visit_states v s ++ browse visits' (visit_end v s)
  end.

End WithURLParser.

End Page.

(** ** Regular expressions, matched by derivatives *)

Module Regex.

Inductive regex :=
| Empty
| Eps
| Class (p : ascii -> bool)
| Seq (r1 r2 : regex)
| Alt (r1 r2 : regex)
| Star (r : regex).

Definition Plus (r : regex) : regex := Seq r (Star r).

Fixpoint nullable (r : regex) : bool :=
  match r with
  | Empty => false
  | Eps => true
  | Class _ => false
  | Seq r1 r2 => nullable r1 && nullable r2
  | Alt r1 r2 => nullable r1 || nullable r2
  | Star _ => true
  end.

Fixpoint deriv (c : ascii) (r : regex) : regex :=
  match r with
  | Empty => Empty
  | Eps => Empty
  | Class p => if p c then Eps else Empty
  | Seq r1 r2 =>
      if nullable r1 then Alt (Seq (deriv c r1) r2) (deriv c r2)
      else Seq (deriv c r1) r2
  | Alt r1 r2 => Alt (deriv c r1) (deriv c r2)
  | Star r' => Seq (deriv c r') (Star r')
  end.

(** [/^r$/.test(s)]: the whole string matches. *)
Fixpoint test (r : regex) (s : string) : bool :=
  match s with
  | EmptyString => nullable r
  | String c s' => test (deriv c r) s'
  end.

(** The language of a regular expression. *)
Inductive matches : regex -> string -> Prop :=
| m_eps : matches Eps EmptyString
| m_class p c : p c = true -> matches (Class p) (String c EmptyString)
| m_seq r1 r2 s1 s2 : matches r1 s1 -> matches r2 s2 -> matches (Seq r1 r2) (s1 +:+ s2)
| m_alt_l r1 r2 s : matches r1 s -> matches (Alt r1 r2) s
| m_alt_r r1 r2 s : matches r2 s -> matches (Alt r1 r2) s
| m_star_nil r : matches (Star r) EmptyString
| m_star_cons r s1 s2 :
    matches r s1 -> matches (Star r) s2 -> matches (Star r) (s1 +:+ s2).

End Regex.

(** ** The GDPR forms *)

Module Forms.

Module CONFIG.
Definition portalId : string := "47932576".          (* atob('NDc5MzI1NzY=') *)
Definition apiBaseUrl : string :=
  "https://api.hsforms.com/submissions/v3/integration/submit".
End CONFIG.

(** Form data: a plain object with string values, in property order. *)
Definition form_data := list (string * string).

Module GDPRComplianceValidator.

(** [[^\s@]] *)
Definition not_space_or_at (c : ascii) : bool :=
  negb (JS.is_whitespace c || Ascii.eqb c "@").

(** [/^[^\s@]+@[^\s@]+\.[^\s@]+$/] *)
Definition emailRegex : Regex.regex :=
  Regex.Seq (Regex.Plus (Regex.Class not_space_or_at))
    (Regex.Seq (Regex.Class (Ascii.eqb "@"))
       (Regex.Seq (Regex.Plus (Regex.Class not_space_or_at))
          (Regex.Seq (Regex.Class (Ascii.eqb "."))
             (Regex.Plus (Regex.Class not_space_or_at))))).

Definition isValidEmail (email : string) : bool := Regex.test emailRegex email.

Definition allowedFields : list string :=
  [ "email"; "firstname"; "lastname"; "company"; "phone"; "jobtitle";
    "event_name"; "event_engagement_level"; "utm_source_original";
    "session_duration_seconds"; "top_interest_section_1"; "top_interest_section_2";
    "top_interest_section_3"; "cta_interaction_type"; "linkedin_lead_source" ].

(** [allowedFields.includes(key)] *)
Definition allowed (key : string) : bool := existsb (String.eqb key) allowedFields.

Definition consent_error : string :=
  "Explicit consent is required before data processing".
Definition email_required_error : string :=
  "Email is required for contact identification".
Definition email_invalid_error : string :=
  "Email must be valid to ensure data accuracy".
Definition not_allowed_error (key : string) : string :=
  "Field " +:+ JS.double_quote +:+ key +:+ JS.double_quote +:+ " is not allowed".

Record validation := { isValid : bool; errors : list string }.

(** [formData.email], truthy: the field is there and not empty. *)
Definition email_of (formData : form_data) : option string :=
  match JS.own_prop "email" formData with
  | Some e => if JS.truthy_string e then Some e else None
  | None => None
  end.

Definition validate (formData : form_data) (consentGiven : bool) : validation :=
  let errors0 : list string := [] in
  (* 1. consent requirement *)
  let errors1 := if negb consentGiven then errors0 ++ [consent_error] else errors0 in
  (* 2. data minimization *)
  let errors2 :=
    match email_of formData with
    | None => errors1 ++ [email_required_error]
    | Some _ => errors1
    end in
  (* 3. email validation *)
  let errors3 :=
    match email_of formData with
    | Some e => if negb (isValidEmail e) then errors2 ++ [email_invalid_error] else errors2
    | None => errors2
    end in
  (* 4. no excessive data collection *)
  let errors4 :=
    fold_left
      (fun acc key => if negb (allowed key) then acc ++ [not_allowed_error key] else acc)
      (map fst formData) errors3 in
  {| isValid := match errors4 with [] => true | _ => false end; errors := errors4 |}.

End GDPRComplianceValidator.

(** The payload of the Forms v3 API. *)
Record field := { objectTypeId : string; name : string; value : string }.

Record communication := {
  comm_value : bool; comm_subscriptionTypeId : Z; comm_text : string
}.

Record consent := {
  consentToProcess : bool; consent_text : string; communications : list communication
}.

Record legitimate_interest := {
  li_value : bool; li_subscriptionTypeId : Z; li_legalBasis : string; li_text : string
}.

Record request_context := {
  hutk : option string; pageUri : string; pageName : string
  (* [ipAddress] is always null *)
}.

Record payload := {
  submittedAt : Z;
  fields : list field;
  context : request_context;
  legalConsentOptions : consent * legitimate_interest
}.

(** A call of [fetch]: always a POST of JSON. *)
Record request := { url : string; method : string; content_type : string; body : payload }.

(** What the transport answers: the promise rejects, or a response
    arrives with its [ok] flag and, when the body parses, its JSON. *)
Inductive fetch_outcome :=
| NetworkError
| Response (ok : bool) (json : option string).

Inductive submit_result :=
| Success (data : string)
| Failure (error : string).

Record form_config := {
  formGuid : string;
  eventName : option string;
  buttonText : option string;
  onSuccess : bool               (* the config has a success callback *)
}.

(** What the form component reads from the page. *)
Record environment := {
  entries : list (string * string);        (* [new FormData(form)] *)
  BRI_populateFormFields : bool;           (* the global is set *)
  location_href : string;
  location_search : list (string * string);
  document_title : string;
  document_cookie : string;
  now : Z;
  fetch : request -> fetch_outcome
}.

(** What a submit can change. *)
Record form_page := FormPage {
  form_display : string;
  success_display : string;
  error_display : string;
  error_text : string;
  submit_disabled : bool;
  submit_text : string;
  sent : list request;
  onSuccess_calls : list (form_data * string)
}.

(** [decodeURIComponent]; [None] stands for the [URIError] it throws. *)
Class URIDecoder := decodeURIComponent : string -> option string.

Definition or_string (o : option string) (default : string) : string :=
  match o with
  | Some (String c s) => String c s
  | _ => default
  end.

Fixpoint drop_chars (n : nat) (s : string) : string :=
  match n, s with
  | O, _ => s
  | S n', String _ s' => drop_chars n' s'
  | S _, EmptyString => EmptyString
  end.

Section WithDecoder.
Context `{URIDecoder}.

(** [getHubSpotCookie()]; the outer [None] is the decoder's throw. *)
Definition getHubSpotCookie (env : environment) : option (option string) :=
  match decodeURIComponent (document_cookie env) with
  | None => None
  | Some decodedCookie =>
      Some
        (match find (fun c => JS.startsWith "hubspotutk=" c)
                    (map JS.trim (JS.split ";" decodedCookie)) with
         | Some c => Some (drop_chars (String.length "hubspotutk=") c)
         | None => None
         end)
  end.

Definition buildPayload (env : environment) (formData : form_data)
           (ctx_pageUri ctx_pageName legal_text legal_communicationText : option string)
  : option payload :=
  let fields := map (fun nv => {| objectTypeId := "0-1"; name := fst nv; value := snd nv |})
                    formData in
  let pageUri := or_string ctx_pageUri (location_href env) in
  let pageName := or_string ctx_pageName (document_title env) in
  let legalConsentOptions :=
    ( {| consentToProcess := true;
         consent_text :=
           or_string legal_text
             "I agree to allow Big Rock Intelligence to store and process my personal data.";
         communications :=
           [ {| comm_value := true; comm_subscriptionTypeId := 999;
                comm_text :=
                  or_string legal_communicationText
                    "I agree to receive marketing communications from Big Rock Intelligence about AI governance, EU AI Act compliance, and related topics. I can unsubscribe at any time." |} ] |},
      {| li_value := true; li_subscriptionTypeId := 999;
         li_legalBasis := "LEGITIMATE_INTEREST_CLIENT";
         li_text := "Processing is necessary for the purposes of the legitimate interests pursued by Big Rock Intelligence in providing AI governance and compliance services to business contacts." |} ) in
  match getHubSpotCookie env with
  | None => None
  | Some cookie =>
      Some {| submittedAt := now env; fields := fields;
              context := {| hutk := cookie; pageUri := pageUri; pageName := pageName |};
              legalConsentOptions := legalConsentOptions |}
  end.

Definition apiUrl (cfg : form_config) : string :=
  CONFIG.apiBaseUrl +:+ "/" +:+ CONFIG.portalId +:+ "/" +:+ formGuid cfg.

Definition with_sent (l : list request) (p : form_page) : form_page :=
  FormPage (form_display p) (success_display p) (error_display p) (error_text p)
           (submit_disabled p) (submit_text p) l (onSuccess_calls p).

(** [HubSpotFormSubmitter.submit]: everything that throws inside the
    [try] ends in the [catch], which returns the failure result. *)
Definition submit (cfg : form_config) (env : environment) (formData : form_data)
           (ctx_pageUri ctx_pageName legal_text legal_communicationText : option string)
           (p : form_page) : submit_result * form_page :=
  let failure := Failure "Submission failed. Please try again." in
  match buildPayload env formData ctx_pageUri ctx_pageName legal_text legal_communicationText with
  | None => (failure, p)
  | Some payload =>
      let req := {| url := apiUrl cfg; method := "POST";
                    content_type := "application/json"; body := payload |} in
      let p1 := with_sent (sent p ++ [req]) p in
      match fetch env req with
      | NetworkError => (failure, p1)
      | Response false _ => (failure, p1)         (* [!response.ok]: throw *)
      | Response true None => (failure, p1)       (* [response.json()] rejects *)
      | Response true (Some result) => (Success result, p1)
      end
  end.

(** [getAnalyticsData()] *)
Definition getAnalyticsData (cfg : form_config) (env : environment) : form_data :=
  let get k := Analytics.params_get k (location_search env) in
  [ ("event_name", or_string (get "event") (or_string (eventName cfg) ""));
    ("utm_source_original",
     or_string (get "utm_source") (or_string (get "source") "direct")) ].

(** The data collected at submit: every entry but the consent box. *)
Definition collect (cfg : form_config) (env : environment) : form_data :=
  let data :=
    fold_left
      (fun acc kv => if negb (String.eqb (fst kv) "gdpr_consent")
                     then JS.set_prop (fst kv) (snd kv) acc else acc)
      (entries env) [] in
  if BRI_populateFormFields env then JS.assign data (getAnalyticsData cfg env) else data.

(** [BRICustomForm.handleSubmit] *)
Definition handleSubmit (cfg : form_config) (consentGiven : bool) (env : environment)
           (p : form_page) : form_page :=
  (* clear previous messages *)
  let p1 := FormPage (form_display p) "none" "none" (error_text p)
                     (submit_disabled p) (submit_text p) (sent p) (onSuccess_calls p) in
  let data := collect cfg env in
  let validation := GDPRComplianceValidator.validate data consentGiven in
  if negb (GDPRComplianceValidator.isValid validation) then
    FormPage (form_display p1) (success_display p1) "block"
             ("Please correct the following:" +:+ JS.newline +:+
              JS.join JS.newline (GDPRComplianceValidator.errors validation))
             (submit_disabled p1) (submit_text p1) (sent p1) (onSuccess_calls p1)
  else
    let p2 := FormPage (form_display p1) (success_display p1) (error_display p1)
                       (error_text p1) true "Submitting..." (sent p1) (onSuccess_calls p1) in
    let '(result, p3) :=
      submit cfg env data (Some (location_href env)) (Some (document_title env))
        (Some "I agree to allow Big Rock Intelligence to store and process my personal data.")
        (Some "I agree to receive marketing communications from Big Rock Intelligence.")
        p2 in
    match result with
    | Success response =>
        FormPage "none" "block" (error_display p3) (error_text p3)
                 (submit_disabled p3) (submit_text p3) (sent p3)
                 (if onSuccess cfg then onSuccess_calls p3 ++ [(data, response)]
                  else onSuccess_calls p3)
    | Failure _ =>
        FormPage (form_display p3) (success_display p3) "block"
                 "Submission failed. Please try again or contact james@bigrock-intel.ai"
                 false (or_string (buttonText cfg) "Submit") (sent p3) (onSuccess_calls p3)
    end.

End WithDecoder.

End Forms.

(** ** Vocabulary of the statements *)

Module Spec.
Import Browser.

Fixpoint has_char (c : ascii) (s : string) : bool :=
  match s with
  | EmptyString => false
  | String c' s' => Ascii.eqb c' c || has_char c s'
  end.

Definition starts_with_whitespace (s : string) : bool :=
  match s with
  | EmptyString => false
  | String c _ => JS.is_whitespace c
  end.

(** A string without white space and without an at sign, and not empty:
    what [[^\s@]+] matches. *)
Fixpoint all_chars (p : ascii -> bool) (s : string) : bool :=
  match s with
  | EmptyString => true
  | String c s' => p c && all_chars p s'
  end.

Definition email_part (s : string) : Prop :=
  s <> EmptyString /\
  all_chars Forms.GDPRComplianceValidator.not_space_or_at s = true.

(** What the browser guarantees of a stored cookie: no semicolon in the
    name or the value, no equals sign in the name, and no white space in
    front of the name. *)
Definition wf_cookie (c : cookie) : Prop :=
  has_char ";" (ck_name c) = false /\
  has_char "=" (ck_name c) = false /\
  starts_with_whitespace (ck_name c) = false /\
  has_char ";" (ck_value c) = false.

Definition wf_storage (s : storage) : Prop := Forall wf_cookie (cookies s).

Definition is_consent_cookie (c : cookie) : bool :=
  String.eqb (ck_name c) "analytics-consent".

(** The cookie jar holds a value for the consent key. *)
Definition cookie_recorded (s : storage) : Prop :=
  exists c, In c (cookies s) /\ ck_name c = "analytics-consent"%string.

(** The local store holds a value for the consent key. *)
Definition local_recorded (s : storage) : Prop :=
  exists v, localStorage s !! "analytics-consent"%string = Some v.

(** A consent decision is on record in either storage location. *)
Definition recorded (s : storage) : Prop := cookie_recorded s \/ local_recorded s.

(** The test both scripts apply to a piece of [document.cookie]. *)
Definition is_consent_entry (e : string) : bool :=
  JS.startsWith "analytics-consent=" (JS.trim e).

(** The pieces [document.cookie.split(';')] yields on a well-formed jar. *)
Definition entries (jar : list cookie) : list string :=
  match map render jar with
  | [] => [EmptyString]
  | r :: rs => r :: map (String " ") rs
  end.

(** What the analytics functions leave alone: storage, document, clock,
    timers and the banner's side of the window. *)
Definition surroundings (w : world) :=
  (store w, doc w, clock w, timers w, next_timer w, EventAnalytics w,
   console w, setConsent_calls w).

Definition va_log (w : world) : list va_call :=
  match va w with Some calls => calls | None => [] end.

Definition hsq_log (w : world) : list hsq_item :=
  match hsq w with Some queue => queue | None => [] end.

(** How often an event of that name went to the generic sink. *)
Definition va_count (eventName : string) (w : world) : nat :=
  length (List.filter (fun c => String.eqb (va_event c) eventName) (va_log w)).

(** How often an event of that name went to the CRM queue. *)
Definition hsq_count (eventName : string) (w : world) : nat :=
  length (List.filter (fun i => String.eqb (hs_name i) eventName) (hsq_log w)).

Definition is_some {A : Type} (o : option A) : bool :=
  match o with Some _ => true | None => false end.

(** [!!state.analyticsId] after reading the page attribute. *)
Definition campaign_present (w : world) : bool :=
  match campaign_attr (doc w) with
  | Some (String _ _) => true
  | _ => false
  end.

(** [w'] has the storage and the CRM queue of [w]. *)
Definition quiet (w w' : world) : Prop := store w' = store w /\ hsq w' = hsq w.


Definition is_show (tm : timer) : Prop := tm_callback tm = ShowConsentBanner.

(** The banner is neither in the page nor about to be put there. *)
Definition no_banner (w : world) : Prop :=
  banner (doc w) = None /\ Forall (fun tm => ~ is_show tm) (timers w).

(** A well-formed storage with a decision on record. *)
Definition on_record (s : storage) : Prop := wf_storage s /\ recorded s.

(** A page state over a well-formed storage that has a decision on
    record, without a banner. *)
Definition decided (w : world) : Prop :=
  wf_storage (store w) /\ recorded (store w) /\ no_banner w.

(** *** Section engagement *)

Definition is_dwell (tm : timer) : bool :=
  match tm_callback tm with SectionDwell _ _ => true | _ => false end.

(** The section-engagement events that went to each sink. *)
Definition engagement_calls (w : world) : list va_call :=
  List.filter (fun c => String.eqb (va_event c) "section_engagement") (va_log w).

Definition engagement_items (w : world) : list hsq_item :=
  List.filter (fun i => String.eqb (hs_name i) "Section Engagement") (hsq_log w).

(** The event's [section_id] is [sectionId]. *)
Definition names_section (sectionId : string) (properties : JS.object) : bool :=
  match JS.get_prop "section_id" properties with
  | JS.VStr s => String.eqb s sectionId
  | _ => false
  end.

(** How many engagement events of a section went to each sink. *)
Definition va_engagements (sectionId : string) (w : world) : nat :=
  length (List.filter (fun c => names_section sectionId (va_properties c))
                      (engagement_calls w)).

Definition hsq_engagements (sectionId : string) (w : world) : nat :=
  length (List.filter (fun i => names_section sectionId (hs_properties i))
                      (engagement_items w)).







(** What section tracking depends on. *)
Definition section_view (w : world) :=
  (trackedSections (st w), sectionTimers (st w), List.filter is_dwell (timers w),
   engagement_calls w, engagement_items w).

(** The UTM parameters do not overwrite an event's [section_id]. *)
Definition utm_ok (w : world) : Prop :=
  JS.own_prop "section_id" (utmParams (st w)) = None.

(** [w'] differs from [w] in nothing section tracking depends on. *)
Definition aside (w w' : world) : Prop :=
  section_view w' = section_view w /\
  (observers w <= observers w')%nat /\
  (utm_ok w -> utm_ok w').




End Spec.

(** ** Concrete pages and states for the examples *)

Module Examples.
Import Browser.

Fixpoint take_until (stop : ascii -> bool) (s : string) : string * string :=
  match s with
  | EmptyString => (EmptyString, EmptyString)
  | String c s' =>
      if stop c then (EmptyString, s)
      else let '(a, b) := take_until stop s' in (String c a, b)
  end.

(** A small parser for [https] URLs, standing in for the platform's in
    the examples: origin, path, query and fragment; anything else is
    rejected. *)
Definition https_URL (s : string) : option URL :=
  if JS.startsWith "https://" s then
    let rest := Forms.drop_chars 8 s in
    let '(host, r1) := take_until (fun c => Ascii.eqb c "/" || Ascii.eqb c "?" || Ascii.eqb c "#") rest in
    let '(path, r2) := take_until (fun c => Ascii.eqb c "?" || Ascii.eqb c "#") r1 in
    let '(search, hash) := take_until (fun c => Ascii.eqb c "#") r2 in
    match host with
    | EmptyString => None
    | _ =>
        Some {| url_origin := "https://" +:+ host;
                url_pathname := match path with EmptyString => "/" | _ => path end;
                url_search := search;
                url_hash := hash |}
    end
  else None.

Definition https_parser : URLParser := https_URL.

(** A campaign page reached from a QR code. *)
Definition qr_document : document :=
  {| campaign_attr := Some "AI_Week_Frankfurt_2025";
     location_href := "https://bigrock-intel.ai/events/ai-week?utm_medium=qr&utm_source=booth";
     location_search := [("utm_medium", "qr"); ("utm_source", "booth")];
     referrer := "https://example.org/search?q=jane.doe%40example.org";
     title := "AI Week Frankfurt";
     sections := [ {| data_track_section := "hero"; element_id := "top" |} ];
     ctas := [ {| data_track_cta := "book-demo"; is_anchor := true |} ];
     forms := [ Some "newsletter" ];
     banner := None |}.

(** The same page without the campaign attribute on [body]. *)
Definition qr_document_no_campaign : document :=
  {| campaign_attr := None;
     location_href := location_href qr_document;
     location_search := location_search qr_document;
     referrer := referrer qr_document;
     title := title qr_document;
     sections := sections qr_document;
     ctas := ctas qr_document;
     forms := forms qr_document;
     banner := None |}.


Definition consent_cookie (value : string) : cookie :=
  Cookie "analytics-consent" value 2592000000 "/".

Definition no_storage : storage := Storage [] ∅.

Definition accepted_storage : storage :=
  Storage [consent_cookie "true"] {[ "analytics-consent"%string := "true"%string ]}.

Definition rejected_storage : storage :=
  Storage [consent_cookie "false"] {[ "analytics-consent"%string := "false"%string ]}.

(** A consent cookie whose value is neither [true] nor [false]. *)
Definition untrue_storage : storage :=
  Storage [Cookie "session" "abc" 0 "/"; consent_cookie "untrue"] ∅.

(** A page in its first instant: both vendor globals in place, the
    analytics namespace exported, nothing tracked yet. *)
Definition fresh (d : document) (s : storage) : world :=
  World s d 0 [] O (Some []) (Some []) true initial_state O O O [] [].

(** The same without the analytics script and its vendor globals. *)
Definition banner_only (d : document) (s : storage) : world :=
  World s d 0 [] O None None false initial_state O O O [] [].


Definition campaign_page : Page.page :=
  {| Page.page_doc := qr_document; Page.analytics_script := true;
     Page.banner_script := true; Page.has_va := true; Page.has_hsq := true |}.

(** The quick-email form, a visitor with a valid address, and a
    transport that answers every request with a server error. *)
Definition quick_email : Forms.form_config :=
  {| Forms.formGuid := "bri-quick-email-capture";
     Forms.eventName := Some "AI Week Frankfurt 2025";
     Forms.buttonText := Some "Send Checklist";
     Forms.onSuccess := true |}.

Definition failing_environment : Forms.environment :=
  {| Forms.entries := [("email", "user@example.com");
                       ("cta_interaction_type", "in_section_cta");
                       ("gdpr_consent", "on")];
     Forms.BRI_populateFormFields := false;
     Forms.location_href := "https://bigrock-intel.ai/events/ai-week";
     Forms.location_search := [];
     Forms.document_title := "AI Week Frankfurt";
     Forms.document_cookie := "hubspotutk=abc123; analytics-consent=true";
     Forms.now := 1700000000000;
     Forms.fetch := fun _ => Forms.Response false None |}.

Definition idle_form : Forms.form_page :=
  Forms.FormPage "" "none" "none" "" false "Send Checklist" [] [].

(** A decoder for cookies without percent signs. *)
Definition plain_decoder : Forms.URIDecoder :=
  fun s => if Spec.has_char "%" s then None else Some s.

Definition empty_payload : Forms.payload :=
  {| Forms.submittedAt := 0; Forms.fields := [];
     Forms.context := {| Forms.hutk := None; Forms.pageUri := ""; Forms.pageName := "" |};
     Forms.legalConsentOptions :=
       ({| Forms.consentToProcess := true; Forms.consent_text := "";
           Forms.communications := [] |},
        {| Forms.li_value := true; Forms.li_subscriptionTypeId := 999;
           Forms.li_legalBasis := ""; Forms.li_text := "" |}) |}.

(** The payload [handleSubmit] builds for that visitor. *)
Definition quick_email_payload : Forms.payload :=
  Eval vm_compute in
    match Forms.buildPayload (H := plain_decoder) failing_environment
            (Forms.collect quick_email failing_environment)
            (Some (Forms.location_href failing_environment))
            (Some (Forms.document_title failing_environment))
            (Some "I agree to allow Big Rock Intelligence to store and process my personal data.")
            (Some "I agree to receive marketing communications from Big Rock Intelligence.")
    with
    | Some body => body
    | None => empty_payload
    end.

(** The hero section scrolls into view and out again within a second
    and a half; the page then sits idle. *)
Definition hero : section_element := {| data_track_section := "hero"; element_id := "top" |}.

Definition hero_in : Analytics.entry := Analytics.Entry hero true (3 # 4).
Definition hero_out : Analytics.entry := Analytics.Entry hero false (0 # 1).

Definition glance : list (Z * Page.event) :=
  [ (100, Page.Intersections [hero_in]);
    (1500, Page.Intersections [hero_out]);
    (5000, Page.Idle) ].

(** A first visit on which the visitor rejects, and a later visit. *)
Definition two_visits : list Page.visit :=
  [ {| Page.visited := campaign_page; Page.loaded_at := 0;
       Page.activity := [ (1200, Page.ConsentChoice false); (3000, Page.Idle) ] |};
    {| Page.visited := campaign_page; Page.loaded_at := 86400000;
       Page.activity := [ (86405000, Page.Idle) ] |} ].

End Examples.

(** ** The form component between events *)

Module Component.
Import Forms.

(** What a [BRICustomForm] keeps between events: the flag
    [this.consentGiven], the error span and the error class of the email
    field, and the page elements that [handleSubmit] changes. *)
Record form_state := FormState {
  consentGiven : bool;
  email_error_text : string;
  email_error_class : bool;
  elements : form_page
}.

(** [new BRICustomForm(config)], rendered: [this.consentGiven = false],
    and the error span of the email field is empty. *)
Definition constructor (rendered : form_page) : form_state :=
  FormState false EmptyString false rendered.

(** [validateEmail(emailField)] *)
Definition validateEmail (value : string) (c : form_state) : bool * form_state :=
  if negb (GDPRComplianceValidator.isValidEmail value)
  then (false, FormState (consentGiven c) "Please enter a valid email address" true (elements c))
  else (true, FormState (consentGiven c) EmptyString false (elements c)).

(** The events [attachEventListeners] listens for. *)
Inductive form_event :=
| ConsentChange (checked : bool)      (* [change] on the consent checkbox *)
| EmailBlur (value : string)          (* [blur] on the email field *)
| FormSubmit (env : environment).     (* [submit] on the form *)

Section WithDecoder.
Context `{URIDecoder}.

Definition on_event (cfg : form_config) (c : form_state) (ev : form_event) : form_state :=
  match ev with
  | ConsentChange checked =>
      FormState checked (email_error_text c) (email_error_class c) (elements c)
  | EmailBlur value => snd (validateEmail value c)
  | FormSubmit env =>
      FormState (consentGiven c) (email_error_text c) (email_error_class c)
                (handleSubmit cfg (consentGiven c) env (elements c))
  end.

Definition run (cfg : form_config) (events : list form_event) (c : form_state) : form_state :=
  fold_left (on_event cfg) events c.

End WithDecoder.

End Component.

(** ** The form definitions of [assets/js/form-configs.js] *)

Module FormConfigs.

Record choice := { choice_label : string; choice_value : string }.

(** One entry of a definition's [fields]; what an entry leaves out is
    [None] (or the empty list). *)
Record field_config := {
  fc_type : string;
  fc_name : string;
  fc_label : option string;
  fc_placeholder : option string;
  fc_required : bool;
  fc_autocomplete : option string;
  fc_options : list choice;
  fc_value : option string
}.

(** A form definition; [settings] holds what the form component reads
    of it besides the fields: [formConfig.formGuid], [eventName],
    [buttonText] and whether there is an [onSuccess].  The success
    message, a piece of markup, is left out. *)
Record form_definition := {
  settings : Forms.form_config;
  formName : string;
  fields : list field_config;
  buttonColor : string
}.

Definition email_field : field_config :=
  {| fc_type := "email"; fc_name := "email"; fc_label := Some "Email Address";
     fc_placeholder := Some "your@company.com"; fc_required := true;
     fc_autocomplete := Some "email"; fc_options := []; fc_value := None |}.

Definition hidden_field (name value : string) : field_config :=
  {| fc_type := "hidden"; fc_name := name; fc_label := None;
     fc_placeholder := None; fc_required := false;
     fc_autocomplete := None; fc_options := []; fc_value := Some value |}.

Module BRI_FORM_CONFIGS.

(** Form 1: the floating banner. *)
Definition floatingBanner : form_definition :=
  {| settings :=
       {| Forms.formGuid := "bri-floating-banner-cta";
          Forms.eventName := Some "AI Week Frankfurt 2025";
          Forms.buttonText := Some "Get Framework";
          Forms.onSuccess := true |};
     formName := "Event Landing - Floating Banner CTA";
     fields :=
       [ email_field;
         {| fc_type := "text"; fc_name := "company"; fc_label := Some "Company";
            fc_placeholder := Some "Your organization"; fc_required := false;
            fc_autocomplete := Some "organization"; fc_options := []; fc_value := None |};
         {| fc_type := "select"; fc_name := "interest_area";
            fc_label := Some "Primary Interest";
            fc_placeholder := None; fc_required := true; fc_autocomplete := None;
            fc_options :=
              [ {| choice_label := "AI Governance"; choice_value := "ai_governance" |};
                {| choice_label := "AI Operations Platform"; choice_value := "ai_operations" |};
                {| choice_label := "EU AI Act Compliance"; choice_value := "eu_ai_act" |};
                {| choice_label := "Security & Risk Management"; choice_value := "security_risk" |};
                {| choice_label := "Grant Funding"; choice_value := "grant_funding" |} ];
            fc_value := None |};
         hidden_field "cta_interaction_type" "floating_banner" ];
     buttonColor := "#dab86e" |}.

(** Form 2: the quick email capture. *)
Definition quickEmail : form_definition :=
  {| settings :=
       {| Forms.formGuid := "bri-quick-email-capture";
          Forms.eventName := Some "AI Week Frankfurt 2025";
          Forms.buttonText := Some "Send Checklist";
          Forms.onSuccess := true |};
     formName := "Event Landing - Quick Email Capture";
     fields := [ email_field; hidden_field "cta_interaction_type" "in_section_cta" ];
     buttonColor := "#5d9182" |}.

(** Form 3: the exit-intent popup. *)
Definition exitIntent : form_definition :=
  {| settings :=
       {| Forms.formGuid := "bri-exit-intent-popup";
          Forms.eventName := Some "AI Week Frankfurt 2025";
          Forms.buttonText := Some "Download Now";
          Forms.onSuccess := true |};
     formName := "Event Landing - Exit Intent";
     fields := [ email_field; hidden_field "cta_interaction_type" "exit_intent" ];
     buttonColor := "#dab86e" |}.

End BRI_FORM_CONFIGS.

(** The named controls of the markup [BRICustomForm.render] produces:
    all that [new FormData(form)] reads of it. *)
Inductive control :=
| Input (kind name : string)                  (* [<input type=kind name=name>] *)
| Select (name : string) (values : list string)
| HiddenInput (name value : string)
| Checkbox (name : string).

(** One step of [renderFields]: the switch on [field.type]. *)
Definition renderField (f : field_config) : list control :=
  if String.eqb (fc_type f) "email" then [Input "email" (fc_name f)]
  else if String.eqb (fc_type f) "text" then [Input "text" (fc_name f)]
  else if String.eqb (fc_type f) "select"
       then [Select (fc_name f) (EmptyString :: map choice_value (fc_options f))]
  else if String.eqb (fc_type f) "hidden"
       then [HiddenInput (fc_name f) (Forms.or_string (fc_value f) EmptyString)]
  else [].

Definition renderFields (d : form_definition) : list control :=
  flat_map renderField (fields d).

(** The fields, then the consent checkbox; the submit button has no name. *)
Definition render (d : form_definition) : list control :=
  renderFields d ++ [Checkbox "gdpr_consent"].

(** What a visitor did with the form: what stands in each text field or
    is chosen in each select, and whether the box is ticked. *)
Record visitor := { typed : string -> string; ticked : bool }.

(** [new FormData(form)]: one entry per named control in document
    order.  A text input gives what was typed, a select the value of the
    chosen option (of the first option when none was chosen), a hidden
    input its value, and a checkbox [on] when it is ticked and nothing
    when it is not. *)
Definition control_entries (v : visitor) (c : control) : list (string * string) :=
  match c with
  | Input _ name => [(name, typed v name)]
  | Select name values =>
      [(name, if existsb (String.eqb (typed v name)) values then typed v name
              else hd EmptyString values)]
  | HiddenInput name value => [(name, value)]
  | Checkbox name => if ticked v then [(name, "on"%string)] else []
  end.

Definition FormData (controls : list control) (v : visitor) : list (string * string) :=
  flat_map (control_entries v) controls.

End FormConfigs.

(** ** Further vocabulary *)

Module Terms.
Import Browser.

(** Every consent cookie of the jar has the path the banner writes. *)
Definition root_paths (jar : list cookie) : Prop :=
  Forall (fun c => Spec.is_consent_cookie c = true -> ck_path c = "/"%string) jar.

(** No pending timer is a dwell timer of the section. *)
Definition no_dwell_timer (sectionId : string) (pending : list timer) : Prop :=
  Forall (fun tm => forall name, tm_callback tm <> SectionDwell sectionId name) pending.

Definition has_elements {A : Type} (l : list A) : bool :=
  match l with [] => false | _ => true end.

(** The listeners installed by the analytics script. *)
Definition listeners (w : world) := (observers w, cta_listeners w, form_listeners w).

(** What the tracking of clicks depends on. *)
Definition tracking_view (w : world) :=
  (va w, hsq w, listeners w, store w, EventAnalytics w,
   campaign_attr (doc w), ctas (doc w)).

(** No pending timer is a dwell timer. *)
Definition no_dwell_timers (w : world) : Prop :=
  Forall (fun tm => Spec.is_dwell tm = false) (timers w).


(** The section is in the tracked set of [w], and the sinks of [w] hold
    as many engagement events of it as those of [w0]; for the generic
    sink this is said where the UTM object of [w0] has no [section_id]. *)
Definition settled (sectionId : string) (w0 w : world) : Prop :=
  sectionId ∈ trackedSections (st w) /\
  Spec.hsq_engagements sectionId w = Spec.hsq_engagements sectionId w0 /\
  (Spec.utm_ok w0 ->
   Spec.utm_ok w /\ Spec.va_engagements sectionId w = Spec.va_engagements sectionId w0).

(** [w'] has the tracked set and the engagement events of [w] as far as
    the section goes, and its sinks and consent are as ready. *)
Definition untouched (sectionId : string) (w w' : world) : Prop :=
  (sectionId ∈ trackedSections (st w') <-> sectionId ∈ trackedSections (st w)) /\
  Spec.va_engagements sectionId w' = Spec.va_engagements sectionId w /\
  Spec.hsq_engagements sectionId w' = Spec.hsq_engagements sectionId w /\
  Spec.utm_ok w' /\
  Spec.is_some (va w') = Spec.is_some (va w) /\
  Spec.is_some (hsq w') = Spec.is_some (hsq w) /\
  Analytics.hasUserConsent w' = Analytics.hasUserConsent w.

Section WithURLParser.
Context `{URLParser}.

(** The callbacks of a list of timers run in order, each at its due
    time. *)
Definition fire (due : list timer) (w : world) : world :=
  fold_left
    (fun acc tm =>
       Page.run_callback (tm_callback tm) (with_clock (Z.max (clock acc) (tm_due tm)) acc))
    due w.

End WithURLParser.

End Terms.

(** ** Further concrete states *)

Module Scenes.
Import Browser.

(** The campaign page with the banner on display. *)
Definition banner_shown : world :=
  Banner.showConsentBanner (Examples.fresh Examples.qr_document Examples.no_storage).

(** The page of the examples without the campaign attribute. *)
Definition plain_page : Page.page :=
  {| Page.page_doc := Examples.qr_document_no_campaign; Page.analytics_script := true;
     Page.banner_script := true; Page.has_va := true; Page.has_hsq := true |}.

(** A transport that accepts every request. *)
Definition accepting_environment : Forms.environment :=
  {| Forms.entries := Forms.entries Examples.failing_environment;
     Forms.BRI_populateFormFields := true;
     Forms.location_href := "https://bigrock-intel.ai/events/ai-week?utm_source=booth";
     Forms.location_search := [("utm_source", "booth")];
     Forms.document_title := "AI Week Frankfurt";
     Forms.document_cookie := "hubspotutk=abc123; analytics-consent=true";
     Forms.now := 1700000000000;
     Forms.fetch := fun _ => Forms.Response true (Some "{}") |}.

(** The payload [handleSubmit] builds on that page. *)
Definition accepted_payload : Forms.payload :=
  Eval vm_compute in
    match Forms.buildPayload (H := Examples.plain_decoder) accepting_environment
            (Forms.collect Examples.quick_email accepting_environment)
            (Some (Forms.location_href accepting_environment))
            (Some (Forms.document_title accepting_environment))
            (Some "I agree to allow Big Rock Intelligence to store and process my personal data.")
            (Some "I agree to receive marketing communications from Big Rock Intelligence.")
    with
    | Some body => body
    | None => Examples.empty_payload
    end.

(** A visitor whose cookie string has a stray percent sign. *)
Definition undecodable_environment : Forms.environment :=
  {| Forms.entries := Forms.entries Examples.failing_environment;
     Forms.BRI_populateFormFields := false;
     Forms.location_href := "https://bigrock-intel.ai/events/ai-week";
     Forms.location_search := [];
     Forms.document_title := "AI Week Frankfurt";
     Forms.document_cookie := "discount=50%; analytics-consent=true";
     Forms.now := 1700000000000;
     Forms.fetch := fun _ => Forms.Response true (Some "{}") |}.

(** A transport whose answers are fine but carry no JSON. *)
Definition garbled_environment : Forms.environment :=
  {| Forms.entries := Forms.entries Examples.failing_environment;
     Forms.BRI_populateFormFields := false;
     Forms.location_href := "https://bigrock-intel.ai/events/ai-week";
     Forms.location_search := [];
     Forms.document_title := "AI Week Frankfurt";
     Forms.document_cookie := "hubspotutk=abc123; analytics-consent=true";
     Forms.now := 1700000000000;
     Forms.fetch := fun _ => Forms.Response true None |}.

(** A visitor who fills in every field and ticks the box. *)
Definition keen_visitor : FormConfigs.visitor :=
  {| FormConfigs.typed :=
       fun name =>
         if String.eqb name "email" then "user@example.com"
         else if String.eqb name "company" then "Example GmbH"
         else if String.eqb name "interest_area" then "eu_ai_act"
         else EmptyString;
     FormConfigs.ticked := true |}.

(** The page as that visitor submits the form of a definition. *)
Definition submitting (d : FormConfigs.form_definition) : Forms.environment :=
  {| Forms.entries := FormConfigs.FormData (FormConfigs.render d) keen_visitor;
     Forms.BRI_populateFormFields := false;
     Forms.location_href := "https://bigrock-intel.ai/events/ai-week";
     Forms.location_search := [];
     Forms.document_title := "AI Week Frankfurt";
     Forms.document_cookie := "hubspotutk=abc123";
     Forms.now := 1700000000000;
     Forms.fetch := fun _ => Forms.Response true (Some "{}") |}.

(** A jar with the tracking cookie of the CRM and the consent cookie. *)
Definition tracked_jar : list cookie :=
  [ Cookie "hubspotutk" "abc123" 0 "/"; Examples.consent_cookie "true" ].

(** A page on which the hero section has been reported. *)
Definition hero_reported : world :=
  Analytics.trackSectionEngagement "hero" "top"
    (Examples.fresh Examples.qr_document Examples.rejected_storage).

End Scenes.

(** * Properties *)

(** ** Strings and the cookie getter *)

#[local] Arguments String.append !_ _ / : simpl nomatch.

Section StringFacts.
Import Browser Spec.

Lemma has_char_app c a b :
  has_char c (a +:+ b) = has_char c a || has_char c b.
Proof.
  induction a as [|x a IH]; simpl; [reflexivity|].
  rewrite IH. now rewrite orb_assoc.
Qed.

Lemma split_without_sep sep s :
  has_char sep s = false -> JS.split sep s = [s].
Proof.
  induction s as [|x s IH]; simpl; [reflexivity|].
  intros Hs. apply orb_false_iff in Hs as [Hx Hs].
  rewrite Hx, (IH Hs). reflexivity.
Qed.

Lemma split_at_sep sep a b :
  has_char sep a = false ->
  JS.split sep (a +:+ String sep b) = a :: JS.split sep b.
Proof.
  induction a as [|x a IH]; simpl.
  - intros _. now rewrite Ascii.eqb_refl.
  - intros Hs. apply orb_false_iff in Hs as [Hx Hs].
    rewrite Hx, (IH Hs). reflexivity.
Qed.

Lemma trimEnd_keeps c s :
  JS.is_whitespace c = false -> JS.trimEnd (String c s) = String c (JS.trimEnd s).
Proof.
  intros Hc. simpl. destruct (JS.trimEnd s); [now rewrite Hc | reflexivity].
Qed.

Lemma trimEnd_app a t :
  JS.trimEnd t <> EmptyString -> JS.trimEnd (a +:+ t) = a +:+ JS.trimEnd t.
Proof.
  intros Ht. induction a as [|x a IH]; [reflexivity|].
  change (String x a +:+ t) with (String x (a +:+ t)).
  change (String x a +:+ JS.trimEnd t) with (String x (a +:+ JS.trimEnd t)).
  cbn [JS.trimEnd]. rewrite IH.
  destruct (a +:+ JS.trimEnd t) eqn:E; [|reflexivity].
  destruct a; simpl in E; [contradiction | discriminate].
Qed.

Lemma trimStart_id s : starts_with_whitespace s = false -> JS.trimStart s = s.
Proof. destruct s as [|c s]; simpl; [reflexivity|]. now intros ->. Qed.

(** A rendered cookie, trimmed: only the end of the value can go. *)
Lemma trim_render c :
  starts_with_whitespace (ck_name c) = false ->
  JS.trim (render c) = ck_name c +:+ String "=" (JS.trimEnd (ck_value c)).
Proof.
  intros Hn. unfold JS.trim, render.
  rewrite trimStart_id.
  - change ("=" +:+ ck_value c) with (String "="%char (ck_value c)).
    rewrite trimEnd_app; rewrite (trimEnd_keeps "="%char) by reflexivity;
      [reflexivity | discriminate].
  - destruct (ck_name c); [reflexivity | exact Hn].
Qed.

Lemma startsWith_name_eq k n v :
  has_char "=" k = false -> has_char "=" n = false ->
  JS.startsWith (k +:+ "=") (n +:+ String "=" v) = String.eqb n k.
Proof.
  revert n.
  induction k as [|x k IH]; intros [|y n];
    cbn [has_char String.append JS.startsWith String.eqb]; intros Hk Hn.
  - now rewrite Ascii.eqb_refl.
  - apply orb_false_iff in Hn as [Hy _].
    now rewrite (Ascii.eqb_sym "=" y), Hy.
  - apply orb_false_iff in Hk as [Hx _]. now rewrite Hx.
  - apply orb_false_iff in Hk as [_ Hk]. apply orb_false_iff in Hn as [_ Hn].
    rewrite (Ascii.eqb_sym x y).
    destruct (Ascii.eqb y x); [now apply IH | reflexivity].
Qed.

Lemma is_consent_entry_render c :
  wf_cookie c -> is_consent_entry (render c) = is_consent_cookie c.
Proof.
  intros (_ & Heq & Hws & _). unfold is_consent_entry.
  rewrite trim_render by exact Hws.
  now apply (startsWith_name_eq "analytics-consent").
Qed.

Lemma is_consent_entry_space e :
  is_consent_entry (String " " e) = is_consent_entry e.
Proof. reflexivity. Qed.

Lemma render_no_semicolon c : wf_cookie c -> has_char ";" (render c) = false.
Proof.
  intros (Hn & _ & _ & Hv). unfold render.
  rewrite !has_char_app, Hn, Hv. reflexivity.
Qed.

Lemma split_document_cookie jar :
  Forall wf_cookie jar -> JS.split ";" (document_cookie jar) = entries jar.
Proof.
  unfold document_cookie, JS.join, entries.
  induction 1 as [|c jar Hc Hjar IH]; [reflexivity|].
  destruct jar as [|c' jar'].
  - simpl. apply split_without_sep, render_no_semicolon, Hc.
  - change (map render (c :: c' :: jar')) with (render c :: map render (c' :: jar')).
    change (String.concat "; " (render c :: map render (c' :: jar')))
      with (render c +:+ String ";" (String " " (String.concat "; " (map render (c' :: jar'))))).
    rewrite split_at_sep by (apply render_no_semicolon, Hc).
    cbn [JS.split]. change (Ascii.eqb " " ";") with false. cbv iota.
    rewrite IH. reflexivity.
Qed.

Lemma find_entries jar :
  Forall wf_cookie jar ->
  find is_consent_entry (entries jar) =
  match find is_consent_cookie jar with
  | Some c =>
      Some (match jar with
            | c0 :: _ => if is_consent_cookie c0 then render c else String " " (render c)
            | [] => render c
            end)
  | None => None
  end.
Proof.
  intros Hwf. unfold entries. destruct Hwf as [|c jar Hc Hjar]; [reflexivity|].
  cbn [map find]. rewrite is_consent_entry_render by exact Hc.
  destruct (is_consent_cookie c); [reflexivity|].
  induction Hjar as [|c' jar Hc' Hjar IH]; [reflexivity|].
  cbn [map find]. rewrite is_consent_entry_space, is_consent_entry_render by exact Hc'.
  destruct (is_consent_cookie c'); [reflexivity | exact IH].
Qed.

(** The consent cookie both scripts find is the first cookie of that
    name, as [name=value], after a space unless it is the first of all. *)
Lemma consentCookie_spec w :
  wf_storage (store w) ->
  consentCookie w =
  match find is_consent_cookie (cookies (store w)) with
  | Some c =>
      Some (match cookies (store w) with
            | c0 :: _ => if is_consent_cookie c0 then render c else String " " (render c)
            | [] => render c
            end)
  | None => None
  end.
Proof.
  intros Hwf. unfold consentCookie.
  rewrite split_document_cookie by exact Hwf.
  now apply find_entries.
Qed.

Lemma find_consent_cookie_recorded s :
  (exists c, find is_consent_cookie (cookies s) = Some c) <-> cookie_recorded s.
Proof.
  unfold cookie_recorded. split.
  - intros [c Hc]. apply find_some in Hc as [Hin Hc].
    exists c. split; [exact Hin | now apply String.eqb_eq].
  - intros (c & Hin & Hc).
    destruct (find is_consent_cookie (cookies s)) as [c'|] eqn:E; [now exists c'|].
    apply (find_none _ _ E) in Hin. unfold is_consent_cookie in Hin.
    rewrite Hc, String.eqb_refl in Hin. discriminate.
Qed.

End StringFacts.

(** ** Consent lookups *)

Section ConsentFacts.
Import Browser Spec.

Lemma includes_true_consent_entry v :
  JS.includes "true" ("analytics-consent" +:+ "=" +:+ v) = JS.includes "true" v.
Proof. reflexivity. Qed.

Lemma includes_true_space e : JS.includes "true" (String " " e) = JS.includes "true" e.
Proof. reflexivity. Qed.

Lemma is_consent_cookie_render c :
  is_consent_cookie c = true -> render c = "analytics-consent" +:+ "=" +:+ ck_value c.
Proof. unfold is_consent_cookie, render. now intros ->%String.eqb_eq. Qed.

(** On a well-formed jar, [hasUserConsent] looks for the substring
    [true] in the value of the first consent cookie, and for the exact
    value [true] in the local store. *)
Lemma hasUserConsent_spec w :
  wf_storage (store w) ->
  Analytics.hasUserConsent w =
  match find is_consent_cookie (cookies (store w)) with
  | Some c => JS.includes "true" (ck_value c)
  | None => false
  end
  || match localStorage (store w) !! "analytics-consent"%string with
     | Some v => String.eqb v "true"
     | None => false
     end.
Proof.
  intros Hwf. unfold Analytics.hasUserConsent, getItem.
  rewrite consentCookie_spec by exact Hwf.
  destruct (find is_consent_cookie (cookies (store w))) as [c|] eqn:E; [|reflexivity].
  apply find_some in E as [_ Hc]. f_equal.
  destruct (cookies (store w)) as [|c0 jar]; [|destruct (is_consent_cookie c0)];
    rewrite ?includes_true_space, (is_consent_cookie_render _ Hc);
    apply includes_true_consent_entry.
Qed.

(** [hasExistingConsent] is truthy exactly when either location holds a
    value for the consent key. *)
Lemma hasExistingConsent_spec w :
  wf_storage (store w) ->
  JS.truthy (Banner.hasExistingConsent w) = true <-> recorded (store w).
Proof.
  intros Hwf. unfold Banner.hasExistingConsent, recorded, getItem.
  rewrite consentCookie_spec by exact Hwf.
  rewrite <- find_consent_cookie_recorded.
  destruct (find is_consent_cookie (cookies (store w))) as [c|] eqn:E.
  - split; [intros _; left; now exists c|intros _].
    apply find_some in E as [_ Hc].
    destruct (cookies (store w)) as [|c0 jar]; [|destruct (is_consent_cookie c0)];
      rewrite ?(is_consent_cookie_render _ Hc); reflexivity.
  - unfold JS.or_else, local_recorded. cbn [JS.truthy].
    destruct (localStorage (store w) !! "analytics-consent"%string) as [v|]; cbn [JS.truthy].
    + split; [intros _; right; now exists v | reflexivity].
    + split; [discriminate | intros [[c Hc]|[v Hv]]; discriminate].
Qed.

Lemma set_cookie_In c jar : In c (set_cookie c jar).
Proof.
  induction jar as [|c' jar IH]; cbn [set_cookie]; [now left|].
  destruct (same_cookie c c'); [now left | now right].
Qed.

Lemma set_cookie_wf c jar :
  wf_cookie c -> Forall wf_cookie jar -> Forall wf_cookie (set_cookie c jar).
Proof.
  intros Hc. induction 1 as [|c' jar Hc' Hjar IH]; cbn [set_cookie].
  - constructor; [exact Hc | constructor].
  - destruct (same_cookie c c'); constructor; assumption.
Qed.

Lemma wf_consent_cookie (accepted : bool) t :
  wf_cookie (Cookie "analytics-consent" (if accepted then "true" else "false") t "/").
Proof. destruct accepted; repeat split. Qed.

(** Where the stored values are the two the scripts write, the substring
    test and the equality test agree. *)
Lemma hasUserConsent_written_values w :
  wf_storage (store w) ->
  (forall c, find is_consent_cookie (cookies (store w)) = Some c ->
             ck_value c = "true"%string \/ ck_value c = "false"%string) ->
  Analytics.hasUserConsent w = true <->
  (exists c, find is_consent_cookie (cookies (store w)) = Some c /\ ck_value c = "true"%string) \/
  localStorage (store w) !! "analytics-consent"%string = Some "true"%string.
Proof.
  intros Hwf Hvalues. rewrite hasUserConsent_spec by exact Hwf.
  rewrite orb_true_iff.
  destruct (find is_consent_cookie (cookies (store w))) as [c|].
  - destruct (Hvalues c eq_refl) as [Hv|Hv]; rewrite Hv.
    + split; [intros _; left; now exists c | intros _; now left].
    + split.
      * intros [Hf|Hl]; [discriminate|]. right.
        destruct (localStorage (store w) !! "analytics-consent"%string) as [v|]; [|discriminate].
        now apply String.eqb_eq in Hl as ->.
      * intros [(c' & [= <-] & Hc')|Hl]; [congruence|]. right. now rewrite Hl.
  - split.
    + intros [Hf|Hl]; [discriminate|]. right.
      destruct (localStorage (store w) !! "analytics-consent"%string) as [v|]; [|discriminate].
      now apply String.eqb_eq in Hl as ->.
    + intros [(c' & Hc' & _)|Hl]; [discriminate|]. right. now rewrite Hl.
Qed.


(** Both lookups read nothing but the storage. *)
Lemma hasUserConsent_store w w' :
  store w' = store w -> Analytics.hasUserConsent w' = Analytics.hasUserConsent w.
Proof.
  unfold Analytics.hasUserConsent, consentCookie, getItem. now intros ->.
Qed.

Lemma hasExistingConsent_store w w' :
  store w' = store w -> Banner.hasExistingConsent w' = Banner.hasExistingConsent w.
Proof.
  unfold Banner.hasExistingConsent, consentCookie, getItem. now intros ->.
Qed.

End ConsentFacts.

(** ** What the tracking functions touch *)

Section TrackingFacts.
Import Browser Spec.
Context `{URLParser}.

Lemma sendVercelEvent_frame e p w :
  surroundings (Analytics.sendVercelEvent e p w) = surroundings w /\
  st (Analytics.sendVercelEvent e p w) = st w /\
  hsq (Analytics.sendVercelEvent e p w) = hsq w /\
  observers (Analytics.sendVercelEvent e p w) = observers w.
Proof. unfold Analytics.sendVercelEvent. now destruct (va w). Qed.

Lemma sendHubSpotEvent_frame e p w :
  surroundings (Analytics.sendHubSpotEvent e p w) = surroundings w /\
  st (Analytics.sendHubSpotEvent e p w) = st w /\
  va (Analytics.sendHubSpotEvent e p w) = va w /\
  observers (Analytics.sendHubSpotEvent e p w) = observers w.
Proof.
  unfold Analytics.sendHubSpotEvent.
  destruct (Analytics.hasUserConsent w); [|easy]. now destruct (hsq w).
Qed.

Lemma surroundings_store w w' : surroundings w' = surroundings w -> store w' = store w.
Proof. unfold surroundings. now intros [= -> _ _ _ _ _ _ _]. Qed.


Lemma sendHubSpotEvent_hsq e p w :
  hsq (Analytics.sendHubSpotEvent e p w) = hsq w \/
  Analytics.hasUserConsent w = true /\
  exists queue item,
    hsq w = Some queue /\ hs_name item = e /\
    hs_command item = "trackCustomBehavioralEvent"%string /\
    hsq (Analytics.sendHubSpotEvent e p w) = Some (queue ++ [item]).
Proof.
  unfold Analytics.sendHubSpotEvent.
  destruct (Analytics.hasUserConsent w); [|now left].
  destruct (hsq w) as [queue|] eqn:E; [|left; exact E].
  right. split; [reflexivity|]. eexists queue, _. cbn. repeat split; reflexivity.
Qed.

Lemma hsq_count_sendHubSpotEvent n e p w :
  hsq_count n (Analytics.sendHubSpotEvent e p w) =
  (hsq_count n w +
   if Analytics.hasUserConsent w && is_some (hsq w) && String.eqb e n then 1 else 0)%nat.
Proof.
  unfold Analytics.sendHubSpotEvent, hsq_count, hsq_log.
  destruct (Analytics.hasUserConsent w); cbn [negb andb]; [|now rewrite Nat.add_0_r].
  destruct (hsq w) as [queue|] eqn:E; cbn [is_some andb hsq with_hsq].
  - rewrite List.filter_app, length_app. cbn. now destruct (String.eqb e n).
  - now rewrite E, Nat.add_0_r.
Qed.

Lemma va_count_sendVercelEvent n e p w :
  va_count n (Analytics.sendVercelEvent e p w) =
  (va_count n w + if is_some (va w) && String.eqb e n then 1 else 0)%nat.
Proof.
  unfold Analytics.sendVercelEvent, va_count, va_log.
  destruct (va w) as [calls|] eqn:E; cbn [is_some andb va with_va].
  - rewrite List.filter_app, length_app. cbn. now destruct (String.eqb e n).
  - now rewrite E, Nat.add_0_r.
Qed.

Lemma va_count_sendHubSpotEvent n e p w :
  va_count n (Analytics.sendHubSpotEvent e p w) = va_count n w.
Proof.
  unfold va_count, va_log.
  now destruct (sendHubSpotEvent_frame e p w) as (_ & _ & -> & _).
Qed.

Lemma hsq_count_sendVercelEvent n e p w :
  hsq_count n (Analytics.sendVercelEvent e p w) = hsq_count n w.
Proof.
  unfold hsq_count, hsq_log.
  now destruct (sendVercelEvent_frame e p w) as (_ & _ & -> & _).
Qed.

Lemma hasUserConsent_sendVercelEvent e p w :
  Analytics.hasUserConsent (Analytics.sendVercelEvent e p w) = Analytics.hasUserConsent w.
Proof.
  apply hasUserConsent_store, surroundings_store, sendVercelEvent_frame.
Qed.

(** Sending neither installs nor removes a vendor global. *)
Lemma sendVercelEvent_available e p w :
  is_some (va (Analytics.sendVercelEvent e p w)) = is_some (va w).
Proof. unfold Analytics.sendVercelEvent. now destruct (va w) eqn:E; cbn; rewrite ?E. Qed.

Lemma sendHubSpotEvent_available e p w :
  is_some (hsq (Analytics.sendHubSpotEvent e p w)) = is_some (hsq w).
Proof.
  unfold Analytics.sendHubSpotEvent.
  destruct (Analytics.hasUserConsent w); [|reflexivity].
  now destruct (hsq w) eqn:E; cbn; rewrite ?E.
Qed.

Lemma send_both_available e1 p1 e2 p2 w :
  let w' := Analytics.sendHubSpotEvent e2 p2 (Analytics.sendVercelEvent e1 p1 w) in
  is_some (va w') = is_some (va w) /\ is_some (hsq w') = is_some (hsq w).
Proof.
  cbv zeta. rewrite sendHubSpotEvent_available. split.
  - destruct (sendHubSpotEvent_frame e2 p2 (Analytics.sendVercelEvent e1 p1 w))
      as (_ & _ & -> & _).
    apply sendVercelEvent_available.
  - now destruct (sendVercelEvent_frame e1 p1 w) as (_ & _ & -> & _).
Qed.

(** A pair of sends, as every tracking function makes it. *)
Lemma send_both_frame e1 p1 e2 p2 w :
  let w' := Analytics.sendHubSpotEvent e2 p2 (Analytics.sendVercelEvent e1 p1 w) in
  surroundings w' = surroundings w /\ st w' = st w /\ observers w' = observers w.
Proof.
  cbv zeta.
  destruct (sendHubSpotEvent_frame e2 p2 (Analytics.sendVercelEvent e1 p1 w))
    as (-> & -> & _ & ->).
  now destruct (sendVercelEvent_frame e1 p1 w) as (-> & -> & _ & ->).
Qed.


Lemma trackCTAClick_frame a b w :
  surroundings (Analytics.trackCTAClick a b w) = surroundings w /\
  st (Analytics.trackCTAClick a b w) = st w /\
  observers (Analytics.trackCTAClick a b w) = observers w.
Proof. apply send_both_frame. Qed.

Lemma trackFormSubmit_frame a w :
  surroundings (Analytics.trackFormSubmit a w) = surroundings w /\
  st (Analytics.trackFormSubmit a w) = st w /\
  observers (Analytics.trackFormSubmit a w) = observers w.
Proof. apply send_both_frame. Qed.

Lemma trackPageView_frame w :
  surroundings (Analytics.trackPageView w) = surroundings w /\
  st (Analytics.trackPageView w) = st w /\
  observers (Analytics.trackPageView w) = observers w.
Proof. apply send_both_frame. Qed.

Lemma trackQRLanding_frame w :
  surroundings (Analytics.trackQRLanding w) = surroundings w /\
  st (Analytics.trackQRLanding w) = st w /\
  observers (Analytics.trackQRLanding w) = observers w.
Proof.
  unfold Analytics.trackQRLanding. destruct (isQR (st w)); [|easy].
  apply send_both_frame.
Qed.

Lemma trackSectionEngagement_frame a b w :
  surroundings (Analytics.trackSectionEngagement a b w) = surroundings w /\
  sectionTimers (st (Analytics.trackSectionEngagement a b w)) = sectionTimers (st w) /\
  observers (Analytics.trackSectionEngagement a b w) = observers w.
Proof.
  unfold Analytics.trackSectionEngagement. case_decide; [easy|].
  match goal with
  | |- context [Analytics.sendHubSpotEvent ?e2 ?p2 (Analytics.sendVercelEvent ?e1 ?p1 ?w1)] =>
      destruct (send_both_frame e1 p1 e2 p2 w1) as (-> & -> & ->)
  end.
  easy.
Qed.

Lemma dwell_elapsed_frame a b w :
  surroundings (Analytics.dwell_elapsed a b w) = surroundings w /\
  observers (Analytics.dwell_elapsed a b w) = observers w.
Proof.
  unfold Analytics.dwell_elapsed.
  destruct (trackSectionEngagement_frame a b w) as (Hs & _ & Ho).
  split; [rewrite <- Hs | rewrite <- Ho]; reflexivity.
Qed.

Lemma setup_frame w :
  let w' := Analytics.setupFormTracking
              (Analytics.setupCTATracking (Analytics.setupSectionObserver w)) in
  surroundings w' = surroundings w /\ st w' = st w /\ va w' = va w /\ hsq w' = hsq w.
Proof.
  unfold Analytics.setupFormTracking, Analytics.setupCTATracking,
    Analytics.setupSectionObserver.
  destruct (sections (doc w)); cbn [doc with_listeners];
    destruct (ctas (doc w)); cbn [doc with_listeners];
    destruct (forms (doc w)); easy.
Qed.

Lemma init_unfold w :
  Analytics.init w =
  if campaign_present w
  then Analytics.setupFormTracking
         (Analytics.setupCTATracking
            (Analytics.setupSectionObserver
               (Analytics.trackQRLanding
                  (Analytics.trackPageView
                     (Analytics.read_context (Analytics.read_campaign w))))))
  else Analytics.read_campaign w.
Proof.
  unfold Analytics.init, campaign_present.
  change (analyticsId (st (Analytics.read_campaign w))) with (campaign_attr (doc w)).
  now destruct (campaign_attr (doc w)) as [[|c a]|].
Qed.

Lemma init_frame w : surroundings (Analytics.init w) = surroundings w.
Proof.
  rewrite init_unfold. destruct (campaign_present w); [|reflexivity].
  set (w2 := Analytics.read_context _).
  destruct (setup_frame (Analytics.trackQRLanding (Analytics.trackPageView w2))) as (-> & _).
  destruct (trackQRLanding_frame (Analytics.trackPageView w2)) as (-> & _).
  now destruct (trackPageView_frame w2) as (-> & _).
Qed.

End TrackingFacts.

(** ** The CRM sink is gated by consent *)

Section CRMGate.
Import Browser Spec.
Context `{URLParser}.

Lemma quiet_refl w : quiet w w.
Proof. now split. Qed.

Lemma quiet_trans w1 w2 w3 : quiet w1 w2 -> quiet w2 w3 -> quiet w1 w3.
Proof. unfold quiet. intros [H1 H2] [H3 H4]. split; congruence. Qed.









Lemma observe_entry_quiet e w : quiet w (Analytics.observe_entry e w).
Proof.
  unfold Analytics.observe_entry.
  destruct (Analytics.entry_visible e), (sectionTimers (st w) !! Analytics.entry_sectionId e);
    now split.
Qed.

Lemma observer_callback_quiet entries w : quiet w (Analytics.observer_callback entries w).
Proof.
  unfold Analytics.observer_callback. revert w.
  induction entries as [|e entries IH]; intros w; [apply quiet_refl|].
  cbn [fold_left]. eapply quiet_trans; [apply observe_entry_quiet | apply IH].
Qed.

Lemma banner_setConsent_false w :
  Banner.setConsent "false" w =
  setItem "analytics-consent" "false"
    (write_cookie (Cookie "analytics-consent" "false" (clock w + Banner.thirty_days) "/") w).
Proof. reflexivity. Qed.

Lemma banner_setConsent_true w :
  Banner.setConsent "true" w =
  let w2 := setItem "analytics-consent" "true"
              (write_cookie (Cookie "analytics-consent" "true" (clock w + Banner.thirty_days) "/") w) in
  if EventAnalytics w then Analytics.setConsent true w2 else w2.
Proof. reflexivity. Qed.


End CRMGate.

(** ** Events sent by [init] *)

Section InitEvents.
Import Browser Spec.
Context `{URLParser}.

Lemma send_both_counts n m e1 p1 e2 p2 w :
  let w' := Analytics.sendHubSpotEvent e2 p2 (Analytics.sendVercelEvent e1 p1 w) in
  va_count n w' = (va_count n w + if is_some (va w) && String.eqb e1 n then 1 else 0)%nat /\
  hsq_count m w' =
    (hsq_count m w +
     if Analytics.hasUserConsent w && is_some (hsq w) && String.eqb e2 m then 1 else 0)%nat.
Proof.
  cbv zeta. rewrite va_count_sendHubSpotEvent, va_count_sendVercelEvent.
  rewrite hsq_count_sendHubSpotEvent, hsq_count_sendVercelEvent.
  rewrite hasUserConsent_sendVercelEvent.
  now destruct (sendVercelEvent_frame e1 p1 w) as (_ & _ & -> & _).
Qed.

Lemma setup_counts n m w :
  let w' := Analytics.setupFormTracking
              (Analytics.setupCTATracking (Analytics.setupSectionObserver w)) in
  va_count n w' = va_count n w /\ hsq_count m w' = hsq_count m w.
Proof.
  cbv zeta. unfold va_count, hsq_count, va_log, hsq_log.
  now destruct (setup_frame w) as (_ & _ & -> & ->).
Qed.





End InitEvents.


(** ** URL sanitizing and the page view *)

Section PageView.
Import Browser Spec.
Context `{URLParser}.

Lemma va_trackQRLanding w calls :
  va w = Some calls -> exists more, va (Analytics.trackQRLanding w) = Some (calls ++ more).
Proof.
  intros Hva. unfold Analytics.trackQRLanding.
  destruct (isQR (st w)); [|exists []; now rewrite app_nil_r].
  match goal with
  | |- context [Analytics.sendHubSpotEvent ?e2 ?p2 (Analytics.sendVercelEvent ?e1 ?p1 w)] =>
      destruct (sendHubSpotEvent_frame e2 p2 (Analytics.sendVercelEvent e1 p1 w))
        as (_ & _ & -> & _)
  end.
  unfold Analytics.sendVercelEvent. rewrite Hva. cbn [va with_va]. now eexists.
Qed.

Lemma hsq_trackQRLanding w queue :
  hsq w = Some queue -> exists more, hsq (Analytics.trackQRLanding w) = Some (queue ++ more).
Proof.
  intros Hq. unfold Analytics.trackQRLanding.
  destruct (isQR (st w)); [|exists []; now rewrite app_nil_r].
  match goal with
  | |- context [Analytics.sendHubSpotEvent ?e2 ?p2 (Analytics.sendVercelEvent ?e1 ?p1 w)] =>
      destruct (sendHubSpotEvent_hsq e2 p2 (Analytics.sendVercelEvent e1 p1 w))
        as [->|(_ & q & item & Hq' & _ & _ & ->)];
      destruct (sendVercelEvent_frame e1 p1 w) as (_ & _ & Hh & _)
  end.
  - rewrite Hh, Hq. exists []. now rewrite app_nil_r.
  - rewrite Hh, Hq in Hq'. injection Hq' as <-. now eexists.
Qed.

(** C9. [sanitizeURL] returns a string on every input: the path name of
    the URL when the input parses, whatever its query and fragment, and
    the root path when it does not.  The page view that [init()] sends
    carries the page URL only as that sanitized path, and the referrer
    only as its sanitized path (or the word [direct] when there is no
    referrer); the properties of the two events are spelled out. *)
Theorem C9_sanitizeURL_path_only (url : string) (w : world) :
  (forall u, new_URL url = Some u -> Analytics.sanitizeURL url = url_pathname u) /\
  (new_URL url = None -> Analytics.sanitizeURL url = "/"%string) /\
  (campaign_present w = true ->
   forall calls, va w = Some calls ->
   exists more,
     va (Analytics.init w) =
     Some (calls ++
           {| va_command := "track"; va_event := "page_view";
              va_properties :=
                [ ("page", JS.VStr (Analytics.sanitizeURL (location_href (doc w))));
                  ("title", JS.VStr (title (doc w)));
                  ("analytics_id", match campaign_attr (doc w) with
                                   | Some a => JS.VStr a | None => JS.VNull end);
                  ("is_qr", JS.VBool (Analytics.detectQRScan w));
                  ("source", Analytics.get_or_null "utm_source" (location_search (doc w)));
                  ("medium", Analytics.get_or_null "utm_medium" (location_search (doc w)));
                  ("campaign", Analytics.get_or_null "utm_campaign" (location_search (doc w)));
                  ("content", Analytics.get_or_null "utm_content" (location_search (doc w)));
                  ("term", Analytics.get_or_null "utm_term" (location_search (doc w))) ]%string |}
           :: more)) /\
  (campaign_present w = true -> Analytics.hasUserConsent w = true ->
   forall queue, hsq w = Some queue ->
   exists more,
     hsq (Analytics.init w) =
     Some (queue ++
           {| hs_command := "trackCustomBehavioralEvent"; hs_name := "Landing Page View";
              hs_properties :=
                [ ("event_type", JS.VStr "page_view");
                  ("page_url", JS.VStr (Analytics.sanitizeURL (location_href (doc w))));
                  ("page_title", JS.VStr (title (doc w)));
                  ("referrer",
                   JS.VStr (if JS.truthy_string (referrer (doc w))
                            then Analytics.sanitizeURL (referrer (doc w))
                            else "direct"));
                  ("analytics_id", match campaign_attr (doc w) with
                                   | Some a => JS.VStr a | None => JS.VNull end);
                  ("is_qr", JS.VBool (Analytics.detectQRScan w));
                  ("campaign", Analytics.get_or_null "utm_campaign" (location_search (doc w)));
                  ("source", Analytics.get_or_null "utm_source" (location_search (doc w)));
                  ("medium", Analytics.get_or_null "utm_medium" (location_search (doc w))) ]%string |}
           :: more)).
Proof.
  split; [|split; [|split]].
  - intros u Hu. unfold Analytics.sanitizeURL. now rewrite Hu.
  - intros Hu. unfold Analytics.sanitizeURL. now rewrite Hu.
  - intros Hcp calls Hva. rewrite init_unfold, Hcp.
    set (w2 := Analytics.read_context (Analytics.read_campaign w)).
    destruct (setup_frame (Analytics.trackQRLanding (Analytics.trackPageView w2)))
      as (_ & _ & -> & _).
    assert (Hpv : va (Analytics.trackPageView w2) = Some (calls ++ [
      {| va_command := "track"; va_event := "page_view";
         va_properties :=
           [ ("page", JS.VStr (Analytics.sanitizeURL (location_href (doc w))));
             ("title", JS.VStr (title (doc w)));
             ("analytics_id", match campaign_attr (doc w) with
                              | Some a => JS.VStr a | None => JS.VNull end);
             ("is_qr", JS.VBool (Analytics.detectQRScan w));
             ("source", Analytics.get_or_null "utm_source" (location_search (doc w)));
             ("medium", Analytics.get_or_null "utm_medium" (location_search (doc w)));
             ("campaign", Analytics.get_or_null "utm_campaign" (location_search (doc w)));
             ("content", Analytics.get_or_null "utm_content" (location_search (doc w)));
             ("term", Analytics.get_or_null "utm_term" (location_search (doc w))) ]%string |} ])).
    { unfold Analytics.trackPageView.
      match goal with
      | |- context [Analytics.sendHubSpotEvent ?e2 ?p2 (Analytics.sendVercelEvent ?e1 ?p1 w2)] =>
          destruct (sendHubSpotEvent_frame e2 p2 (Analytics.sendVercelEvent e1 p1 w2))
            as (_ & _ & -> & _)
      end.
      unfold Analytics.sendVercelEvent. change (va w2) with (va w). rewrite Hva.
      reflexivity. }
    destruct (va_trackQRLanding _ _ Hpv) as [more ->].
    exists more. now rewrite <- app_assoc.
  - intros Hcp Hc queue Hq. rewrite init_unfold, Hcp.
    set (w2 := Analytics.read_context (Analytics.read_campaign w)).
    destruct (setup_frame (Analytics.trackQRLanding (Analytics.trackPageView w2)))
      as (_ & _ & _ & ->).
    assert (Hpv : hsq (Analytics.trackPageView w2) = Some (queue ++ [
      {| hs_command := "trackCustomBehavioralEvent"; hs_name := "Landing Page View";
         hs_properties :=
           [ ("event_type", JS.VStr "page_view");
             ("page_url", JS.VStr (Analytics.sanitizeURL (location_href (doc w))));
             ("page_title", JS.VStr (title (doc w)));
             ("referrer",
              JS.VStr (if JS.truthy_string (referrer (doc w))
                       then Analytics.sanitizeURL (referrer (doc w))
                       else "direct"));
             ("analytics_id", match campaign_attr (doc w) with
                              | Some a => JS.VStr a | None => JS.VNull end);
             ("is_qr", JS.VBool (Analytics.detectQRScan w));
             ("campaign", Analytics.get_or_null "utm_campaign" (location_search (doc w)));
             ("source", Analytics.get_or_null "utm_source" (location_search (doc w)));
             ("medium", Analytics.get_or_null "utm_medium" (location_search (doc w))) ]%string |} ])).
    { unfold Analytics.trackPageView, Analytics.sendHubSpotEvent.
      rewrite hasUserConsent_sendVercelEvent.
      change (Analytics.hasUserConsent w2) with (Analytics.hasUserConsent w).
      rewrite Hc. cbn [negb].
      match goal with
      | |- context [Analytics.sendVercelEvent ?e1 ?p1 w2] =>
          destruct (sendVercelEvent_frame e1 p1 w2) as (_ & -> & -> & _)
      end.
      change (hsq w2) with (hsq w). rewrite Hq. reflexivity. }
    destruct (hsq_trackQRLanding _ _ Hpv) as [more ->].
    exists more. now rewrite <- app_assoc.
Qed.

(** C10. The exported consent setter writes [true] or [false] under the
    local-store key, runs [init()] again when the value is true, and
    leaves the cookie jar as it was; so a visitor whose cookie and local
    store both say [false] ends with a cookie saying [false] and a local
    store saying [true]. *)
Theorem C10_exported_setter_local_only (value : bool) (w : world) :
  let v := (if value then "true" else "false")%string in
  let written :=
    setItem "analytics-consent" v
      (with_setConsent_calls (setConsent_calls w ++ [value]) w) in
  Analytics.setConsent value w = (if value then Analytics.init written else written) /\
  cookies (store (Analytics.setConsent value w)) = cookies (store w) /\
  localStorage (store (Analytics.setConsent value w)) =
    <[ "analytics-consent"%string := v ]> (localStorage (store w)) /\
  (let w0 := Examples.fresh Examples.qr_document Examples.rejected_storage in
   let w1 := Analytics.setConsent true w0 in
   find is_consent_cookie (cookies (store w0)) = Some (Examples.consent_cookie "false") /\
   localStorage (store w0) !! "analytics-consent"%string = Some "false"%string /\
   find is_consent_cookie (cookies (store w1)) = Some (Examples.consent_cookie "false") /\
   localStorage (store w1) !! "analytics-consent"%string = Some "true"%string).
Proof.
  cbv zeta.
  assert (Hstore : forall b w',
    store (Analytics.setConsent b w') =
    Storage (cookies (store w'))
            (<[ "analytics-consent"%string := (if b then "true" else "false")%string ]>
               (localStorage (store w')))).
  { intros b w'. unfold Analytics.setConsent. destruct b; [|reflexivity].
    now rewrite (surroundings_store _ _ (init_frame _)). }
  split; [reflexivity|]. rewrite !Hstore. cbn [cookies localStorage].
  repeat split; reflexivity.
Qed.

End PageView.

(** ** The banner's writes *)

Section BannerWrites.
Import Browser Spec.
Context `{URLParser}.

Lemma analytics_setConsent_store value w :
  store (Analytics.setConsent value w) =
  Storage (cookies (store w))
          (<[ "analytics-consent"%string := (if value then "true" else "false")%string ]>
             (localStorage (store w))).
Proof.
  unfold Analytics.setConsent. cbv zeta. destruct value; [|reflexivity].
  now rewrite (surroundings_store _ _ (init_frame _)).
Qed.

Lemma analytics_setConsent_frame value w :
  doc (Analytics.setConsent value w) = doc w /\
  clock (Analytics.setConsent value w) = clock w /\
  timers (Analytics.setConsent value w) = timers w /\
  next_timer (Analytics.setConsent value w) = next_timer w /\
  EventAnalytics (Analytics.setConsent value w) = EventAnalytics w /\
  console (Analytics.setConsent value w) = console w /\
  setConsent_calls (Analytics.setConsent value w) = setConsent_calls w ++ [value].
Proof.
  unfold Analytics.setConsent. cbv zeta. destruct value; [|easy].
  match goal with |- context [Analytics.init ?w1] => pose proof (init_frame w1) as Hf end.
  unfold surroundings in Hf. injection Hf as _ H1 H2 H3 H4 H5 H6 H7.
  repeat split; (etransitivity; [eassumption | reflexivity]).
Qed.

Lemma banner_setConsent_store (accepted : bool) w :
  let v := (if accepted then "true" else "false")%string in
  store (Banner.setConsent v w) =
  Storage (set_cookie (Cookie "analytics-consent" v (clock w + 2592000000) "/")
                      (cookies (store w)))
          (<[ "analytics-consent"%string := v ]> (localStorage (store w))).
Proof.
  cbv zeta. destruct accepted.
  - rewrite banner_setConsent_true. cbv zeta.
    destruct (EventAnalytics w); [|reflexivity].
    rewrite analytics_setConsent_store. cbn [store cookies localStorage setItem write_cookie with_store].
    now rewrite insert_insert_eq.
  - now rewrite banner_setConsent_false.
Qed.

Lemma banner_setConsent_frame (accepted : bool) w :
  let w' := Banner.setConsent (if accepted then "true" else "false") w in
  doc w' = doc w /\ clock w' = clock w /\ timers w' = timers w /\
  next_timer w' = next_timer w /\ EventAnalytics w' = EventAnalytics w /\
  console w' = console w /\
  setConsent_calls w' =
    setConsent_calls w ++ (if accepted && EventAnalytics w then [true] else []).
Proof.
  cbv zeta. destruct accepted.
  - rewrite banner_setConsent_true. cbv zeta.
    destruct (EventAnalytics w) eqn:E; cbn [andb].
    + set (w2 := setItem _ _ _).
      destruct (analytics_setConsent_frame true w2) as (-> & -> & -> & -> & -> & -> & ->).
      now rewrite <- E.
    + rewrite app_nil_r. now rewrite <- E at 5.
  - rewrite banner_setConsent_false. now rewrite app_nil_r.
Qed.

(** C6, as the code has it.  For either choice the banner's
    [setConsent] writes the string [true] or [false] to the cookie
    [analytics-consent], with an expiry thirty days ahead and path [/],
    and to the local-store key of the same name; and it calls
    [EventAnalytics.setConsent(true)] exactly when the choice is to
    grant and [window.EventAnalytics] is defined. *)
Theorem C6_banner_setConsent_writes_both (accepted : bool) (w : world) :
  let v := (if accepted then "true" else "false")%string in
  let w' := Banner.setConsent v w in
  cookies (store w') =
    set_cookie (Cookie "analytics-consent" v (clock w + 2592000000) "/") (cookies (store w)) /\
  In (Cookie "analytics-consent" v (clock w + 2592000000) "/") (cookies (store w')) /\
  localStorage (store w') = <[ "analytics-consent"%string := v ]> (localStorage (store w)) /\
  localStorage (store w') !! "analytics-consent"%string = Some v /\
  setConsent_calls w' =
    setConsent_calls w ++ (if accepted && EventAnalytics w then [true] else []) /\
  setConsent_calls (Banner.handleConsentChoice accepted w) = setConsent_calls w'.
Proof.
  cbv zeta. rewrite (banner_setConsent_store accepted w). cbn [cookies localStorage].
  split; [reflexivity|]. split; [apply set_cookie_In|]. split; [reflexivity|].
  split; [apply lookup_insert_eq|].
  split; [apply banner_setConsent_frame|].
  unfold Banner.handleConsentChoice.
  set (w1 := Banner.setConsent _ w).
  destruct (banner (doc w1));
    unfold setTimeout, Banner.set_banner;
    cbn [fst EventAnalytics with_timers with_doc];
    destruct (EventAnalytics w1); reflexivity.
Qed.

End BannerWrites.

(** C6, as the specification states it, fails where the analytics script
    is not on the page: the visitor grants consent and nothing is
    signalled. *)
Lemma C6_grant_without_signal_counterexample :
  let w := Examples.banner_only Examples.qr_document Examples.no_storage in
  Browser.EventAnalytics w = false /\
  Browser.setConsent_calls (Banner.setConsent (H := Examples.https_parser) "true" w) = [] /\
  Browser.setConsent_calls
    (Banner.handleConsentChoice (H := Examples.https_parser) true w) = [].
Proof. cbv zeta. repeat split; vm_compute; reflexivity. Qed.

(** C5, second half.  A consent cookie whose value is [untrue], with
    nothing in the local store: no location holds the value [true], and
    [hasUserConsent()] answers true, because the cookie is searched for the
    substring. *)
Theorem C5_substring_counts_as_consent :
  let w := Examples.fresh Examples.qr_document Examples.untrue_storage in
  Spec.wf_storage (Browser.store w) /\
  map Browser.ck_value (List.filter Spec.is_consent_cookie (Browser.cookies (Browser.store w)))
    = ["untrue"%string] /\
  Browser.localStorage (Browser.store w) !! "analytics-consent"%string = None /\
  Browser.consentCookie w = Some " analytics-consent=untrue"%string /\
  Analytics.hasUserConsent w = true.
Proof.
  cbv zeta. split; [|repeat split; vm_compute; reflexivity].
  repeat constructor.
Qed.

(** ** No consent, no CRM event *)

Section CRMGateRuns.
Import Browser Spec.
Context `{URLParser}.








End CRMGateRuns.

(** ** The banner across page loads *)

Section BannerLoads.
Import Browser Spec.
Context `{URLParser}.

Lemma surroundings_fields w w' :
  surroundings w' = surroundings w ->
  store w' = store w /\ doc w' = doc w /\ clock w' = clock w /\ timers w' = timers w /\
  next_timer w' = next_timer w /\ EventAnalytics w' = EventAnalytics w.
Proof. unfold surroundings. intros [= -> -> -> -> -> -> _ _]. easy. Qed.

Lemma decided_surroundings w w' :
  surroundings w' = surroundings w -> decided w -> decided w'.
Proof.
  intros Hs. apply surroundings_fields in Hs as (Hst & Hd & _ & Ht & _).
  unfold decided, no_banner. now rewrite Hst, Hd, Ht.
Qed.

Lemma iter_surroundings n (f : world -> world) w :
  (forall w', surroundings (f w') = surroundings w') ->
  surroundings (Nat.iter n f w) = surroundings w.
Proof.
  intros Hf. induction n as [|n IH]; [reflexivity|].
  change (Nat.iter (S n) f w) with (f (Nat.iter n f w)). now rewrite Hf.
Qed.

Lemma schedule_Forall (P : timer -> Prop) tm pending :
  P tm -> Forall P pending -> Forall P (schedule tm pending).
Proof.
  intros Htm. induction 1 as [|tm' rest Htm' Hrest IH]; cbn [schedule].
  - now constructor.
  - destruct (tm_due tm <? tm_due tm'); repeat constructor; assumption.
Qed.

Lemma filter_Forall {A} (P : A -> Prop) f (l : list A) :
  Forall P l -> Forall P (List.filter f l).
Proof.
  induction 1 as [|x l Hx Hl IH]; cbn [List.filter]; [constructor|].
  destruct (f x); [now constructor | assumption].
Qed.

(** An observer entry starts or clears a dwell timer and nothing else. *)
Lemma observe_entry_decided e w : decided w -> decided (Analytics.observe_entry e w).
Proof.
  intros (Hwf & Hrec & Hb & Ht). unfold Analytics.observe_entry.
  destruct (Analytics.entry_visible e), (sectionTimers (st w) !! Analytics.entry_sectionId e);
    try (now repeat split).
  - repeat split; try assumption. cbn [timers setTimeout with_timers with_st fst].
    apply schedule_Forall; [discriminate | exact Ht].
  - repeat split; try assumption. cbn [timers clearTimeout with_timers with_st].
    now apply filter_Forall.
Qed.

Lemma observer_callback_decided entries w :
  decided w -> decided (Analytics.observer_callback entries w).
Proof.
  unfold Analytics.observer_callback. revert w.
  induction entries as [|e entries IH]; intros w Hw; [exact Hw|].
  cbn [fold_left]. now apply IH, observe_entry_decided.
Qed.

Lemma handleConsentChoice_decided accepted w :
  decided w -> decided (Banner.handleConsentChoice accepted w).
Proof.
  intros (Hwf & Hrec & Hb & Ht). unfold Banner.handleConsentChoice.
  set (w1 := Banner.setConsent _ w).
  destruct (banner_setConsent_frame accepted w) as (Hd & _ & Htm & _). fold w1 in Hd, Htm.
  assert (Hw1 : decided w1).
  { unfold decided, no_banner. rewrite Hd, Htm. unfold w1.
    rewrite banner_setConsent_store. repeat split; try assumption.
    - apply set_cookie_wf; [apply wf_consent_cookie | exact Hwf].
    - right. eexists. apply lookup_insert_eq. }
  rewrite Hd, Hb.
  destruct (EventAnalytics w1); [|exact Hw1].
  revert Hw1. unfold decided, no_banner. easy.
Qed.

Lemma analytics_setConsent_decided value w :
  decided w -> decided (Analytics.setConsent value w).
Proof.
  intros (Hwf & Hrec & Hb & Ht).
  destruct (analytics_setConsent_frame value w) as (Hd & _ & Htm & _).
  unfold decided, no_banner. rewrite Hd, Htm, analytics_setConsent_store.
  repeat split; try assumption. right. eexists. apply lookup_insert_eq.
Qed.

Lemma handle_decided ev w : decided w -> decided (Page.handle ev w).
Proof.
  intros Hw. destruct ev as [|entries|cta|ft|accepted|a b|a b|a|value]; cbn [Page.handle].
  - exact Hw.
  - destruct (observers w); [exact Hw | now apply observer_callback_decided].
  - eapply decided_surroundings; [|exact Hw].
    apply iter_surroundings. intros w'. apply trackCTAClick_frame.
  - eapply decided_surroundings; [|exact Hw].
    apply iter_surroundings. intros w'. apply trackFormSubmit_frame.
  - now apply handleConsentChoice_decided.
  - destruct (EventAnalytics w); [|exact Hw].
    eapply decided_surroundings; [apply trackSectionEngagement_frame | exact Hw].
  - destruct (EventAnalytics w); [|exact Hw].
    eapply decided_surroundings; [apply trackCTAClick_frame | exact Hw].
  - destruct (EventAnalytics w); [|exact Hw].
    eapply decided_surroundings; [apply trackFormSubmit_frame | exact Hw].
  - destruct (EventAnalytics w); [|exact Hw]. now apply analytics_setConsent_decided.
Qed.

(** Timers that fire: none of them shows the banner, so none appears. *)
Lemma fire_decided due w :
  Forall (fun tm => ~ is_show tm) due -> decided w ->
  decided (fold_left
             (fun acc tm =>
                Page.run_callback (tm_callback tm)
                  (with_clock (Z.max (clock acc) (tm_due tm)) acc)) due w).
Proof.
  intros Hdue. revert w. induction Hdue as [|tm due Htm Hdue IH]; intros w Hw; [exact Hw|].
  cbn [fold_left]. apply IH. unfold is_show in Htm.
  destruct (tm_callback tm) as [| |a b]; cbn [Page.run_callback].
  - contradiction.
  - destruct Hw as (Hwf & Hrec & Hb & Ht). now repeat split.
  - eapply decided_surroundings; [apply dwell_elapsed_frame|].
    destruct Hw as (Hwf & Hrec & Hb & Ht). now repeat split.
Qed.

Lemma advance_decided t w : decided w -> decided (Page.advance t w).
Proof.
  intros (Hwf & Hrec & Hb & Ht). unfold Page.advance.
  set (w2 := fold_left _ _ _).
  assert (Hw2 : decided w2).
  { apply fire_decided; [now apply filter_Forall|].
    repeat split; try assumption. cbn [timers with_timers]. now apply filter_Forall. }
  destruct Hw2 as (? & ? & ? & ?). now repeat split.
Qed.

Lemma step_decided w tev : decided w -> decided (Page.step w tev).
Proof. intros Hw. unfold Page.step. now apply handle_decided, advance_decided. Qed.

Lemma run_decided trace w : decided w -> decided (Page.run trace w).
Proof.
  unfold Page.run. revert w. induction trace as [|tev trace IH]; intros w Hw; [exact Hw|].
  cbn [fold_left]. now apply IH, step_decided.
Qed.

Lemma states_decided trace w : decided w -> Forall decided (Page.states trace w).
Proof.
  revert w. induction trace as [|tev trace IH]; intros w Hw; cbn [Page.states].
  - constructor; [exact Hw | constructor].
  - constructor; [exact Hw | now apply IH, step_decided].
Qed.

(** What a page load leaves: the storage it found, no banner yet, and
    the banner's timer exactly when the banner script ran and found no
    decision. *)
Lemma load_shape p t0 s :
  let w := Page.load p t0 s in
  store w = s /\ banner (doc w) = None /\ clock w = t0 /\
  timers w =
    (if Page.banner_script p && negb (JS.truthy (Banner.hasExistingConsent w))
     then [Timer 0 (t0 + 1000) ShowConsentBanner] else []).
Proof.
  cbv zeta. unfold Page.load. cbv zeta.
  match goal with
  | |- context [if Page.analytics_script p then Analytics.init ?x else _] => set (w0 := x)
  end.
  set (w1 := if Page.analytics_script p then Analytics.init w0 else w0).
  assert (Hs : surroundings w1 = surroundings w0)
    by (unfold w1; destruct (Page.analytics_script p); [apply init_frame | reflexivity]).
  apply surroundings_fields in Hs as (Hst & Hd & Hc & Ht & Hn & _).
  change (store w0) with s in Hst. change (clock w0) with t0 in Hc.
  change (timers w0) with (@nil timer) in Ht. change (next_timer w0) with O in Hn.
  destruct (Page.banner_script p); cbn [andb].
  - unfold Banner.init.
    destruct (JS.truthy (Banner.hasExistingConsent w1)) eqn:E; cbn [negb].
    + rewrite E, Hst, Hd, Hc, Ht. easy.
    + rewrite (hasExistingConsent_store w1 (fst (setTimeout ShowConsentBanner 1000 w1)))
        by reflexivity.
      rewrite E. unfold setTimeout. cbn [fst store doc clock timers with_timers negb].
      rewrite Hst, Hd, Hc, Ht, Hn. easy.
  - rewrite Hst, Hd, Hc, Ht. easy.
Qed.

Lemma load_decided p t0 s : wf_storage s -> recorded s -> decided (Page.load p t0 s).
Proof.
  intros Hwf Hrec. destruct (load_shape p t0 s) as (Hst & Hb & _ & Ht).
  unfold decided, no_banner. rewrite Hst, Hb, Ht.
  repeat split; try assumption.
  assert (Htr : JS.truthy (Banner.hasExistingConsent (Page.load p t0 s)) = true)
    by (apply hasExistingConsent_spec; now rewrite Hst).
  rewrite Htr, andb_false_r. constructor.
Qed.

Lemma browse_decided visits s :
  wf_storage s -> recorded s -> Forall decided (Page.browse visits s).
Proof.
  revert s. induction visits as [|v visits IH]; intros s Hwf Hrec; cbn [Page.browse].
  - constructor.
  - pose proof (load_decided (Page.visited v) (Page.loaded_at v) s Hwf Hrec) as Hl.
    apply Forall_app. split.
    + now apply states_decided.
    + destruct (run_decided (Page.activity v) _ Hl) as (Hwf' & Hrec' & _).
      now apply IH.
Qed.

(** The storage only ever gains a value for the consent key. *)
Lemma fire_store due w :
  store (fold_left
           (fun acc tm =>
              Page.run_callback (tm_callback tm)
                (with_clock (Z.max (clock acc) (tm_due tm)) acc)) due w) = store w.
Proof.
  revert w. induction due as [|tm due IH]; intros w; [reflexivity|].
  cbn [fold_left]. rewrite IH.
  destruct (tm_callback tm) as [| |a b]; cbn [Page.run_callback]; [reflexivity..|].
  now rewrite (surroundings_store _ _ (proj1 (dwell_elapsed_frame a b _))).
Qed.

Lemma advance_store t w : store (Page.advance t w) = store w.
Proof. unfold Page.advance. cbv zeta. cbn [store with_clock]. now rewrite fire_store. Qed.

Lemma on_record_insert s v :
  wf_storage s -> on_record (Storage (cookies s) (<[ "analytics-consent"%string := v ]> (localStorage s))).
Proof. intros Hwf. split; [exact Hwf|]. right. exists v. apply lookup_insert_eq. Qed.

Lemma on_record_choice (accepted : bool) t s :
  wf_storage s ->
  on_record
    (Storage (set_cookie (Cookie "analytics-consent" (if accepted then "true" else "false") t "/")
                         (cookies s))
             (<[ "analytics-consent"%string := (if accepted then "true" else "false")%string ]>
                (localStorage s))).
Proof.
  intros Hwf. split.
  - apply set_cookie_wf; [apply wf_consent_cookie | exact Hwf].
  - right. eexists. apply lookup_insert_eq.
Qed.

Lemma handleConsentChoice_store accepted w :
  store (Banner.handleConsentChoice accepted w) =
  store (Banner.setConsent (if accepted then "true" else "false") w).
Proof.
  unfold Banner.handleConsentChoice. cbv zeta.
  set (w1 := Banner.setConsent _ w).
  destruct (banner (doc w1));
    unfold setTimeout, Banner.set_banner;
    cbn [fst EventAnalytics with_timers with_doc];
    destruct (EventAnalytics w1); reflexivity.
Qed.

Lemma handle_on_record ev w :
  wf_storage (store w) ->
  store (Page.handle ev w) = store w \/ on_record (store (Page.handle ev w)).
Proof.
  intros Hwf. destruct ev as [|entries|cta|ft|accepted|a b|a b|a|value]; cbn [Page.handle].
  - now left.
  - left. destruct (observers w); [reflexivity | apply observer_callback_quiet].
  - left. apply surroundings_store, iter_surroundings. intros w'. apply trackCTAClick_frame.
  - left. apply surroundings_store, iter_surroundings. intros w'. apply trackFormSubmit_frame.
  - right. rewrite handleConsentChoice_store, banner_setConsent_store.
    now apply on_record_choice.
  - left. destruct (EventAnalytics w); [|reflexivity].
    apply surroundings_store, trackSectionEngagement_frame.
  - left. destruct (EventAnalytics w); [|reflexivity].
    apply surroundings_store, trackCTAClick_frame.
  - left. destruct (EventAnalytics w); [|reflexivity].
    apply surroundings_store, trackFormSubmit_frame.
  - destruct (EventAnalytics w); [|now left].
    right. rewrite analytics_setConsent_store. now apply on_record_insert.
Qed.

Lemma run_on_record trace w :
  on_record (store w) -> on_record (store (Page.run trace w)).
Proof.
  unfold Page.run. revert w. induction trace as [|[t ev] trace IH]; intros w Hw; [exact Hw|].
  cbn [fold_left]. apply IH. unfold Page.step. cbn [fst snd].
  assert (Hw1 : on_record (store (Page.advance t w))) by (now rewrite advance_store).
  destruct (handle_on_record ev (Page.advance t w) (proj1 Hw1)) as [->|Hr]; assumption.
Qed.

(** C4. The banner's [init] sets the timer that shows the banner, one
    second ahead, exactly when neither the cookie jar nor the local
    store holds a value for the consent key.  On a page that runs the
    banner script the banner is therefore absent before that second has
    passed, and present after it exactly when no decision was on record
    at the load.  And over any sequence of page loads, with whatever
    happens on each page, once a decision is on record in either
    location no page shows the banner or schedules it; in particular
    after the visitor has accepted or rejected, whatever else happens on
    that page. *)
Theorem C4_banner_only_without_decision :
  (forall w, wf_storage (store w) ->
     (recorded (store w) -> Banner.init w = w) /\
     (~ recorded (store w) -> Banner.init w = fst (setTimeout ShowConsentBanner 1000 w))) /\
  (forall p t0 s t, Page.banner_script p = true -> wf_storage s ->
     (t < t0 + 1000 -> banner (doc (Page.advance t (Page.load p t0 s))) = None) /\
     (t0 + 1000 <= t ->
      (banner (doc (Page.advance t (Page.load p t0 s))) <> None <-> ~ recorded s))) /\
  (forall visits s, wf_storage s -> recorded s ->
     Forall no_banner (Page.browse visits s)) /\
  (forall w accepted trace visits, wf_storage (store w) ->
     let s := store (Page.run trace (Banner.handleConsentChoice accepted w)) in
     recorded s /\ Forall no_banner (Page.browse visits s)).
Proof.
  split; [|split; [|split]].
  - intros w Hwf. pose proof (hasExistingConsent_spec w Hwf) as Hspec.
    unfold Banner.init.
    destruct (JS.truthy (Banner.hasExistingConsent w)); cbn [negb]; split; intros Hr.
    + reflexivity.
    + exfalso. apply Hr, Hspec. reflexivity.
    + apply Hspec in Hr. discriminate.
    + reflexivity.
  - intros p t0 s t Hp Hwf.
    destruct (load_shape p t0 s) as (Hst & Hb & Hc & Ht).
    set (w := Page.load p t0 s) in *.
    assert (Hspec : JS.truthy (Banner.hasExistingConsent w) = true <-> recorded s)
      by (rewrite <- Hst; apply hasExistingConsent_spec; now rewrite Hst).
    rewrite Hp in Ht. cbn [andb] in Ht.
    unfold Page.advance. rewrite Ht.
    destruct (JS.truthy (Banner.hasExistingConsent w)); cbn [negb List.filter].
    + cbn [fold_left doc with_clock with_timers]. split; [intros _; exact Hb|].
      intros _. rewrite Hb. split; [congruence|]. intros Hn. exfalso. now apply Hn, Hspec.
    + unfold Page.is_due. cbn [tm_due]. split; intros Hlt.
      * destruct (Z.leb_spec (t0 + 1000) t); [lia|]. cbn [negb fold_left doc with_clock with_timers].
        exact Hb.
      * destruct (Z.leb_spec (t0 + 1000) t); [|lia]. cbn. split; [|congruence].
        intros _ Hr. apply Hspec in Hr. discriminate.
  - intros visits s Hwf Hrec.
    eapply List.Forall_impl; [|now apply browse_decided].
    now intros w (_ & _ & Hnb).
  - intros w accepted trace visits Hwf. cbv zeta.
    assert (Hrec : on_record (store (Page.run trace (Banner.handleConsentChoice accepted w)))).
    { apply run_on_record. rewrite handleConsentChoice_store, banner_setConsent_store.
      now apply on_record_choice. }
    destruct Hrec as [Hwf' Hrec]. split; [exact Hrec|].
    eapply List.Forall_impl; [|now apply browse_decided].
    now intros w' (_ & _ & Hnb).
Qed.

End BannerLoads.

(** ** Section engagement *)

Section SectionEngagement.
Import Browser Spec.
Context `{URLParser}.

(** *** What happens aside of section tracking *)

Lemma aside_refl w : aside w w.
Proof. repeat split; auto. Qed.

Lemma aside_trans w1 w2 w3 : aside w1 w2 -> aside w2 w3 -> aside w1 w3.
Proof.
  unfold aside. intros (H1 & H2 & H3) (H4 & H5 & H6).
  repeat split; [congruence | lia | auto].
Qed.

(** A change to fields that section tracking never reads. *)
Lemma aside_fields w w' :
  st w' = st w -> timers w' = timers w -> va w' = va w -> hsq w' = hsq w ->
  (observers w <= observers w')%nat -> aside w w'.
Proof.
  intros Hst Ht Hva Hh Ho.
  unfold aside, section_view, engagement_calls, engagement_items, va_log, hsq_log, utm_ok.
  rewrite Hst, Ht, Hva, Hh. auto.
Qed.

Lemma surroundings_timers w w' : surroundings w' = surroundings w -> timers w' = timers w.
Proof. intros Hs. now apply surroundings_fields in Hs. Qed.

Lemma sendVercelEvent_aside e p w :
  String.eqb e "section_engagement" = false -> aside w (Analytics.sendVercelEvent e p w).
Proof.
  intros He. destruct (sendVercelEvent_frame e p w) as (Hs & Hst & Hh & Ho).
  unfold aside, section_view, utm_ok.
  rewrite Hst, (surroundings_timers _ _ Hs), Ho. split; [|split; [lia | auto]].
  f_equal; [f_equal|].
  - unfold engagement_calls, va_log, Analytics.sendVercelEvent.
    destruct (va w) as [calls|] eqn:E; cbn [va with_va]; [|now rewrite E].
    rewrite List.filter_app. cbn [List.filter va_event]. rewrite He. apply app_nil_r.
  - unfold engagement_items, hsq_log. now rewrite Hh.
Qed.

Lemma sendHubSpotEvent_aside e p w :
  String.eqb e "Section Engagement" = false -> aside w (Analytics.sendHubSpotEvent e p w).
Proof.
  intros He. destruct (sendHubSpotEvent_frame e p w) as (Hs & Hst & Hv & Ho).
  unfold aside, section_view, utm_ok.
  rewrite Hst, (surroundings_timers _ _ Hs), Ho. split; [|split; [lia | auto]].
  f_equal; [f_equal|].
  - unfold engagement_calls, va_log. now rewrite Hv.
  - unfold engagement_items, hsq_log, Analytics.sendHubSpotEvent.
    destruct (Analytics.hasUserConsent w); cbn [negb]; [|reflexivity].
    destruct (hsq w) as [queue|] eqn:E; cbn [hsq with_hsq]; [|now rewrite E].
    rewrite List.filter_app. cbn [List.filter hs_name]. rewrite He. apply app_nil_r.
Qed.

Lemma send_both_aside e1 p1 e2 p2 w :
  String.eqb e1 "section_engagement" = false ->
  String.eqb e2 "Section Engagement" = false ->
  aside w (Analytics.sendHubSpotEvent e2 p2 (Analytics.sendVercelEvent e1 p1 w)).
Proof.
  intros H1 H2. apply (aside_trans _ (Analytics.sendVercelEvent e1 p1 w));
    [now apply sendVercelEvent_aside | now apply sendHubSpotEvent_aside].
Qed.

Lemma trackCTAClick_aside a b w : aside w (Analytics.trackCTAClick a b w).
Proof. now apply send_both_aside. Qed.

Lemma trackFormSubmit_aside a w : aside w (Analytics.trackFormSubmit a w).
Proof. now apply send_both_aside. Qed.

Lemma trackPageView_aside w : aside w (Analytics.trackPageView w).
Proof. now apply send_both_aside. Qed.

Lemma trackQRLanding_aside w : aside w (Analytics.trackQRLanding w).
Proof.
  unfold Analytics.trackQRLanding. destruct (isQR (st w)); [|apply aside_refl].
  now apply send_both_aside.
Qed.

Lemma read_campaign_aside w : aside w (Analytics.read_campaign w).
Proof. repeat split; auto. Qed.

Lemma read_context_aside w : aside w (Analytics.read_context w).
Proof. repeat split; auto. Qed.

Lemma setup_aside w :
  aside w (Analytics.setupFormTracking
             (Analytics.setupCTATracking (Analytics.setupSectionObserver w))).
Proof.
  unfold Analytics.setupFormTracking, Analytics.setupCTATracking,
    Analytics.setupSectionObserver.
  destruct (sections (doc w)); cbn [doc with_listeners];
    destruct (ctas (doc w)); cbn [doc with_listeners];
    destruct (forms (doc w)); apply aside_fields; cbn; auto.
Qed.

Lemma init_aside w : aside w (Analytics.init w).
Proof.
  rewrite init_unfold. destruct (campaign_present w); [|apply read_campaign_aside].
  eapply aside_trans; [apply read_campaign_aside|].
  eapply aside_trans; [apply read_context_aside|].
  eapply aside_trans; [apply trackPageView_aside|].
  eapply aside_trans; [apply trackQRLanding_aside|].
  apply setup_aside.
Qed.

Lemma analytics_setConsent_aside value w : aside w (Analytics.setConsent value w).
Proof.
  unfold Analytics.setConsent. cbv zeta.
  destruct value; [|now apply aside_fields].
  eapply aside_trans; [|apply init_aside]. now apply aside_fields.
Qed.

Lemma banner_setConsent_aside (accepted : bool) w :
  aside w (Banner.setConsent (if accepted then "true" else "false") w).
Proof.
  destruct accepted.
  - rewrite banner_setConsent_true. cbv zeta.
    destruct (EventAnalytics w); [|now apply aside_fields].
    eapply aside_trans; [|apply analytics_setConsent_aside]. now apply aside_fields.
  - rewrite banner_setConsent_false. now apply aside_fields.
Qed.

Lemma filter_schedule f tm pending :
  f tm = false -> List.filter f (schedule tm pending) = List.filter f pending.
Proof.
  intros Hf. induction pending as [|tm' rest IH]; cbn [schedule List.filter].
  - now rewrite Hf.
  - destruct (tm_due tm <? tm_due tm'); cbn [List.filter]; [now rewrite Hf|].
    now rewrite IH.
Qed.

Lemma handleConsentChoice_aside accepted w :
  aside w (Banner.handleConsentChoice accepted w).
Proof.
  unfold Banner.handleConsentChoice. cbv zeta.
  set (w1 := Banner.setConsent _ w).
  match goal with |- context [EventAnalytics ?x] => set (w2 := x) end.
  assert (H12 : aside w1 w2).
  { unfold w2. destruct (banner (doc w1)); [|apply aside_refl].
    unfold aside, section_view, setTimeout, utm_ok.
    cbn [fst st timers with_timers with_doc Banner.set_banner observers].
    rewrite filter_schedule by reflexivity. auto. }
  eapply aside_trans; [apply (banner_setConsent_aside accepted)|]. fold w1.
  eapply aside_trans; [exact H12|].
  destruct (EventAnalytics w2); [now apply aside_fields | apply aside_refl].
Qed.

Lemma iter_aside n (f : world -> world) w :
  (forall w', aside w' (f w')) -> aside w (Nat.iter n f w).
Proof.
  intros Hf. induction n as [|n IH]; [apply aside_refl|].
  change (Nat.iter (S n) f w) with (f (Nat.iter n f w)).
  eapply aside_trans; [exact IH | apply Hf].
Qed.

(** *** At most one engagement event per section *)

Lemma view_fields w w' :
  section_view w' = section_view w ->
  trackedSections (st w') = trackedSections (st w) /\
  sectionTimers (st w') = sectionTimers (st w) /\
  List.filter is_dwell (timers w') = List.filter is_dwell (timers w) /\
  engagement_calls w' = engagement_calls w /\
  engagement_items w' = engagement_items w.
Proof. unfold section_view. intros [= -> -> -> -> ->]. easy. Qed.



Lemma own_prop_set_prop_ne {A} k k' (v : A) o :
  k <> k' -> JS.own_prop k (JS.set_prop k' v o) = JS.own_prop k o.
Proof.
  intros Hne. induction o as [|[k0 v0] o IH]; cbn [JS.set_prop JS.own_prop].
  - destruct (String.eqb_spec k k'); [contradiction | reflexivity].
  - destruct (String.eqb_spec k' k0) as [->|Hk0]; cbn [JS.own_prop].
    + destruct (String.eqb_spec k k0); [contradiction | reflexivity].
    + now rewrite IH.
Qed.

Lemma own_prop_assign_none {A} k (o extra : list (string * A)) :
  JS.own_prop k extra = None -> JS.own_prop k (JS.assign o extra) = JS.own_prop k o.
Proof.
  unfold JS.assign. revert o.
  induction extra as [|[k' v'] extra IH]; intros o; cbn [fold_left JS.own_prop fst snd];
    [reflexivity|].
  destruct (String.eqb_spec k k') as [->|Hne]; [discriminate|].
  intros Hnone. rewrite IH by exact Hnone. now apply own_prop_set_prop_ne.
Qed.

Lemma names_section_spread sid props extra :
  JS.own_prop "section_id" extra = None ->
  names_section sid (JS.spread props extra) = names_section sid props.
Proof.
  intros Hnone. unfold names_section, JS.get_prop, JS.spread.
  now rewrite own_prop_assign_none by exact Hnone.
Qed.

Lemma va_engagements_send sid p w :
  utm_ok w ->
  va_engagements sid (Analytics.sendVercelEvent "section_engagement" p w) =
  (va_engagements sid w + if is_some (va w) && names_section sid p then 1 else 0)%nat.
Proof.
  intros Hok. unfold va_engagements, engagement_calls, va_log, Analytics.sendVercelEvent.
  destruct (va w) as [calls|] eqn:E; cbn [va with_va is_some andb]; [|rewrite E; lia].
  rewrite !List.filter_app, length_app.
  cbn [List.filter va_event va_properties].
  change (String.eqb "section_engagement" "section_engagement") with true. cbv iota.
  cbn [List.filter va_properties]. rewrite names_section_spread by exact Hok.
  now destruct (names_section sid p).
Qed.

Lemma hsq_engagements_send sid p w :
  hsq_engagements sid (Analytics.sendHubSpotEvent "Section Engagement" p w) =
  (hsq_engagements sid w +
   if Analytics.hasUserConsent w && is_some (hsq w) && names_section sid p then 1 else 0)%nat.
Proof.
  unfold hsq_engagements, engagement_items, hsq_log, Analytics.sendHubSpotEvent.
  destruct (Analytics.hasUserConsent w); cbn [negb andb]; [|lia].
  destruct (hsq w) as [queue|] eqn:E; cbn [hsq with_hsq is_some andb]; [|rewrite E; lia].
  rewrite !List.filter_app, length_app.
  cbn [List.filter hs_name hs_properties].
  change (String.eqb "Section Engagement" "Section Engagement") with true. cbv iota.
  cbn [List.filter hs_properties]. rewrite names_section_spread by reflexivity.
  now destruct (names_section sid p).
Qed.











(** *** No engagement below the dwell time *)




















End SectionEngagement.

(** ** The matcher decides the language of the expression *)

Section RegexFacts.
Import Regex.

Lemma append_empty s1 s2 : s1 +:+ s2 = EmptyString -> s1 = EmptyString /\ s2 = EmptyString.
Proof. destruct s1; [now split | discriminate]. Qed.

Lemma append_cons s1 s2 c s :
  s1 +:+ s2 = String c s ->
  (s1 = EmptyString /\ s2 = String c s) \/
  (exists s1', s1 = String c s1' /\ s = s1' +:+ s2).
Proof.
  destruct s1 as [|c1 s1]; cbn.
  - intros ->. now left.
  - intros [= -> <-]. right. now exists s1.
Qed.

Lemma matches_seq_inv r1 r2 s :
  matches (Seq r1 r2) s -> exists s1 s2, s = s1 +:+ s2 /\ matches r1 s1 /\ matches r2 s2.
Proof. inversion 1; subst. eauto. Qed.

Lemma matches_alt_inv r1 r2 s : matches (Alt r1 r2) s -> matches r1 s \/ matches r2 s.
Proof. inversion 1; subst; auto. Qed.

Lemma nullable_matches r : nullable r = true <-> matches r EmptyString.
Proof.
  induction r as [| |p|r1 IH1 r2 IH2|r1 IH1 r2 IH2|r IH]; cbn [nullable].
  - split; [discriminate | inversion 1].
  - split; [constructor | reflexivity].
  - split; [discriminate | inversion 1].
  - rewrite andb_true_iff, IH1, IH2. split.
    + intros [H1 H2]. exact (m_seq _ _ _ _ H1 H2).
    + intros (s1 & s2 & Heq & H1 & H2)%matches_seq_inv.
      symmetry in Heq. apply append_empty in Heq as [-> ->]. now split.
  - rewrite orb_true_iff, IH1, IH2. split.
    + intros [H1|H2]; [now apply m_alt_l | now apply m_alt_r].
    + apply matches_alt_inv.
  - split; [constructor | reflexivity].
Qed.

Lemma deriv_sound c r s : matches (deriv c r) s -> matches r (String c s).
Proof.
  revert s. induction r as [| |p|r1 IH1 r2 IH2|r1 IH1 r2 IH2|r IH]; intros s; cbn [deriv].
  - inversion 1.
  - inversion 1.
  - destruct (p c) eqn:Hp; inversion 1; subst. now constructor.
  - assert (Hseq : matches (Seq (deriv c r1) r2) s -> matches (Seq r1 r2) (String c s)).
    { intros (s1 & s2 & -> & H1 & H2)%matches_seq_inv.
      exact (m_seq _ _ _ _ (IH1 _ H1) H2). }
    destruct (nullable r1) eqn:Hn; [|exact Hseq].
    intros [Hl|Hr]%matches_alt_inv; [now apply Hseq|].
    apply nullable_matches in Hn.
    exact (m_seq _ _ _ _ Hn (IH2 _ Hr)).
  - intros [Hl|Hr]%matches_alt_inv; [apply m_alt_l | apply m_alt_r]; auto.
  - intros (s1 & s2 & -> & H1 & H2)%matches_seq_inv.
    exact (m_star_cons _ _ _ (IH _ H1) H2).
Qed.

Lemma deriv_complete r s0 :
  matches r s0 -> forall c s, s0 = String c s -> matches (deriv c r) s.
Proof.
  induction 1 as [|p c0 Hp|r1 r2 s1 s2 H1 IH1 H2 IH2|r1 r2 s0 H1 IH1|r1 r2 s0 H2 IH2
                  |r|r s1 s2 H1 IH1 H2 IH2];
    intros c s Heq; cbn [deriv].
  - discriminate.
  - injection Heq as -> <-. rewrite Hp. constructor.
  - apply append_cons in Heq as [[-> ->]|(s1' & -> & ->)].
    + rewrite (proj2 (nullable_matches r1) H1). apply m_alt_r. now apply IH2.
    + pose proof (m_seq _ _ _ _ (IH1 c s1' eq_refl) H2) as Hseq.
      destruct (nullable r1); [now apply m_alt_l | exact Hseq].
  - apply m_alt_l. now apply IH1.
  - apply m_alt_r. now apply IH2.
  - discriminate.
  - apply append_cons in Heq as [[-> ->]|(s1' & -> & ->)].
    + now apply IH2.
    + exact (m_seq _ _ _ _ (IH1 c s1' eq_refl) H2).
Qed.

Lemma matches_class_inv p s :
  matches (Class p) s <-> exists c, s = String c EmptyString /\ p c = true.
Proof.
  split.
  - inversion 1; subst. eauto.
  - intros (c & -> & Hp). now constructor.
Qed.

Lemma matches_star_class p s : matches (Star (Class p)) s <-> Spec.all_chars p s = true.
Proof.
  split.
  - intros Hm. remember (Star (Class p)) as r eqn:Er.
    induction Hm as [| | | | | r'|r' s1 s2 H1 _ H2 IH2]; try discriminate; [reflexivity|].
    injection Er as ->. apply matches_class_inv in H1 as (c & -> & Hp).
    cbn. rewrite Hp. now apply IH2.
  - induction s as [|c s IH]; cbn [Spec.all_chars]; [constructor|].
    intros [Hp Hs]%andb_prop.
    exact (m_star_cons _ _ _ (m_class p c Hp) (IH Hs)).
Qed.

Lemma matches_plus_class p s :
  matches (Plus (Class p)) s <-> s <> EmptyString /\ Spec.all_chars p s = true.
Proof.
  unfold Plus. split.
  - intros (s1 & s2 & -> & (c & -> & Hp)%matches_class_inv & H2%matches_star_class)%matches_seq_inv.
    cbn. rewrite Hp, H2. now split.
  - intros [Hne Hall]. destruct s as [|c s]; [contradiction|].
    cbn [Spec.all_chars] in Hall. apply andb_prop in Hall as [Hp Hs].
    exact (m_seq _ _ _ _ (m_class p c Hp) (proj2 (matches_star_class p s) Hs)).
Qed.

Lemma matches_char a s : matches (Class (Ascii.eqb a)) s <-> s = String a EmptyString.
Proof.
  rewrite matches_class_inv. split.
  - intros (c & -> & Hc%Ascii.eqb_eq). now subst.
  - intros ->. exists a. split; [reflexivity | apply Ascii.eqb_refl].
Qed.

(** The language of the email pattern: a part, an at sign, a part, a
    dot, a part. *)
Lemma emailRegex_language e :
  matches Forms.GDPRComplianceValidator.emailRegex e <->
  exists a b c,
    e = a +:+ "@" +:+ b +:+ "." +:+ c /\
    Spec.email_part a /\ Spec.email_part b /\ Spec.email_part c.
Proof.
  unfold Forms.GDPRComplianceValidator.emailRegex, Spec.email_part. split.
  - intros (a & r1 & -> & Ha%matches_plus_class & H1)%matches_seq_inv.
    apply matches_seq_inv in H1 as (at_ & r2 & -> & ->%matches_char & H2).
    apply matches_seq_inv in H2 as (b & r3 & -> & Hb%matches_plus_class & H3).
    apply matches_seq_inv in H3 as (dot & c & -> & ->%matches_char & Hc%matches_plus_class).
    now exists a, b, c.
  - intros (a & b & c & -> & Ha & Hb & Hc).
    apply m_seq; [now apply matches_plus_class|].
    apply (m_seq _ _ "@"); [now apply matches_char|].
    apply m_seq; [now apply matches_plus_class|].
    apply (m_seq _ _ "."); [now apply matches_char|].
    now apply matches_plus_class.
Qed.

(** [test] answers whether the whole string is in the language. *)
Lemma test_matches r s : test r s = true <-> matches r s.
Proof.
  revert r. induction s as [|c s IH]; intros r; cbn [test].
  - apply nullable_matches.
  - rewrite IH. split; [apply deriv_sound|].
    intros Hm. exact (deriv_complete _ _ Hm c s eq_refl).
Qed.

End RegexFacts.

(** ** The GDPR validator and the submitter *)

Section FormFacts.
Import Forms Forms.GDPRComplianceValidator.
Context `{URIDecoder}.

Lemma fold_not_allowed keys acc :
  fold_left
    (fun acc key => if negb (allowed key) then acc ++ [not_allowed_error key] else acc)
    keys acc =
  acc ++ map not_allowed_error (List.filter (fun key => negb (allowed key)) keys).
Proof.
  revert acc. induction keys as [|k keys IH]; intros acc; cbn [fold_left List.filter map].
  - now rewrite app_nil_r.
  - rewrite IH. destruct (negb (allowed k)); [|reflexivity].
    now rewrite <- app_assoc.
Qed.

Lemma filter_all_allowed keys :
  forallb allowed keys = true -> List.filter (fun key => negb (allowed key)) keys = [].
Proof.
  induction keys as [|k keys IH]; cbn [forallb List.filter]; [reflexivity|].
  intros [-> Hall]%andb_prop. now apply IH.
Qed.

Lemma validate_errors formData consentGiven :
  errors (validate formData consentGiven) =
  (if consentGiven then [] else [consent_error]) ++
  (match email_of formData with
   | None => [email_required_error]
   | Some e => if isValidEmail e then [] else [email_invalid_error]
   end) ++
  map not_allowed_error (List.filter (fun key => negb (allowed key)) (map fst formData)).
Proof.
  unfold validate. cbv zeta. cbn [errors]. rewrite fold_not_allowed.
  destruct consentGiven, (email_of formData) as [e|]; cbn [negb app];
    try destruct (isValidEmail e); reflexivity.
Qed.

(** C2. The validator returns, in this order, the consent error when
    consent is not given, the email-required error when the email field
    is absent or empty, the email-invalid error when a non-empty email
    does not match the pattern, and one field-not-allowed error for every
    field name outside the allowlist; the result is valid exactly when
    that list is empty.  So every violated rule has its error in the
    list, whatever else is wrong; a field named [ssn] is rejected; and
    [user@example.com] with consent and no other field passes.  The
    pattern accepts exactly a part, an at sign, a part, a dot and a part,
    where a part is a non-empty string without white space or at
    sign. *)
Theorem C2_validate_reports_every_violation (formData : form_data) (consentGiven : bool) :
  let v := validate formData consentGiven in
  errors v =
    (if consentGiven then [] else [consent_error]) ++
    (match email_of formData with
     | None => [email_required_error]
     | Some e => if isValidEmail e then [] else [email_invalid_error]
     end) ++
    map not_allowed_error (List.filter (fun key => negb (allowed key)) (map fst formData)) /\
  (isValid v = true <-> errors v = []) /\
  (consentGiven = false -> In consent_error (errors v)) /\
  (JS.own_prop "email" formData = None -> In email_required_error (errors v)) /\
  (forall e, JS.own_prop "email" formData = Some e -> isValidEmail e = false ->
     In email_invalid_error (errors v) \/
     (e = EmptyString /\ In email_required_error (errors v))) /\
  (forall key, In key (map fst formData) -> allowed key = false ->
     In (not_allowed_error key) (errors v)) /\
  (In "ssn"%string (map fst formData) -> In (not_allowed_error "ssn") (errors v)) /\
  (forall e, consentGiven = true -> email_of formData = Some e -> isValidEmail e = true ->
     forallb allowed (map fst formData) = true -> v = {| isValid := true; errors := [] |}) /\
  (forall e, isValidEmail e = true <->
     exists a b c,
       e = a +:+ "@" +:+ b +:+ "." +:+ c /\
       Spec.email_part a /\ Spec.email_part b /\ Spec.email_part c) /\
  validate [("email", "user@example.com")%string] true = {| isValid := true; errors := [] |}.
Proof.
  cbv zeta. pose proof (validate_errors formData consentGiven) as Herr.
  assert (Hkey : forall key, In key (map fst formData) -> allowed key = false ->
                             In (not_allowed_error key) (errors (validate formData consentGiven))).
  { intros key Hin Hna. rewrite Herr, !in_app_iff. right. right.
    apply in_map, filter_In. split; [exact Hin | now rewrite Hna]. }
  split; [exact Herr|].
  split; [|split; [|split; [|split; [|split; [|split; [|split; [|split]]]]]]].
  - unfold validate. cbv zeta. cbn [isValid errors].
    match goal with |- context [fold_left ?f ?l ?a] => destruct (fold_left f l a) end;
      split; congruence.
  - intros ->. rewrite Herr. now left.
  - intros Hnone. rewrite Herr, !in_app_iff. right. left.
    unfold email_of. rewrite Hnone. now left.
  - intros e He Hbad. rewrite Herr. unfold email_of. rewrite He.
    destruct e as [|c e]; cbn [JS.truthy_string].
    + right. split; [reflexivity|]. rewrite !in_app_iff. right. left. now left.
    + left. rewrite Hbad, !in_app_iff. right. left. now left.
  - exact Hkey.
  - intros Hin. now apply Hkey.
  - intros e -> He Hvalid Hall.
    assert (Hnil : errors (validate formData true) = []).
    { rewrite Herr, He, Hvalid, filter_all_allowed by exact Hall. reflexivity. }
    revert Hnil. unfold validate. cbv zeta. cbn [errors]. now intros ->.
  - intros e. unfold isValidEmail. rewrite test_matches. apply emailRegex_language.
  - reflexivity.
Qed.

(** C3. When the data passes validation and the POST meets a transport
    error or a response that is not ok, [submit] returns the failure
    result, having issued that one request; [handleSubmit] then leaves
    the form as it was, keeps the success message hidden, shows the
    generic failure message, enables the submit control with its label
    restored, and calls no success callback: one POST, no retry. *)
Theorem C3_failed_submit_shows_error_once
        (cfg : form_config) (consentGiven : bool) (env : environment) (p : form_page)
        (body : payload) :
  let data := collect cfg env in
  let req := {| url := apiUrl cfg; method := "POST";
                content_type := "application/json"; body := body |} in
  isValid (validate data consentGiven) = true ->
  buildPayload env data (Some (location_href env)) (Some (document_title env))
    (Some "I agree to allow Big Rock Intelligence to store and process my personal data."%string)
    (Some "I agree to receive marketing communications from Big Rock Intelligence."%string)
  = Some body ->
  (fetch env req = NetworkError \/ exists json, fetch env req = Response false json) ->
  (forall p0,
     submit cfg env data (Some (location_href env)) (Some (document_title env))
       (Some "I agree to allow Big Rock Intelligence to store and process my personal data."%string)
       (Some "I agree to receive marketing communications from Big Rock Intelligence."%string)
       p0
     = (Failure "Submission failed. Please try again.", with_sent (sent p0 ++ [req]) p0)) /\
  handleSubmit cfg consentGiven env p =
    {| form_display := form_display p;
       success_display := "none";
       error_display := "block";
       error_text := "Submission failed. Please try again or contact james@bigrock-intel.ai";
       submit_disabled := false;
       submit_text := or_string (buttonText cfg) "Submit";
       sent := sent p ++ [req];
       onSuccess_calls := onSuccess_calls p |}.
Proof.
  cbv zeta. intros Hvalid Hbuild Hfetch.
  assert (Hsubmit : forall p0,
     submit cfg env (collect cfg env) (Some (location_href env)) (Some (document_title env))
       (Some "I agree to allow Big Rock Intelligence to store and process my personal data."%string)
       (Some "I agree to receive marketing communications from Big Rock Intelligence."%string)
       p0
     = (Failure "Submission failed. Please try again.",
        with_sent (sent p0 ++ [ {| url := apiUrl cfg; method := "POST";
                                   content_type := "application/json"; body := body |} ]) p0)).
  { intros p0. unfold submit. cbv zeta. rewrite Hbuild.
    destruct Hfetch as [->|[json ->]]; reflexivity. }
  split; [exact Hsubmit|].
  unfold handleSubmit. cbv zeta. rewrite Hvalid. cbn [negb]. rewrite Hsubmit. reflexivity.
Qed.

End FormFacts.

(** ** The theorems at concrete pages *)

Section Witnesses.
Import Browser Spec Examples.

Lemma wf_accepted_storage : wf_storage accepted_storage.
Proof. repeat constructor. Defined.


Lemma wf_no_storage : wf_storage no_storage.
Proof. constructor. Defined.

Lemma recorded_accepted_storage : recorded accepted_storage.
Proof. right. exists "true"%string. reflexivity. Defined.

End Witnesses.


Lemma C2_validate_reports_every_violation_witness :
  In Forms.GDPRComplianceValidator.consent_error
     (Forms.GDPRComplianceValidator.errors
        (Forms.GDPRComplianceValidator.validate
           [("email", "user@example.com"); ("ssn", "078-05-1120")]%string false)) /\
  In (Forms.GDPRComplianceValidator.not_allowed_error "ssn")
     (Forms.GDPRComplianceValidator.errors
        (Forms.GDPRComplianceValidator.validate
           [("email", "user@example.com"); ("ssn", "078-05-1120")]%string false)).
Proof.
  destruct (C2_validate_reports_every_violation
              [("email", "user@example.com"); ("ssn", "078-05-1120")]%string false)
    as (_ & _ & Hconsent & _ & _ & _ & Hssn & _).
  split.
  - apply Hconsent. reflexivity.
  - apply Hssn. right. left. reflexivity.
Defined.

Lemma C3_failed_submit_shows_error_once_witness :
  Forms.handleSubmit (H := Examples.plain_decoder) Examples.quick_email true
    Examples.failing_environment Examples.idle_form
  = {| Forms.form_display := "";
       Forms.success_display := "none";
       Forms.error_display := "block";
       Forms.error_text := "Submission failed. Please try again or contact james@bigrock-intel.ai";
       Forms.submit_disabled := false;
       Forms.submit_text := "Send Checklist";
       Forms.sent :=
         [ {| Forms.url := Forms.apiUrl Examples.quick_email; Forms.method := "POST";
              Forms.content_type := "application/json";
              Forms.body := Examples.quick_email_payload |} ];
       Forms.onSuccess_calls := [] |}.
Proof.
  apply (C3_failed_submit_shows_error_once (H := Examples.plain_decoder)
           Examples.quick_email true Examples.failing_environment Examples.idle_form
           Examples.quick_email_payload).
  - vm_compute. reflexivity.
  - vm_compute. reflexivity.
  - right. exists None. reflexivity.
Defined.

Lemma C4_banner_only_without_decision_witness :
  Banner.init (Examples.fresh Examples.qr_document Examples.accepted_storage)
  = Examples.fresh Examples.qr_document Examples.accepted_storage /\
  Browser.banner
    (Browser.doc (Page.advance 999
       (Page.load (H := Examples.https_parser) Examples.campaign_page 0 Examples.no_storage)))
  = None /\
  Forall Spec.no_banner
    (Page.browse (H := Examples.https_parser) Examples.two_visits Examples.accepted_storage).
Proof.
  destruct (C4_banner_only_without_decision (H := Examples.https_parser)) as (H1 & H2 & H3 & _).
  split; [|split].
  - apply (H1 (Examples.fresh Examples.qr_document Examples.accepted_storage)
              wf_accepted_storage).
    exact recorded_accepted_storage.
  - apply (H2 Examples.campaign_page 0 Examples.no_storage 999 eq_refl wf_no_storage). lia.
  - apply H3; [exact wf_accepted_storage | exact recorded_accepted_storage].
Defined.


Lemma C9_sanitizeURL_path_only_witness :
  Analytics.sanitizeURL (H := Examples.https_parser)
    "https://bigrock-intel.ai/events/ai-week?utm_medium=qr&utm_source=booth"
  = "/events/ai-week"%string /\
  Analytics.sanitizeURL (H := Examples.https_parser) "mailto:jane.doe" = "/"%string /\
  (exists more,
     Browser.va (Analytics.init (H := Examples.https_parser)
                   (Examples.fresh Examples.qr_document Examples.accepted_storage))
     = Some ([] ++
             {| Browser.va_command := "track"; Browser.va_event := "page_view";
                Browser.va_properties :=
                  [ ("page", JS.VStr "/events/ai-week");
                    ("title", JS.VStr "AI Week Frankfurt");
                    ("analytics_id", JS.VStr "AI_Week_Frankfurt_2025");
                    ("is_qr", JS.VBool true);
                    ("source", JS.VStr "booth");
                    ("medium", JS.VStr "qr");
                    ("campaign", JS.VNull);
                    ("content", JS.VNull);
                    ("term", JS.VNull) ]%string |} :: more)).
Proof.
  split; [|split].
  - apply (proj1 (C9_sanitizeURL_path_only (H := Examples.https_parser)
                    "https://bigrock-intel.ai/events/ai-week?utm_medium=qr&utm_source=booth"
                    (Examples.fresh Examples.qr_document Examples.accepted_storage))
                 {| Browser.url_origin := "https://bigrock-intel.ai";
                    Browser.url_pathname := "/events/ai-week";
                    Browser.url_search := "?utm_medium=qr&utm_source=booth";
                    Browser.url_hash := "" |}).
    vm_compute. reflexivity.
  - apply (proj1 (proj2 (C9_sanitizeURL_path_only (H := Examples.https_parser)
                           "mailto:jane.doe"
                           (Examples.fresh Examples.qr_document Examples.accepted_storage)))).
    vm_compute. reflexivity.
  - apply (proj1 (proj2 (proj2 (C9_sanitizeURL_path_only (H := Examples.https_parser)
                                  EmptyString
                                  (Examples.fresh Examples.qr_document
                                     Examples.accepted_storage))))
                 eq_refl [] eq_refl).
Defined.

(** * Further properties of the scripts *)

(** ** What grants consent and what withdraws it *)

Section ConsentDecisions.
Import Browser Spec Terms.
Context `{URLParser}.

Lemma find_written_cookie v t jar :
  root_paths jar ->
  find is_consent_cookie (set_cookie (Cookie "analytics-consent" v t "/") jar) =
  Some (Cookie "analytics-consent" v t "/").
Proof.
  induction 1 as [|c0 jar Hc0 Hjar IH]; [reflexivity|].
  cbn [set_cookie]. unfold same_cookie. cbn [ck_name ck_path].
  unfold is_consent_cookie in Hc0.
  destruct (String.eqb_spec (ck_name c0) "analytics-consent") as [Hn|Hn].
  - rewrite Hn, (Hc0 eq_refl). reflexivity.
  - destruct (String.eqb_spec "analytics-consent" (ck_name c0)) as [Hn'|_];
      [now symmetry in Hn'|].
    cbn [andb find]. unfold is_consent_cookie at 1.
    destruct (String.eqb_spec (ck_name c0) "analytics-consent"); [contradiction | exact IH].
Qed.

Lemma store_after_choice (accepted : bool) w :
  store (Banner.handleConsentChoice accepted w) =
  Storage (set_cookie (Cookie "analytics-consent" (if accepted then "true" else "false")
                              (clock w + 2592000000) "/")
                      (cookies (store w)))
          (<[ "analytics-consent"%string := (if accepted then "true" else "false")%string ]>
             (localStorage (store w))).
Proof. rewrite handleConsentChoice_store. apply banner_setConsent_store. Qed.

Lemma wf_after_choice (accepted : bool) w :
  wf_storage (store w) -> wf_storage (store (Banner.handleConsentChoice accepted w)).
Proof.
  intros Hwf. rewrite store_after_choice. unfold wf_storage. cbn [cookies].
  apply set_cookie_wf; [apply wf_consent_cookie | exact Hwf].
Qed.

(** X1. A visitor who holds consent in the sense of the analytics script
    has a decision on record in the sense of the banner: whenever
    [hasUserConsent()] is true, [hasExistingConsent()] is truthy, and
    the banner's [init()] sets no timer and shows nothing. *)
Theorem consent_granted_is_decided (w : world) :
  Analytics.hasUserConsent w = true ->
  JS.truthy (Banner.hasExistingConsent w) = true /\ Banner.init w = w.
Proof.
  intros Hc.
  assert (Ht : JS.truthy (Banner.hasExistingConsent w) = true).
  { unfold Analytics.hasUserConsent in Hc. unfold Banner.hasExistingConsent.
    destruct (consentCookie w) as [[|a c]|]; [| reflexivity |];
      cbn in Hc |- *; now destruct (getItem "analytics-consent" w). }
  split; [exact Ht|]. unfold Banner.init. now rewrite Ht.
Qed.

Lemma consent_after_accepting w :
  Analytics.hasUserConsent (Banner.handleConsentChoice true w) = true.
Proof.
  unfold Analytics.hasUserConsent, getItem. rewrite (store_after_choice true).
  cbn [localStorage]. rewrite lookup_insert_eq. apply orb_true_r.
Qed.

(** X2. Accepting in the banner always grants consent: after
    [handleConsentChoice(true)], [hasUserConsent()] is true.  Rejecting
    withdraws it, whatever was stored before, provided the consent
    cookies of the jar have the path the banner writes: after
    [handleConsentChoice(false)], [hasUserConsent()] is false. *)
Theorem banner_choice_decides_consent (w : world) :
  Analytics.hasUserConsent (Banner.handleConsentChoice true w) = true /\
  (wf_storage (store w) -> root_paths (cookies (store w)) ->
   Analytics.hasUserConsent (Banner.handleConsentChoice false w) = false).
Proof.
  split; [apply consent_after_accepting|].
  intros Hwf Hroot.
    rewrite hasUserConsent_spec by now apply wf_after_choice.
    rewrite (store_after_choice false). cbn [cookies localStorage].
    rewrite find_written_cookie by exact Hroot.
    now rewrite lookup_insert_eq.
Qed.

(** X3. The exported setter cannot withdraw a consent that the cookie
    holds: where the first consent cookie of the jar contains [true],
    [hasUserConsent()] is still true after
    [EventAnalytics.setConsent(false)].  In particular it is true after
    the visitor accepted in the banner and a script then called
    [EventAnalytics.setConsent(false)]. *)
Theorem exported_setter_cannot_withdraw (w : world) :
  wf_storage (store w) ->
  (forall c, find is_consent_cookie (cookies (store w)) = Some c ->
     JS.includes "true" (ck_value c) = true ->
     Analytics.hasUserConsent (Analytics.setConsent false w) = true) /\
  (root_paths (cookies (store w)) ->
   Analytics.hasUserConsent
     (Analytics.setConsent false (Banner.handleConsentChoice true w)) = true).
Proof.
  intros Hwf.
  assert (Hgen : forall w0 c, wf_storage (store w0) ->
            find is_consent_cookie (cookies (store w0)) = Some c ->
            JS.includes "true" (ck_value c) = true ->
            Analytics.hasUserConsent (Analytics.setConsent false w0) = true).
  { intros w0 c Hwf0 Hfind Hinc.
    rewrite hasUserConsent_spec; rewrite analytics_setConsent_store; cbn [cookies localStorage];
      [|exact Hwf0].
    now rewrite Hfind, Hinc. }
  split; [intros c; now apply Hgen|].
  intros Hroot.
  apply (Hgen _ (Cookie "analytics-consent" "true" (clock w + 2592000000) "/")).
  - now apply wf_after_choice.
  - rewrite (store_after_choice true). cbn [cookies]. now apply find_written_cookie.
  - reflexivity.
Qed.

End ConsentDecisions.

(** ** Events and listeners of [init()] *)

Section InitAgain.
Import Browser Spec Terms.
Context `{URLParser}.

Lemma sendVercelEvent_listeners e p w :
  listeners (Analytics.sendVercelEvent e p w) = listeners w.
Proof. unfold Analytics.sendVercelEvent. now destruct (va w). Qed.

Lemma sendHubSpotEvent_listeners e p w :
  listeners (Analytics.sendHubSpotEvent e p w) = listeners w.
Proof.
  unfold Analytics.sendHubSpotEvent.
  destruct (negb (Analytics.hasUserConsent w)); [reflexivity|]. now destruct (hsq w).
Qed.

Lemma send_both_listeners e1 p1 e2 p2 w :
  listeners (Analytics.sendHubSpotEvent e2 p2 (Analytics.sendVercelEvent e1 p1 w)) = listeners w.
Proof. now rewrite sendHubSpotEvent_listeners, sendVercelEvent_listeners. Qed.

Lemma trackQRLanding_listeners w : listeners (Analytics.trackQRLanding w) = listeners w.
Proof.
  unfold Analytics.trackQRLanding. destruct (isQR (st w)); [|reflexivity].
  apply send_both_listeners.
Qed.

Lemma setup_listeners w :
  listeners (Analytics.setupFormTracking
               (Analytics.setupCTATracking (Analytics.setupSectionObserver w))) =
  ((observers w + if has_elements (sections (doc w)) then 1 else 0)%nat,
   (cta_listeners w + if has_elements (ctas (doc w)) then 1 else 0)%nat,
   (form_listeners w + if has_elements (forms (doc w)) then 1 else 0)%nat).
Proof.
  unfold Analytics.setupFormTracking, Analytics.setupCTATracking,
    Analytics.setupSectionObserver, listeners.
  destruct (sections (doc w)); cbn [doc with_listeners has_elements];
    destruct (ctas (doc w)); cbn [doc with_listeners has_elements];
    destruct (forms (doc w));
    cbn [doc with_listeners has_elements observers cta_listeners form_listeners];
    f_equal; try f_equal; lia.
Qed.

Lemma init_listeners w :
  listeners (Analytics.init w) =
  ((observers w + if campaign_present w && has_elements (sections (doc w)) then 1 else 0)%nat,
   (cta_listeners w + if campaign_present w && has_elements (ctas (doc w)) then 1 else 0)%nat,
   (form_listeners w + if campaign_present w && has_elements (forms (doc w)) then 1 else 0)%nat).
Proof.
  rewrite init_unfold. destruct (campaign_present w); cbn [andb].
  - set (w2 := Analytics.read_context (Analytics.read_campaign w)).
    rewrite setup_listeners.
    destruct (surroundings_fields _ _
                (eq_trans (proj1 (trackQRLanding_frame (Analytics.trackPageView w2)))
                          (proj1 (trackPageView_frame w2)))) as (_ & -> & _).
    pose proof (trackQRLanding_listeners (Analytics.trackPageView w2)) as Hq.
    unfold Analytics.trackPageView in Hq at 2. rewrite send_both_listeners in Hq.
    unfold listeners in Hq. injection Hq as -> -> ->. reflexivity.
  - unfold listeners. cbn. f_equal; [f_equal|]; lia.
Qed.

Lemma init_event_counts n m w :
  va_count n (Analytics.init w) =
    (va_count n w +
     (if campaign_present w && is_some (va w) && String.eqb "page_view" n then 1 else 0) +
     (if campaign_present w && Analytics.detectQRScan w && is_some (va w) &&
         String.eqb "qr_scan_landing" n then 1 else 0))%nat /\
  hsq_count m (Analytics.init w) =
    (hsq_count m w +
     (if campaign_present w && Analytics.hasUserConsent w && is_some (hsq w) &&
         String.eqb "Landing Page View" m then 1 else 0) +
     (if campaign_present w && Analytics.detectQRScan w && Analytics.hasUserConsent w &&
         is_some (hsq w) && String.eqb "QR Code Scan" m then 1 else 0))%nat.
Proof.
  rewrite init_unfold.
  destruct (campaign_present w); cbn [andb]; [|now rewrite !Nat.add_0_r].
  set (w2 := Analytics.read_context (Analytics.read_campaign w)).
  set (w3 := Analytics.trackPageView w2).
  destruct (setup_counts n m (Analytics.trackQRLanding w3)) as [-> ->].
  destruct (send_both_counts n m
              "page_view"
              [ ("page", JS.VStr (Analytics.sanitizeURL (location_href (doc w2))));
                ("title", JS.VStr (title (doc w2))) ]
              "Landing Page View"
              [ ("event_type", JS.VStr "page_view");
                ("page_url", JS.VStr (Analytics.sanitizeURL (location_href (doc w2))));
                ("page_title", JS.VStr (title (doc w2)));
                ("referrer", JS.VStr (Analytics.sanitizedReferrer w2)) ] w2) as [Hva Hhs].
  fold (Analytics.trackPageView w2) in Hva, Hhs. fold w3 in Hva, Hhs.
  change (va_count n w2) with (va_count n w) in Hva.
  change (hsq_count m w2) with (hsq_count m w) in Hhs.
  change (va w2) with (va w) in Hva. change (hsq w2) with (hsq w) in Hhs.
  change (Analytics.hasUserConsent w2) with (Analytics.hasUserConsent w) in Hhs.
  destruct (trackPageView_frame w2) as (Hs3 & Hst3 & _). fold w3 in Hs3, Hst3.
  assert (Hc3 : Analytics.hasUserConsent w3 = Analytics.hasUserConsent w)
    by (apply hasUserConsent_store; now rewrite (surroundings_store _ _ Hs3)).
  destruct (send_both_available
              "page_view"
              [ ("page", JS.VStr (Analytics.sanitizeURL (location_href (doc w2))));
                ("title", JS.VStr (title (doc w2))) ]
              "Landing Page View"
              [ ("event_type", JS.VStr "page_view");
                ("page_url", JS.VStr (Analytics.sanitizeURL (location_href (doc w2))));
                ("page_title", JS.VStr (title (doc w2)));
                ("referrer", JS.VStr (Analytics.sanitizedReferrer w2)) ] w2) as [Hsva Hshs].
  fold (Analytics.trackPageView w2) in Hsva, Hshs. fold w3 in Hsva, Hshs.
  change (va w2) with (va w) in Hsva. change (hsq w2) with (hsq w) in Hshs.
  unfold Analytics.trackQRLanding. rewrite Hst3.
  change (isQR (st w2)) with (Analytics.detectQRScan w).
  destruct (Analytics.detectQRScan w); cbn [andb];
    [|rewrite Hva, Hhs, !Nat.add_0_r; now split].
  match goal with
  | |- context [Analytics.sendHubSpotEvent ?e2 ?p2 (Analytics.sendVercelEvent ?e1 ?p1 w3)] =>
      destruct (send_both_counts n m e1 p1 e2 p2 w3) as [-> ->]
  end.
  rewrite Hva, Hhs, Hsva, Hshs, Hc3. now split.
Qed.

Lemma handleConsentChoice_sinks (accepted : bool) w :
  let w1 := Banner.setConsent (if accepted then "true" else "false") w in
  va (Banner.handleConsentChoice accepted w) = va w1 /\
  hsq (Banner.handleConsentChoice accepted w) = hsq w1 /\
  listeners (Banner.handleConsentChoice accepted w) = listeners w1.
Proof.
  cbv zeta. unfold Banner.handleConsentChoice. cbv zeta.
  set (w1 := Banner.setConsent _ w).
  destruct (banner (doc w1));
    unfold setTimeout, Banner.set_banner;
    cbn [fst EventAnalytics with_timers with_doc];
    destruct (EventAnalytics w1); easy.
Qed.

Lemma init_available w :
  is_some (va (Analytics.init w)) = is_some (va w) /\
  is_some (hsq (Analytics.init w)) = is_some (hsq w).
Proof.
  rewrite init_unfold. destruct (campaign_present w); [|now split].
  set (w0 := Analytics.read_context _).
  destruct (setup_frame (Analytics.trackQRLanding (Analytics.trackPageView w0)))
    as (_ & _ & -> & ->).
  assert (Hpv : is_some (va (Analytics.trackPageView w0)) = is_some (va w) /\
                is_some (hsq (Analytics.trackPageView w0)) = is_some (hsq w)).
  { change (va w) with (va w0). change (hsq w) with (hsq w0).
    unfold Analytics.trackPageView. apply send_both_available. }
  unfold Analytics.trackQRLanding.
  destruct (isQR (st (Analytics.trackPageView w0))); [|exact Hpv].
  destruct Hpv as [<- <-]. apply send_both_available.
Qed.

(** X4. What a call of [init()] sends, for every event name.  The generic
    sink gets one [page_view] when the page carries the campaign
    attribute and [window.va] is a function, whether or not consent is
    held, one [qr_scan_landing] on a QR visit, and nothing else.  The CRM
    queue gets one [Landing Page View] (and one [QR Code Scan] on a QR
    visit) when moreover consent is held and the queue exists, and
    nothing else.  Nothing tells a first call from a later one: a second
    call of [init()] sends a second page view. *)
Theorem init_sends_page_view_each_time (n m : string) (w : world) :
  va_count n (Analytics.init w) =
    (va_count n w +
     (if campaign_present w && is_some (va w) && String.eqb "page_view" n then 1 else 0) +
     (if campaign_present w && Analytics.detectQRScan w && is_some (va w) &&
         String.eqb "qr_scan_landing" n then 1 else 0))%nat /\
  hsq_count m (Analytics.init w) =
    (hsq_count m w +
     (if campaign_present w && Analytics.hasUserConsent w && is_some (hsq w) &&
         String.eqb "Landing Page View" m then 1 else 0) +
     (if campaign_present w && Analytics.detectQRScan w && Analytics.hasUserConsent w &&
         is_some (hsq w) && String.eqb "QR Code Scan" m then 1 else 0))%nat /\
  va_count "page_view" (Analytics.init (Analytics.init w)) =
    (va_count "page_view" w + if campaign_present w && is_some (va w) then 2 else 0)%nat /\
  hsq_count "Landing Page View" (Analytics.init (Analytics.init w)) =
    (hsq_count "Landing Page View" w +
     if campaign_present w && Analytics.hasUserConsent w && is_some (hsq w) then 2 else 0)%nat.
Proof.
  destruct (init_event_counts n m w) as [Hv Hh].
  split; [exact Hv|]. split; [exact Hh|]. clear Hv Hh.
  destruct (init_event_counts "page_view" "Landing Page View" w) as [Hv1 Hh1].
  destruct (init_event_counts "page_view" "Landing Page View" (Analytics.init w)) as [Hv2 Hh2].
  destruct (init_available w) as [Hsv Hsh].
  destruct (surroundings_fields _ _ (init_frame w)) as (Hs & Hd & _).
  assert (Hcp : campaign_present (Analytics.init w) = campaign_present w)
    by (unfold campaign_present; now rewrite Hd).
  rewrite Hcp, Hsv in Hv2. rewrite Hcp, Hsh, (hasUserConsent_store _ _ Hs) in Hh2.
  change (String.eqb "page_view" "page_view") with true in Hv1, Hv2.
  change (String.eqb "qr_scan_landing" "page_view") with false in Hv1, Hv2.
  change (String.eqb "Landing Page View" "Landing Page View") with true in Hh1, Hh2.
  change (String.eqb "QR Code Scan" "Landing Page View") with false in Hh1, Hh2.
  rewrite ?andb_true_r, ?andb_false_r, ?Nat.add_0_r in Hv1, Hv2, Hh1, Hh2.
  rewrite Hv2, Hv1, Hh2, Hh1.
  split.
  - destruct (campaign_present w && is_some (va w)); lia.
  - destruct (campaign_present w && Analytics.hasUserConsent w && is_some (hsq w)); lia.
Qed.

(** What accepting in the banner does to the sinks and the listeners. *)
Lemma accept_effect n m w :
  let going := EventAnalytics w && campaign_present w in
  let w' := Banner.handleConsentChoice true w in
  va_count n w' =
    (va_count n w +
     (if going && is_some (va w) && String.eqb "page_view" n then 1 else 0) +
     (if going && Analytics.detectQRScan w && is_some (va w) &&
         String.eqb "qr_scan_landing" n then 1 else 0))%nat /\
  hsq_count m w' =
    (hsq_count m w +
     (if going && is_some (hsq w) && String.eqb "Landing Page View" m then 1 else 0) +
     (if going && Analytics.detectQRScan w && is_some (hsq w) &&
         String.eqb "QR Code Scan" m then 1 else 0))%nat /\
  listeners w' =
    ((observers w + if going && has_elements (sections (doc w)) then 1 else 0)%nat,
     (cta_listeners w + if going && has_elements (ctas (doc w)) then 1 else 0)%nat,
     (form_listeners w + if going && has_elements (forms (doc w)) then 1 else 0)%nat) /\
  is_some (va w') = is_some (va w) /\
  is_some (hsq w') = is_some (hsq w).
Proof.
  cbv zeta.
  destruct (handleConsentChoice_sinks true w) as (Hva & Hhs & Hl).
  cbv zeta in Hva, Hhs, Hl.
  unfold hsq_count, va_count, hsq_log, va_log. rewrite Hva, Hhs, Hl. clear Hva Hhs Hl.
  rewrite banner_setConsent_true. cbv zeta.
  destruct (EventAnalytics w); cbn [andb].
  2: { unfold listeners. cbn. repeat split; try lia. f_equal; [f_equal|]; lia. }
  unfold Analytics.setConsent. cbv zeta.
  match goal with
  | |- context [Analytics.init ?x] =>
      set (w2 := x);
      destruct (init_event_counts n m w2) as [Hv Hh];
      pose proof (init_listeners w2) as Hl;
      destruct (init_available w2) as [Hsv Hsh]
  end.
  assert (Hc2 : Analytics.hasUserConsent w2 = true)
    by (unfold Analytics.hasUserConsent, getItem; unfold w2;
        cbn [store setItem with_store localStorage with_setConsent_calls write_cookie];
        rewrite lookup_insert_eq; apply orb_true_r).
  rewrite Hc2 in Hh. rewrite ?andb_true_r in Hh.
  unfold hsq_count, va_count, hsq_log, va_log in Hv, Hh.
  repeat split; [exact Hv | exact Hh | exact Hl | exact Hsv | exact Hsh].
Qed.

(** X5. Accepting in the banner upgrades the tracking at once, and
    doubles it.  On a page that carries the campaign attribute and has
    the analytics script, [handleConsentChoice(true)] runs [init()]
    again with consent held: the CRM queue, when it exists, gets its
    [Landing Page View], the generic sink gets a further [page_view],
    and each CTA and each form gets one more listener.  Rejecting sends
    nothing and installs nothing. *)
Theorem accepting_runs_init_again (w : world) :
  let going := EventAnalytics w && campaign_present w in
  let w' := Banner.handleConsentChoice true w in
  hsq_count "Landing Page View" w' =
    (hsq_count "Landing Page View" w + if going && is_some (hsq w) then 1 else 0)%nat /\
  va_count "page_view" w' =
    (va_count "page_view" w + if going && is_some (va w) then 1 else 0)%nat /\
  cta_listeners w' =
    (cta_listeners w + if going && has_elements (ctas (doc w)) then 1 else 0)%nat /\
  form_listeners w' =
    (form_listeners w + if going && has_elements (forms (doc w)) then 1 else 0)%nat /\
  observers w' =
    (observers w + if going && has_elements (sections (doc w)) then 1 else 0)%nat /\
  va (Banner.handleConsentChoice false w) = va w /\
  hsq (Banner.handleConsentChoice false w) = hsq w /\
  listeners (Banner.handleConsentChoice false w) = listeners w.
Proof.
  cbv zeta.
  destruct (accept_effect "page_view" "Landing Page View" w) as (Hv & Hh & Hl & _).
  cbv zeta in Hv, Hh, Hl.
  change (String.eqb "page_view" "page_view") with true in Hv.
  change (String.eqb "qr_scan_landing" "page_view") with false in Hv.
  change (String.eqb "Landing Page View" "Landing Page View") with true in Hh.
  change (String.eqb "QR Code Scan" "Landing Page View") with false in Hh.
  rewrite ?andb_true_r, ?andb_false_r, ?Nat.add_0_r in Hv, Hh.
  unfold listeners in Hl. injection Hl as Ho Hc Hf.
  destruct (handleConsentChoice_sinks false w) as (Hva' & Hhs' & Hl').
  cbv zeta in Hva', Hhs', Hl'. rewrite banner_setConsent_false in Hva', Hhs', Hl'.
  repeat split; assumption.
Qed.

Lemma iter_send_both_counts n m e1 p1 e2 p2 k w :
  let f := fun w' => Analytics.sendHubSpotEvent e2 p2 (Analytics.sendVercelEvent e1 p1 w') in
  va_count n (Nat.iter k f w) =
    (va_count n w + if is_some (va w) && String.eqb e1 n then k else 0)%nat /\
  hsq_count m (Nat.iter k f w) =
    (hsq_count m w +
     if Analytics.hasUserConsent w && is_some (hsq w) && String.eqb e2 m then k else 0)%nat /\
  is_some (va (Nat.iter k f w)) = is_some (va w) /\
  is_some (hsq (Nat.iter k f w)) = is_some (hsq w) /\
  Analytics.hasUserConsent (Nat.iter k f w) = Analytics.hasUserConsent w.
Proof.
  cbv zeta. induction k as [|k (IHv & IHh & IHsv & IHsh & IHc)].
  - cbn [Nat.iter nat_rect]. repeat split;
      match goal with |- context [if ?b then _ else _] => destruct b end; lia.
  - cbn [Nat.iter nat_rect]. fold (Nat.iter k
      (fun w' => Analytics.sendHubSpotEvent e2 p2 (Analytics.sendVercelEvent e1 p1 w')) w).
    set (wk := Nat.iter k _ w) in *.
    destruct (send_both_counts n m e1 p1 e2 p2 wk) as [-> ->].
    destruct (send_both_available e1 p1 e2 p2 wk) as [-> ->].
    rewrite IHv, IHh, IHsv, IHsh, IHc.
    repeat split.
    + destruct (is_some (va w) && String.eqb e1 n); lia.
    + destruct (Analytics.hasUserConsent w && is_some (hsq w) && String.eqb e2 m); lia.
    + rewrite <- IHc. apply hasUserConsent_store, surroundings_store, send_both_frame.
Qed.

Lemma click_counts cta w :
  let w' := Page.handle (Page.Click cta) w in
  va_count "cta_conversion" w' =
    (va_count "cta_conversion" w + if is_some (va w) then cta_listeners w else 0)%nat /\
  hsq_count "CTA Click" w' =
    (hsq_count "CTA Click" w +
     if Analytics.hasUserConsent w && is_some (hsq w) then cta_listeners w else 0)%nat.
Proof.
  cbv zeta. cbn [Page.handle]. unfold Analytics.trackCTAClick. cbv zeta.
  match goal with
  | |- context [Nat.iter ?k (fun w' => Analytics.sendHubSpotEvent ?e2 ?p2
                                        (Analytics.sendVercelEvent ?e1 ?p1 w')) w] =>
      destruct (iter_send_both_counts "cta_conversion" "CTA Click" e1 p1 e2 p2 k w)
        as (-> & -> & _)
  end.
  change (String.eqb "cta_conversion" "cta_conversion") with true.
  change (String.eqb "CTA Click" "CTA Click") with true.
  now rewrite !andb_true_r.
Qed.

(** X6. Clicks and submits are counted once per installed listener.  A
    click on a tracked CTA sends as many [cta_conversion] events to the
    generic sink as there are click listeners, and as many [CTA Click]
    events to the CRM queue when consent is held; likewise a form
    submit, whose form type is [contact] when the form names none.
    Every call of [init()] on a campaign page adds one listener to each
    CTA and each form, so after a second [init()] every interaction is
    reported twice. *)
Theorem interactions_counted_once_per_listener (w : world) :
  (forall cta,
     let w' := Page.handle (Page.Click cta) w in
     va_count "cta_conversion" w' =
       (va_count "cta_conversion" w + if is_some (va w) then cta_listeners w else 0)%nat /\
     hsq_count "CTA Click" w' =
       (hsq_count "CTA Click" w +
        if Analytics.hasUserConsent w && is_some (hsq w) then cta_listeners w else 0)%nat) /\
  (forall formType,
     let w' := Page.handle (Page.Submit formType) w in
     va_count "form_submission" w' =
       (va_count "form_submission" w + if is_some (va w) then form_listeners w else 0)%nat /\
     hsq_count "Form Submission" w' =
       (hsq_count "Form Submission" w +
        if Analytics.hasUserConsent w && is_some (hsq w) then form_listeners w else 0)%nat) /\
  (cta_listeners (Analytics.init w) =
     (cta_listeners w + if campaign_present w && has_elements (ctas (doc w)) then 1 else 0)%nat) /\
  (form_listeners (Analytics.init w) =
     (form_listeners w + if campaign_present w && has_elements (forms (doc w)) then 1 else 0)%nat) /\
  (campaign_present w = true -> has_elements (ctas (doc w)) = true -> is_some (va w) = true ->
   forall cta,
     va_count "cta_conversion"
       (Page.handle (Page.Click cta) (Analytics.init (Analytics.init w))) =
     (va_count "cta_conversion" w + (cta_listeners w + 2))%nat).
Proof.
  pose proof (init_listeners w) as Hl. unfold listeners in Hl. injection Hl as Ho Hc Hf.
  split; [intros cta; apply click_counts|]. split; [|split; [exact Hc|split; [exact Hf|]]].
  - intros formType. cbv zeta. cbn [Page.handle]. unfold Analytics.trackFormSubmit. cbv zeta.
    match goal with
    | |- context [Nat.iter ?k (fun w' => Analytics.sendHubSpotEvent ?e2 ?p2
                                          (Analytics.sendVercelEvent ?e1 ?p1 w')) w] =>
        destruct (iter_send_both_counts "form_submission" "Form Submission" e1 p1 e2 p2 k w)
          as (-> & -> & _)
    end.
    change (String.eqb "form_submission" "form_submission") with true.
    change (String.eqb "Form Submission" "Form Submission") with true.
    now rewrite !andb_true_r.
  - intros Hcp Hel Hva cta.
    set (w1 := Analytics.init w) in *. set (w2 := Analytics.init w1).
    destruct (click_counts cta w2) as [-> _].
    pose proof (init_listeners w1) as Hl1. fold w2 in Hl1.
    unfold listeners in Hl1. injection Hl1 as _ Hc1 _.
    pose proof (surroundings_fields _ _ (init_frame w)) as (_ & Hd1 & _). fold w1 in Hd1.
    assert (Hcp1 : campaign_present w1 = true) by (unfold campaign_present; now rewrite Hd1).
    destruct (init_event_counts "cta_conversion" "CTA Click" w) as [Hv1 _]. fold w1 in Hv1.
    destruct (init_event_counts "cta_conversion" "CTA Click" w1) as [Hv2 _]. fold w2 in Hv2.
    change (String.eqb "page_view" "cta_conversion") with false in Hv1, Hv2.
    change (String.eqb "qr_scan_landing" "cta_conversion") with false in Hv1, Hv2.
    rewrite !andb_false_r, !Nat.add_0_r in Hv1, Hv2.
    assert (Hs1 : is_some (va w1) = true)
      by (unfold w1; now rewrite (proj1 (init_available w))).
    assert (Hs2 : is_some (va w2) = true)
      by (unfold w2; now rewrite (proj1 (init_available w1))).
    rewrite Hs2, Hv2, Hv1, Hc1, Hc, Hcp1, Hcp, Hd1, Hel. cbn [andb]. lia.
Qed.

End InitAgain.

(** ** The campaign context and the QR landing *)

Section CampaignContext.
Import Browser Spec Terms.
Context `{URLParser}.

Lemma st_init w :
  campaign_present w = true ->
  st (Analytics.init w) = st (Analytics.read_context (Analytics.read_campaign w)).
Proof.
  intros Hcp. rewrite init_unfold, Hcp.
  set (w2 := Analytics.read_context (Analytics.read_campaign w)).
  destruct (setup_frame (Analytics.trackQRLanding (Analytics.trackPageView w2)))
    as (_ & -> & _).
  destruct (trackQRLanding_frame (Analytics.trackPageView w2)) as (_ & -> & _).
  now destruct (trackPageView_frame w2) as (_ & -> & _).
Qed.

Lemma get_or_null_shape k params :
  Analytics.get_or_null k params = JS.VNull \/
  exists v, Analytics.get_or_null k params = JS.VStr v /\ v <> EmptyString.
Proof.
  unfold Analytics.get_or_null.
  destruct (Analytics.params_get k params) as [[|a v]|]; [now left | right | now left].
  now exists (String a v).
Qed.

Lemma medium_of_qr w :
  Analytics.detectQRScan w = true <->
  Analytics.get_or_null "utm_medium" (location_search (doc w)) = JS.VStr "qr".
Proof.
  unfold Analytics.detectQRScan, Analytics.get_or_null.
  destruct (Analytics.params_get "utm_medium" (location_search (doc w))) as [[|a v]|];
    cbn [JS.truthy_string];
    [split; intros Hx; cbn in Hx; discriminate | | split; intros Hx; discriminate].
  rewrite String.eqb_eq. split; [now intros -> | intros Hx; now inversion Hx].
Qed.

(** X7. After [init()] on a campaign page the state holds the five UTM
    fields in a fixed order, each either [null] or a non-empty string
    (an empty parameter counts as absent); [state.isQR] is true exactly
    when the [medium] field is [qr]; and [getCampaignContext()] returns
    the campaign id, the QR flag and those five fields. *)
Theorem utm_parameters_after_init (w : world) :
  campaign_present w = true ->
  let s := st (Analytics.init w) in
  utmParams s = Analytics.getUTMParams w /\
  isQR s = Analytics.detectQRScan w /\
  (isQR s = true <-> JS.get_prop "medium" (utmParams s) = JS.VStr "qr") /\
  map fst (utmParams s) = ["source"; "medium"; "campaign"; "content"; "term"]%string /\
  Forall (fun kv => snd kv = JS.VNull \/
                    exists v, snd kv = JS.VStr v /\ v <> EmptyString) (utmParams s) /\
  Analytics.getCampaignContext (Analytics.init w) =
    [ ("analyticsId", match campaign_attr (doc w) with
                      | Some a => JS.VStr a | None => JS.VNull end);
      ("isQR", JS.VBool (Analytics.detectQRScan w));
      ("source", Analytics.get_or_null "utm_source" (location_search (doc w)));
      ("medium", Analytics.get_or_null "utm_medium" (location_search (doc w)));
      ("campaign", Analytics.get_or_null "utm_campaign" (location_search (doc w)));
      ("content", Analytics.get_or_null "utm_content" (location_search (doc w)));
      ("term", Analytics.get_or_null "utm_term" (location_search (doc w))) ]%string.
Proof.
  intros Hcp. cbv zeta. unfold Analytics.getCampaignContext. rewrite (st_init w Hcp).
  cbn [st Analytics.read_context Analytics.read_campaign with_st utmParams isQR analyticsId
       doc clock].
  split; [reflexivity|]. split; [reflexivity|]. split; [apply medium_of_qr|].
  split; [reflexivity|]. split; [|reflexivity].
  unfold Analytics.getUTMParams. cbn [doc Analytics.read_campaign with_st].
  repeat (constructor; [apply get_or_null_shape|]). constructor.
Qed.

Lemma va_trackPageView w calls :
  va w = Some calls ->
  exists pv, va_event pv = "page_view"%string /\
             va (Analytics.trackPageView w) = Some (calls ++ [pv]).
Proof.
  intros Hva. unfold Analytics.trackPageView.
  match goal with
  | |- context [Analytics.sendHubSpotEvent ?e2 ?p2 (Analytics.sendVercelEvent ?e1 ?p1 w)] =>
      destruct (sendHubSpotEvent_frame e2 p2 (Analytics.sendVercelEvent e1 p1 w))
        as (_ & _ & -> & _)
  end.
  unfold Analytics.sendVercelEvent. rewrite Hva. cbn [va with_va].
  eexists. split; [|reflexivity]. reflexivity.
Qed.

Lemma hsq_trackPageView w queue :
  Analytics.hasUserConsent w = true -> hsq w = Some queue ->
  exists pv, hs_name pv = "Landing Page View"%string /\
             hsq (Analytics.trackPageView w) = Some (queue ++ [pv]).
Proof.
  intros Hc Hq. unfold Analytics.trackPageView, Analytics.sendHubSpotEvent.
  rewrite hasUserConsent_sendVercelEvent, Hc. cbn [negb].
  match goal with
  | |- context [Analytics.sendVercelEvent ?e1 ?p1 w] =>
      destruct (sendVercelEvent_frame e1 p1 w) as (_ & -> & -> & _)
  end.
  rewrite Hq. cbn [hsq with_hsq]. eexists. split; [|reflexivity]. reflexivity.
Qed.

(** X8. What the QR landing sends.  On a QR visit to a campaign page the
    generic sink receives, after the page view, one [qr_scan_landing]
    whose [campaign] and [source] are the UTM values of the address, or
    [null] where the address has none: the object spread of
    [state.utmParams] comes last and overwrites the word [unknown] that
    [trackQRLanding] puts in.  With consent, the CRM queue receives one
    [QR Code Scan] to which the same applies. *)
Theorem qr_landing_never_says_unknown (w : world) :
  campaign_present w = true -> Analytics.detectQRScan w = true ->
  let id := match campaign_attr (doc w) with Some a => JS.VStr a | None => JS.VNull end in
  let utm k := Analytics.get_or_null k (location_search (doc w)) in
  (forall calls, va w = Some calls ->
   exists pv,
     va_event pv = "page_view"%string /\
     va (Analytics.init w) =
     Some (calls ++
           [ pv;
             {| va_command := "track"; va_event := "qr_scan_landing";
                va_properties :=
                  [ ("campaign", utm "utm_campaign"%string);
                    ("source", utm "utm_source"%string);
                    ("analytics_id", id);
                    ("is_qr", JS.VBool true);
                    ("medium", JS.VStr "qr");
                    ("content", utm "utm_content"%string);
                    ("term", utm "utm_term"%string) ]%string |} ])) /\
  (Analytics.hasUserConsent w = true ->
   forall queue, hsq w = Some queue ->
   exists pv,
     hs_name pv = "Landing Page View"%string /\
     hsq (Analytics.init w) =
     Some (queue ++
           [ pv;
             {| hs_command := "trackCustomBehavioralEvent"; hs_name := "QR Code Scan";
                hs_properties :=
                  [ ("event_type", JS.VStr "qr_landing");
                    ("campaign", utm "utm_campaign"%string);
                    ("source", utm "utm_source"%string);
                    ("landing_page", id);
                    ("analytics_id", id);
                    ("is_qr", JS.VBool true);
                    ("medium", JS.VStr "qr") ]%string |} ])) /\
  (Analytics.params_get "utm_campaign" (location_search (doc w)) = None ->
   utm "utm_campaign"%string = JS.VNull).
Proof.
  intros Hcp Hqr. cbv zeta.
  pose proof (proj1 (medium_of_qr w) Hqr) as Hmedium.
  split; [|split].
  - intros calls Hva. rewrite init_unfold, Hcp.
    set (w2 := Analytics.read_context (Analytics.read_campaign w)).
    destruct (setup_frame (Analytics.trackQRLanding (Analytics.trackPageView w2)))
      as (_ & _ & -> & _).
    destruct (va_trackPageView w2 calls Hva) as (pv & Hpv & Hva3).
    exists pv. split; [exact Hpv|].
    destruct (trackPageView_frame w2) as (_ & Hst3 & _).
    unfold Analytics.trackQRLanding. rewrite Hst3.
    change (isQR (st w2)) with (Analytics.detectQRScan w). rewrite Hqr.
    match goal with
    | |- context [Analytics.sendHubSpotEvent ?e2 ?p2 (Analytics.sendVercelEvent ?e1 ?p1 ?w3)] =>
        destruct (sendHubSpotEvent_frame e2 p2 (Analytics.sendVercelEvent e1 p1 w3))
          as (_ & _ & -> & _)
    end.
    unfold Analytics.sendVercelEvent. rewrite Hva3, Hst3. cbn [va with_va].
    rewrite <- app_assoc. cbn [app]. do 4 f_equal.
    unfold w2.
    cbn [st Analytics.read_context with_st utmParams isQR analyticsId].
    change (Analytics.detectQRScan (Analytics.read_campaign w))
      with (Analytics.detectQRScan w).
    change (Analytics.getUTMParams (Analytics.read_campaign w))
      with (Analytics.getUTMParams w).
    rewrite Hqr. unfold Analytics.getUTMParams, Analytics.id_value.
    cbn [analyticsId st Analytics.read_campaign with_st]. rewrite Hmedium. reflexivity.
  - intros Hc queue Hq. rewrite init_unfold, Hcp.
    set (w2 := Analytics.read_context (Analytics.read_campaign w)).
    destruct (setup_frame (Analytics.trackQRLanding (Analytics.trackPageView w2)))
      as (_ & _ & _ & ->).
    destruct (hsq_trackPageView w2 queue Hc Hq) as (pv & Hpv & Hq3).
    exists pv. split; [exact Hpv|].
    destruct (trackPageView_frame w2) as (Hs3 & Hst3 & _).
    assert (Hc3 : Analytics.hasUserConsent (Analytics.trackPageView w2) = true).
    { rewrite <- Hc. apply hasUserConsent_store. now rewrite (surroundings_store _ _ Hs3). }
    unfold Analytics.trackQRLanding. rewrite Hst3.
    change (isQR (st w2)) with (Analytics.detectQRScan w). rewrite Hqr.
    unfold Analytics.sendHubSpotEvent.
    rewrite hasUserConsent_sendVercelEvent, Hc3. cbn [negb].
    match goal with
    | |- context [Analytics.sendVercelEvent ?e1 ?p1 ?w3] =>
        destruct (sendVercelEvent_frame e1 p1 w3) as (_ & -> & -> & _)
    end.
    rewrite Hq3, Hst3. cbn [hsq with_hsq].
    rewrite <- app_assoc. cbn [app]. do 4 f_equal.
    unfold w2.
    cbn [st Analytics.read_context with_st utmParams isQR analyticsId].
    change (Analytics.detectQRScan (Analytics.read_campaign w))
      with (Analytics.detectQRScan w).
    change (Analytics.getUTMParams (Analytics.read_campaign w))
      with (Analytics.getUTMParams w).
    rewrite Hqr. unfold Analytics.getUTMParams, Analytics.id_value.
    cbn [analyticsId st Analytics.read_campaign with_st]. rewrite Hmedium. reflexivity.
  - intros Hnone. unfold Analytics.get_or_null. now rewrite Hnone.
Qed.

End CampaignContext.

(** ** The banner leaves after the choice *)

Section BannerLeaves.
Import Browser Spec Terms.
Context `{URLParser}.

Lemma schedule_In_new tm pending : In tm (schedule tm pending).
Proof.
  induction pending as [|tm' rest IH]; cbn [schedule]; [now left|].
  destruct (tm_due tm <? tm_due tm'); [now left | now right].
Qed.

Lemma fire_banner_gone due w :
  Forall (fun tm => ~ is_show tm) due ->
  banner (doc w) = None \/ Exists (fun tm => tm_callback tm = RemoveBanner) due ->
  banner (doc (fire due w)) = None.
Proof.
  intros Hall. revert w. induction Hall as [|tm due Htm Hdue IH]; intros w Hor.
  - destruct Hor as [Hb|Hex]; [exact Hb | inversion Hex].
  - unfold fire. cbn [fold_left]. fold (fire due).
    set (w1 := with_clock _ w).
    unfold is_show in Htm.
    destruct (tm_callback tm) as [| |id name] eqn:Ecb; cbn [Page.run_callback].
    + contradiction.
    + apply IH. now left.
    + apply IH.
      destruct (surroundings_fields _ _ (proj1 (dwell_elapsed_frame id name w1)))
        as (_ & -> & _).
      destruct Hor as [Hb|Hex]; [now left|].
      inversion Hex as [? ? Hhead|? ? Htail]; subst; [congruence | now right].
Qed.

(** X9. After a choice in the banner the banner goes away.  When
    [handleConsentChoice] finds the banner in the page it gives it the
    reversed animation and sets one timer of 300 ms that removes it; once
    that time has passed the banner is gone, unless a timer that shows
    it is still pending.  When there is no banner in the page, the
    choice sets no timer. *)
Theorem banner_leaves_after_choice (accepted : bool) (w : world) :
  (forall a, banner (doc w) = Some a ->
     let w' := Banner.handleConsentChoice accepted w in
     banner (doc w') = Some "slideUp 0.3s ease-out reverse"%string /\
     timers w' = schedule (Timer (next_timer w) (clock w + 300) RemoveBanner) (timers w) /\
     (Forall (fun tm => ~ is_show tm) (timers w) ->
      forall t, clock w + 300 <= t -> banner (doc (Page.advance t w')) = None)) /\
  (banner (doc w) = None ->
   banner (doc (Banner.handleConsentChoice accepted w)) = None /\
   timers (Banner.handleConsentChoice accepted w) = timers w).
Proof.
  destruct (banner_setConsent_frame accepted w) as (Hd & Hc & Ht & Hn & _).
  cbv zeta in Hd, Hc, Ht, Hn.
  split.
  - intros a Hb. cbv zeta. unfold Banner.handleConsentChoice. cbv zeta.
    set (w1 := Banner.setConsent _ w) in *.
    rewrite Hd, Hb.
    unfold setTimeout, Banner.set_banner.
    cbn [fst EventAnalytics with_timers with_doc doc timers clock next_timer].
    rewrite Hc, Ht, Hn.
    set (new := Timer (next_timer w) (clock w + 300) RemoveBanner).
    match goal with
    | |- banner (doc ?x) = _ /\ _ =>
        assert (Hdoc : banner (doc x) = Some "slideUp 0.3s ease-out reverse"%string)
          by (destruct (EventAnalytics w1); reflexivity);
        assert (Htm : timers x = schedule new (timers w))
          by (destruct (EventAnalytics w1); reflexivity);
        set (w' := x) in *
    end.
    split; [exact Hdoc|]. split; [exact Htm|].
    intros Hshow t Hle. unfold Page.advance. cbv zeta.
    cbn [doc with_clock]. rewrite Htm.
    apply (fire_banner_gone _ (with_timers _ _ w')).
    + apply filter_Forall, schedule_Forall; [|exact Hshow]. unfold is_show, new.
      cbn [tm_callback]. discriminate.
    + right. apply List.Exists_exists. exists new. split; [|reflexivity].
      apply filter_In. split; [apply schedule_In_new|].
      unfold Page.is_due, new. cbn [tm_due]. now apply Z.leb_le.
  - intros Hb. unfold Banner.handleConsentChoice. cbv zeta.
    set (w1 := Banner.setConsent _ w) in *.
    rewrite Hd, Hb.
    destruct (EventAnalytics w1); cbn [doc timers with_console]; now rewrite Hd, Ht.
Qed.

End BannerLeaves.

(** ** Sections that are reported, and sections that are not reported again *)

Section SectionReports.
Import Browser Spec Terms.
Context `{URLParser}.

Lemma va_engagements_same id w w' :
  va w' = va w -> va_engagements id w' = va_engagements id w.
Proof.
  intros Hv. unfold va_engagements, engagement_calls, va_log. now rewrite Hv.
Qed.

Lemma hsq_engagements_same id w w' :
  hsq w' = hsq w -> hsq_engagements id w' = hsq_engagements id w.
Proof.
  intros Hh. unfold hsq_engagements, engagement_items, hsq_log. now rewrite Hh.
Qed.

Lemma trackSectionEngagement_report sid id name w :
  id ∉ trackedSections (st w) ->
  let w' := Analytics.trackSectionEngagement id name w in
  st w' = Analytics.add_tracked id (st w) /\
  hsq_engagements sid w' =
    (hsq_engagements sid w +
     if Analytics.hasUserConsent w && is_some (hsq w) && String.eqb id sid then 1 else 0)%nat /\
  (utm_ok w ->
   va_engagements sid w' =
     (va_engagements sid w + if is_some (va w) && String.eqb id sid then 1 else 0)%nat) /\
  is_some (va w') = is_some (va w) /\
  is_some (hsq w') = is_some (hsq w) /\
  store w' = store w.
Proof.
  intros Hin. cbv zeta. unfold Analytics.trackSectionEngagement.
  case_decide; [contradiction|]. cbv zeta.
  set (w1 := with_st (Analytics.add_tracked id (st w)) w).
  match goal with
  | |- context [Analytics.sendHubSpotEvent ?e2 ?p2 (Analytics.sendVercelEvent ?e1 ?p1 w1)] =>
      set (p1' := p1); set (p2' := p2);
      set (w2 := Analytics.sendVercelEvent e1 p1' w1);
      set (w3 := Analytics.sendHubSpotEvent e2 p2' w2);
      destruct (sendVercelEvent_frame e1 p1' w1) as (Hs2 & Hst2 & Hh2 & _);
      destruct (sendHubSpotEvent_frame e2 p2' w2) as (Hs3 & Hst3 & Hv3 & _);
      destruct (send_both_available e1 p1' e2 p2' w1) as [Hav Hah]
  end.
  fold w2 in Hs2, Hst2, Hh2, Hav, Hah. fold w3 in Hs3, Hst3, Hv3, Hav, Hah.
  assert (Hstore2 : store w2 = store w) by (now rewrite (surroundings_store _ _ Hs2)).
  assert (Hstore3 : store w3 = store w)
    by (now rewrite (surroundings_store _ _ Hs3), Hstore2).
  split; [now rewrite Hst3, Hst2|]. split; [|split; [|split; [|split]]].
  - unfold w3. rewrite hsq_engagements_send.
    change (names_section sid p2') with (String.eqb id sid).
    rewrite (hasUserConsent_store w w2 Hstore2).
    replace (is_some (hsq w2)) with (is_some (hsq w)) by (now rewrite Hh2).
    f_equal. now apply hsq_engagements_same.
  - intros Hok. rewrite (va_engagements_same sid w2 w3 Hv3).
    unfold w2. rewrite va_engagements_send by exact Hok.
    change (names_section sid p1') with (String.eqb id sid). reflexivity.
  - exact Hav.
  - exact Hah.
  - exact Hstore3.
Qed.

Lemma untouched_refl id w : utm_ok w -> untouched id w w.
Proof. intros Hok. now repeat split. Qed.

Lemma untouched_trans id w1 w2 w3 :
  untouched id w1 w2 -> untouched id w2 w3 -> untouched id w1 w3.
Proof.
  intros (Ht & Hv & Hh & _ & Hsv & Hsh & Hc) (Ht' & Hv' & Hh' & Hok' & Hsv' & Hsh' & Hc').
  repeat split; try congruence; try tauto.
Qed.

Lemma untouched_same id w w' :
  trackedSections (st w') = trackedSections (st w) ->
  utmParams (st w') = utmParams (st w) ->
  va w' = va w -> hsq w' = hsq w -> store w' = store w ->
  utm_ok w -> untouched id w w'.
Proof.
  intros Ht Hu Hv Hh Hs Hok. unfold untouched.
  rewrite Ht, Hv, Hh, (va_engagements_same id w w' Hv), (hsq_engagements_same id w w' Hh),
    (hasUserConsent_store w w' Hs).
  repeat split; try tauto. unfold utm_ok. now rewrite Hu.
Qed.

Lemma untouched_track_other id id' name w :
  id' <> id -> utm_ok w ->
  untouched id w (Analytics.trackSectionEngagement id' name w).
Proof.
  intros Hne Hok.
  destruct (decide (id' ∈ trackedSections (st w))) as [Hin|Hin].
  - unfold Analytics.trackSectionEngagement. case_decide; [|contradiction].
    now apply untouched_refl.
  - destruct (trackSectionEngagement_report id id' name w Hin)
      as (Hst & Hh & Hv & Hsv & Hsh & Hs).
    specialize (Hv Hok).
    destruct (String.eqb_spec id' id) as [|_]; [contradiction|].
    rewrite !andb_false_r, !Nat.add_0_r in *.
    unfold untouched. rewrite Hst. cbn [trackedSections Analytics.add_tracked].
    repeat split; try assumption.
    + intros [Hx|Hx]%elem_of_union; [|exact Hx].
      apply elem_of_singleton in Hx. now symmetry in Hx.
    + intros Hx. apply elem_of_union. now right.
    + unfold utm_ok. now rewrite Hst.
    + now apply hasUserConsent_store.
Qed.

Lemma untouched_callback id cb w :
  (forall name, cb <> SectionDwell id name) -> utm_ok w ->
  untouched id w (Page.run_callback cb w).
Proof.
  intros Hcb Hok. destruct cb as [| |id' name]; cbn [Page.run_callback].
  - now apply untouched_same.
  - now apply untouched_same.
  - assert (Hne : id' <> id) by (intros ->; now apply (Hcb name)).
    unfold Analytics.dwell_elapsed.
    eapply untouched_trans; [apply (untouched_track_other id id' name w Hne Hok)|].
    apply untouched_same; try reflexivity.
    now destruct (untouched_track_other id id' name w Hne Hok) as (_ & _ & _ & Hok' & _).
Qed.

Lemma untouched_fire id due w :
  no_dwell_timer id due -> utm_ok w -> untouched id w (fire due w).
Proof.
  intros Hall. revert w. induction Hall as [|tm due Htm Hdue IH]; intros w Hok.
  - now apply untouched_refl.
  - unfold fire. cbn [fold_left]. fold (fire due).
    set (w1 := with_clock _ w).
    assert (H1 : untouched id w w1) by (now apply untouched_same).
    assert (H2 : untouched id w1 (Page.run_callback (tm_callback tm) w1)).
    { apply untouched_callback; [exact Htm|]. now destruct H1 as (_ & _ & _ & Hok1 & _). }
    eapply untouched_trans; [exact H1|]. eapply untouched_trans; [exact H2|].
    apply IH. now destruct H2 as (_ & _ & _ & Hok2 & _).
Qed.

Lemma schedule_split tm pending :
  exists before after, pending = before ++ after /\ schedule tm pending = before ++ tm :: after.
Proof.
  induction pending as [|tm' rest (before & after & Heq & Hs)]; cbn [schedule].
  - now exists [], [].
  - destruct (tm_due tm <? tm_due tm').
    + now exists [], (tm' :: rest).
    + exists (tm' :: before), after. split; [now rewrite Heq | now rewrite Hs].
Qed.

Lemma fire_app due1 due2 w : fire (due1 ++ due2) w = fire due2 (fire due1 w).
Proof. unfold fire. apply fold_left_app. Qed.

(** X10. A section that stays in view for the dwell time is reported.
    When an observer entry shows a section that is not tracked, has no
    timer registered and none pending, and nothing happens until two
    seconds later, the section is in the tracked set from then on, the
    generic sink has exactly one more engagement event of it when
    [window.va] is a function, and the CRM queue exactly one more when
    consent is held and the queue exists. *)
Theorem section_reported_after_dwell (e : Analytics.entry) (w : world) (t : Z) :
  let id := Analytics.entry_sectionId e in
  Analytics.entry_visible e = true ->
  id ∉ trackedSections (st w) ->
  sectionTimers (st w) !! id = None ->
  no_dwell_timer id (timers w) ->
  utm_ok w ->
  clock w + 2000 <= t ->
  let w' := Page.advance t (Analytics.observe_entry e w) in
  id ∈ trackedSections (st w') /\
  va_engagements id w' = (va_engagements id w + if is_some (va w) then 1 else 0)%nat /\
  hsq_engagements id w' =
    (hsq_engagements id w +
     if Analytics.hasUserConsent w && is_some (hsq w) then 1 else 0)%nat.
Proof.
  intros id Hvis Hnot Hnone Hpending Hok Hle. cbv zeta.
  unfold Analytics.observe_entry. fold id. rewrite Hvis, Hnone.
  unfold setTimeout. cbn [fst snd].
  set (name := Analytics.entry_sectionName e).
  set (new := Timer (next_timer w) (clock w + Analytics.CONFIG.sectionEngagementTime)
                    (SectionDwell id name)).
  unfold Page.advance. cbv zeta.
  cbn [timers with_st with_timers next_timer].
  destruct (schedule_split new (timers w)) as (before & after & Hsplit & ->).
  rewrite Hsplit in Hpending. apply Forall_app in Hpending as [Hbefore Hafter].
  rewrite List.filter_app. cbn [List.filter].
  assert (Hdue : Page.is_due t new = true).
  { unfold Page.is_due, new. cbn [tm_due]. apply Z.leb_le.
    unfold Analytics.CONFIG.sectionEngagementTime. lia. }
  rewrite Hdue.
  match goal with
  | |- context [fold_left ?f (?d1 ++ new :: ?d2) ?x] =>
      change (fold_left f (d1 ++ new :: d2) x) with (fire (d1 ++ new :: d2) x);
      set (due1 := d1); set (due2 := d2); set (w1 := x)
  end.
  rewrite fire_app. change (new :: due2) with ([new] ++ due2). rewrite fire_app.
  assert (H1 : untouched id w (fire due1 w1)).
  { eapply (untouched_trans _ _ w1); [now apply untouched_same|].
    apply untouched_fire; [now apply filter_Forall | exact Hok]. }
  destruct H1 as (Ht1 & Hv1 & Hh1 & Hok1 & Hsv1 & Hsh1 & Hc1).
  set (w2 := fire due1 w1) in *.
  pose (w3 := with_clock (Z.max (clock w2) (tm_due new)) w2).
  pose (w4 := Analytics.trackSectionEngagement id name w3).
  pose (w5 := with_st (Analytics.with_sectionTimers (delete id (sectionTimers (st w4)))
                                                    (st w4)) w4).
  change (fire [new] w2) with w5.
  assert (Hnot3 : id ∉ trackedSections (st w3)) by (intros Hx; now apply Hnot, Ht1).
  destruct (trackSectionEngagement_report id id name w3 Hnot3)
    as (Hst4 & Hh4 & Hv4 & Hsv4 & Hsh4 & Hs4).
  specialize (Hv4 Hok1). rewrite String.eqb_refl, !andb_true_r in Hh4, Hv4.
  fold w4 in Hst4, Hh4, Hv4, Hsv4, Hsh4, Hs4.
  assert (H5 : untouched id w4 (fire due2 w5)).
  { eapply (untouched_trans _ _ w5).
    - apply untouched_same; try reflexivity. unfold utm_ok. now rewrite Hst4.
    - apply untouched_fire; [now apply filter_Forall|]. unfold utm_ok.
      unfold w5. cbn [st with_st utmParams Analytics.with_sectionTimers]. now rewrite Hst4. }
  destruct H5 as (Ht5 & Hv5 & Hh5 & _).
  set (w6 := fire due2 w5) in *.
  split; [|split].
  - cbn [st with_clock]. apply Ht5. rewrite Hst4.
    cbn [trackedSections Analytics.add_tracked]. apply elem_of_union. left.
    now apply elem_of_singleton.
  - change (va_engagements id (with_clock (Z.max (clock w6) t) w6)) with (va_engagements id w6).
    rewrite Hv5, Hv4.
    change (va_engagements id w3) with (va_engagements id w2).
    change (is_some (va w3)) with (is_some (va w2)).
    now rewrite Hv1, Hsv1.
  - change (hsq_engagements id (with_clock (Z.max (clock w6) t) w6))
      with (hsq_engagements id w6).
    rewrite Hh5, Hh4.
    change (hsq_engagements id w3) with (hsq_engagements id w2).
    change (is_some (hsq w3)) with (is_some (hsq w2)).
    change (Analytics.hasUserConsent w3) with (Analytics.hasUserConsent w2).
    now rewrite Hh1, Hsh1, Hc1.
Qed.

Lemma settled_aside id w0 w w' : aside w w' -> settled id w0 w -> settled id w0 w'.
Proof.
  intros (Hview & _ & Hok') (Hin & Hh & Hv).
  destruct (view_fields _ _ Hview) as (Ht & _ & _ & Hcalls & Hitems).
  unfold settled. rewrite Ht. split; [exact Hin|]. split.
  - rewrite <- Hh. unfold hsq_engagements. now rewrite Hitems.
  - intros Hok0. destruct (Hv Hok0) as [Hok Hva]. split; [now apply Hok'|].
    rewrite <- Hva. unfold va_engagements. now rewrite Hcalls.
Qed.

Lemma settled_same id w0 w w' :
  trackedSections (st w') = trackedSections (st w) ->
  utmParams (st w') = utmParams (st w) ->
  va w' = va w -> hsq w' = hsq w ->
  settled id w0 w -> settled id w0 w'.
Proof.
  intros Ht Hu Hva Hhs (Hin & Hh & Hv). unfold settled.
  rewrite Ht, (hsq_engagements_same id w w' Hhs), (va_engagements_same id w w' Hva).
  split; [exact Hin|]. split; [exact Hh|].
  intros Hok0. destruct (Hv Hok0) as [Hok Hv']. split; [|exact Hv'].
  unfold utm_ok. now rewrite Hu.
Qed.

Lemma settled_track id w0 id' name w :
  settled id w0 w -> settled id w0 (Analytics.trackSectionEngagement id' name w).
Proof.
  intros Hs.
  destruct (decide (id' ∈ trackedSections (st w))) as [Hin'|Hin'].
  - unfold Analytics.trackSectionEngagement. now case_decide.
  - destruct Hs as (Hin & Hh & Hv).
    assert (Hne : id' <> id) by (intros ->; contradiction).
    destruct (trackSectionEngagement_report id id' name w Hin')
      as (Hst & Hh' & Hv' & _).
    destruct (String.eqb_spec id' id) as [|_]; [contradiction|].
    rewrite !andb_false_r, !Nat.add_0_r in *.
    unfold settled. rewrite Hst. cbn [trackedSections Analytics.add_tracked].
    split; [apply elem_of_union; now right|]. split; [now rewrite Hh'|].
    intros Hok0. destruct (Hv Hok0) as [Hok Hva]. split.
    + unfold utm_ok. now rewrite Hst.
    + now rewrite (Hv' Hok).
Qed.

Lemma settled_dwell id w0 id' name w :
  settled id w0 w -> settled id w0 (Analytics.dwell_elapsed id' name w).
Proof.
  intros Hs. unfold Analytics.dwell_elapsed.
  eapply settled_same; [..|apply (settled_track id w0 id' name), Hs]; reflexivity.
Qed.

Lemma settled_observe_entry id w0 e w :
  settled id w0 w -> settled id w0 (Analytics.observe_entry e w).
Proof.
  intros Hs. unfold Analytics.observe_entry.
  destruct (Analytics.entry_visible e), (sectionTimers (st w) !! Analytics.entry_sectionId e);
    try exact Hs; (eapply settled_same; [..|exact Hs]; reflexivity).
Qed.

Lemma settled_observer_callback id w0 entries w :
  settled id w0 w -> settled id w0 (Analytics.observer_callback entries w).
Proof.
  unfold Analytics.observer_callback. revert w.
  induction entries as [|e entries IH]; intros w Hw; [exact Hw|].
  cbn [fold_left]. now apply IH, settled_observe_entry.
Qed.

Lemma settled_handle id w0 ev w : settled id w0 w -> settled id w0 (Page.handle ev w).
Proof.
  intros Hw. destruct ev as [|entries|cta|ft|accepted|a b|a b|a|value]; cbn [Page.handle].
  - exact Hw.
  - destruct (observers w); [exact Hw | now apply settled_observer_callback].
  - eapply settled_aside; [|exact Hw]. apply iter_aside. intros w'. apply trackCTAClick_aside.
  - eapply settled_aside; [|exact Hw]. apply iter_aside. intros w'. apply trackFormSubmit_aside.
  - eapply settled_aside; [apply handleConsentChoice_aside | exact Hw].
  - destruct (EventAnalytics w); [now apply settled_track | exact Hw].
  - destruct (EventAnalytics w); [|exact Hw].
    eapply settled_aside; [apply trackCTAClick_aside | exact Hw].
  - destruct (EventAnalytics w); [|exact Hw].
    eapply settled_aside; [apply trackFormSubmit_aside | exact Hw].
  - destruct (EventAnalytics w); [|exact Hw].
    eapply settled_aside; [apply analytics_setConsent_aside | exact Hw].
Qed.

Lemma settled_run_callback id w0 cb w :
  settled id w0 w -> settled id w0 (Page.run_callback cb w).
Proof.
  intros Hw. destruct cb as [| |a b]; cbn [Page.run_callback].
  - eapply settled_same; [..|exact Hw]; reflexivity.
  - eapply settled_same; [..|exact Hw]; reflexivity.
  - now apply settled_dwell.
Qed.

Lemma settled_advance id w0 t w : settled id w0 w -> settled id w0 (Page.advance t w).
Proof.
  intros Hw. unfold Page.advance. cbv zeta.
  set (due := List.filter (Page.is_due t) (timers w)).
  set (w1 := with_timers _ _ w).
  assert (Hw1 : settled id w0 w1) by (eapply settled_same; [..|exact Hw]; reflexivity).
  clearbody w1 due. clear Hw.
  assert (Hf : settled id w0 (fire due w1)).
  { revert w1 Hw1. induction due as [|tm due IH]; intros w1 Hw1; [exact Hw1|].
    unfold fire. cbn [fold_left]. apply IH, settled_run_callback.
    eapply settled_same; [..|exact Hw1]; reflexivity. }
  eapply settled_same; [..|exact Hf]; reflexivity.
Qed.

Lemma settled_run id w0 trace w : settled id w0 w -> settled id w0 (Page.run trace w).
Proof.
  unfold Page.run. revert w. induction trace as [|tev trace IH]; intros w Hw; [exact Hw|].
  cbn [fold_left]. apply IH. unfold Page.step. now apply settled_handle, settled_advance.
Qed.

(** X11. A section that is in the tracked set is never reported again,
    whatever happens on the page afterwards: it stays in the set, and
    neither sink receives a further engagement event of it.  So a
    section that was engaged with before consent was granted never
    reaches the CRM queue, also not after the visitor accepts. *)
Theorem tracked_section_is_not_reported_again
        (id : string) (trace : list (Z * Page.event)) (w : world) :
  id ∈ trackedSections (st w) ->
  let w' := Page.run trace w in
  id ∈ trackedSections (st w') /\
  hsq_engagements id w' = hsq_engagements id w /\
  (utm_ok w -> va_engagements id w' = va_engagements id w).
Proof.
  intros Hin. cbv zeta.
  assert (H0 : settled id w w) by (now repeat split).
  destruct (settled_run id w trace w H0) as (Ht & Hh & Hv).
  split; [exact Ht|]. split; [exact Hh|]. intros Hok. now destruct (Hv Hok).
Qed.

End SectionReports.

(** ** The data a form collects *)

Section CollectedData.
Import Forms Forms.GDPRComplianceValidator Terms.


Lemma set_prop_keys {A} k (v : A) o :
  map fst (JS.set_prop k v o) =
  if existsb (String.eqb k) (map fst o) then map fst o else map fst o ++ [k].
Proof.
  induction o as [|[k0 v0] o IH]; cbn [JS.set_prop map fst existsb app]; [reflexivity|].
  destruct (String.eqb_spec k k0) as [->|Hne]; cbn [orb map fst]; [reflexivity|].
  rewrite IH. now destruct (existsb (String.eqb k) (map fst o)).
Qed.

Lemma existsb_eqb_In k keys : existsb (String.eqb k) keys = true <-> In k keys.
Proof.
  rewrite existsb_exists. split.
  - intros (x & Hin & ->%String.eqb_eq). exact Hin.
  - intros Hin. exists k. split; [exact Hin | apply String.eqb_refl].
Qed.

Lemma set_prop_key_In {A} k (v : A) o k' :
  In k' (map fst (JS.set_prop k v o)) <-> k' = k \/ In k' (map fst o).
Proof.
  rewrite set_prop_keys.
  destruct (existsb (String.eqb k) (map fst o)) eqn:E.
  - apply existsb_eqb_In in E. split; [now right | now intros [->|Hin]].
  - rewrite in_app_iff. cbn [In]. split.
    + intros [Hin|[->|[]]]; [now right | now left].
    + intros [->|Hin]; [right; now left | now left].
Qed.



Lemma assign_key_In {A} (o extra : list (string * A)) k :
  In k (map fst (JS.assign o extra)) <-> In k (map fst o) \/ In k (map fst extra).
Proof.
  unfold JS.assign. revert o. induction extra as [|kv extra IH]; intros o; cbn [fold_left map In].
  - tauto.
  - rewrite IH, set_prop_key_In. intuition congruence.
Qed.



Lemma collect_fold (entries : list (string * string)) acc :
  fold_left
    (fun acc kv => if negb (String.eqb (fst kv) "gdpr_consent")
                   then JS.set_prop (fst kv) (snd kv) acc else acc)
    entries acc =
  JS.assign acc (List.filter (fun kv => negb (String.eqb (fst kv) "gdpr_consent")) entries).
Proof.
  unfold JS.assign. revert acc.
  induction entries as [|kv entries IH]; intros acc; cbn [fold_left List.filter]; [reflexivity|].
  rewrite IH. now destruct (negb (String.eqb (fst kv) "gdpr_consent")).
Qed.



Lemma collected_entries cfg env :
  collect cfg env =
  let data :=
    JS.assign [] (List.filter (fun kv => negb (String.eqb (fst kv) "gdpr_consent"))
                              (entries env)) in
  if BRI_populateFormFields env then JS.assign data (getAnalyticsData cfg env) else data.
Proof. unfold collect. cbv zeta. now rewrite collect_fold. Qed.


Lemma collect_key_In cfg env k :
  In k (map fst (collect cfg env)) <->
  (k <> "gdpr_consent"%string /\ In k (map fst (entries env))) \/
  (BRI_populateFormFields env = true /\
   (k = "event_name"%string \/ k = "utm_source_original"%string)).
Proof.
  rewrite collected_entries. cbv zeta.
  assert (Hdata : forall k,
    In k (map fst (JS.assign []
            (List.filter (fun kv => negb (String.eqb (fst kv) "gdpr_consent")) (entries env))))
    <-> k <> "gdpr_consent"%string /\ In k (map fst (entries env))).
  { intros k0. rewrite assign_key_In. cbn [map In]. rewrite !in_map_iff. split.
    - intros [[]|((k1 & v1) & <- & [Hin Hf]%filter_In)]. cbn [fst] in *. split.
      + intros ->. now rewrite String.eqb_refl in Hf.
      + now exists (k1, v1).
    - intros (Hne & (k1 & v1) & <- & Hin). right. exists (k1, v1). split; [reflexivity|].
      apply filter_In. split; [exact Hin|]. cbn [fst] in *.
      now destruct (String.eqb_spec k1 "gdpr_consent"). }
  destruct (BRI_populateFormFields env).
  - rewrite assign_key_In, Hdata. unfold getAnalyticsData. cbn [map fst In].
    intuition congruence.
  - rewrite Hdata. intuition congruence.
Qed.


End CollectedData.

(** ** What a submit sends *)

Section FormSubmissions.
Import Forms Forms.GDPRComplianceValidator Terms.
Context `{URIDecoder}.

Lemma isValid_errors formData consentGiven :
  isValid (validate formData consentGiven) = true <->
  errors (validate formData consentGiven) = [].
Proof.
  unfold validate. cbv zeta. cbn [isValid errors].
  match goal with |- context [fold_left ?f ?l ?a] => destruct (fold_left f l a) end;
    split; congruence.
Qed.

Lemma validate_ok formData consentGiven :
  errors (validate formData consentGiven) = [] ->
  validate formData consentGiven = {| isValid := true; errors := [] |}.
Proof.
  intros He. pose proof (proj2 (isValid_errors formData consentGiven) He) as Hv.
  destruct (validate formData consentGiven) as [v e]. cbn [isValid errors] in *. congruence.
Qed.

Lemma filter_nil_Forall {A} (f : A -> bool) l :
  List.filter f l = [] -> Forall (fun x => f x = false) l.
Proof.
  induction l as [|x l IH]; cbn [List.filter]; [constructor|].
  destruct (f x) eqn:E; [discriminate|]. intros Hl. constructor; [exact E | now apply IH].
Qed.

(** What validity means for the data. *)
Lemma valid_data formData consentGiven :
  isValid (validate formData consentGiven) = true <->
  consentGiven = true /\
  (exists e, email_of formData = Some e /\ isValidEmail e = true) /\
  Forall (fun key => allowed key = true) (map fst formData).
Proof.
  rewrite isValid_errors, validate_errors. split.
  - intros (Hc & (He & Hf)%app_eq_nil)%app_eq_nil. split; [|split].
    + now destruct consentGiven.
    + destruct (email_of formData) as [e|]; [|discriminate]. exists e.
      split; [reflexivity|]. now destruct (isValidEmail e).
    + apply map_eq_nil, filter_nil_Forall in Hf.
      eapply List.Forall_impl; [|exact Hf]. intros key Hk. cbv beta in Hk.
      now destruct (allowed key).
  - intros (-> & (e & -> & ->) & Hall). cbn [app].
    rewrite filter_all_allowed; [reflexivity|].
    apply forallb_forall. now apply List.Forall_forall.
Qed.

Lemma handleSubmit_invalid cfg consentGiven env p :
  isValid (validate (collect cfg env) consentGiven) = false ->
  handleSubmit cfg consentGiven env p =
  FormPage (form_display p) "none" "block"
           ("Please correct the following:" +:+ JS.newline +:+
            JS.join JS.newline (errors (validate (collect cfg env) consentGiven)))
           (submit_disabled p) (submit_text p) (sent p) (onSuccess_calls p).
Proof. intros Hv. unfold handleSubmit. cbv zeta. now rewrite Hv. Qed.




(** X14. A submit that succeeds.  When the data are valid, the payload
    builds, and the transport answers with an [ok] response whose body
    parses, [handleSubmit] hides the form, shows the success message,
    has sent exactly one request, and calls the success callback of the
    form definition once, with the collected data and the parsed
    response.  The submit button stays disabled with the text
    [Submitting...]. *)
Theorem successful_submit_shows_thanks
        (cfg : form_config) (consentGiven : bool) (env : environment) (p : form_page)
        (body : payload) (json : string) :
  let data := collect cfg env in
  let req := {| url := apiUrl cfg; method := "POST";
                content_type := "application/json"; body := body |} in
  isValid (validate data consentGiven) = true ->
  buildPayload env data (Some (location_href env)) (Some (document_title env))
    (Some "I agree to allow Big Rock Intelligence to store and process my personal data."%string)
    (Some "I agree to receive marketing communications from Big Rock Intelligence."%string)
  = Some body ->
  fetch env req = Response true (Some json) ->
  handleSubmit cfg consentGiven env p =
    {| form_display := "none";
       success_display := "block";
       error_display := "none";
       error_text := error_text p;
       submit_disabled := true;
       submit_text := "Submitting...";
       sent := sent p ++ [req];
       onSuccess_calls :=
         if onSuccess cfg then onSuccess_calls p ++ [(data, json)] else onSuccess_calls p |}.
Proof.
  cbv zeta. intros Hvalid Hbuild Hfetch.
  unfold handleSubmit. cbv zeta. rewrite Hvalid. cbn [negb].
  unfold submit. cbv zeta. rewrite Hbuild, Hfetch. reflexivity.
Qed.

(** X15. Two failures that are no refusal of the server.  When
    [decodeURIComponent] throws on the cookie string, a valid submit
    ends in the failure message without any request having been sent;
    and when the response is [ok] but its body does not parse, the
    submit ends in the same failure message after its one request.  In
    both cases the button is enabled again and no success callback
    runs. *)
Theorem submit_fails_on_cookie_or_body
        (cfg : form_config) (consentGiven : bool) (env : environment) (p : form_page) :
  let data := collect cfg env in
  let failed (requests : list request) :=
    {| form_display := form_display p;
       success_display := "none";
       error_display := "block";
       error_text := "Submission failed. Please try again or contact james@bigrock-intel.ai";
       submit_disabled := false;
       submit_text := or_string (buttonText cfg) "Submit";
       sent := requests;
       onSuccess_calls := onSuccess_calls p |} in
  isValid (validate data consentGiven) = true ->
  (decodeURIComponent (document_cookie env) = None ->
   handleSubmit cfg consentGiven env p = failed (sent p)) /\
  (forall body,
     buildPayload env data (Some (location_href env)) (Some (document_title env))
       (Some "I agree to allow Big Rock Intelligence to store and process my personal data."%string)
       (Some "I agree to receive marketing communications from Big Rock Intelligence."%string)
     = Some body ->
     let req := {| url := apiUrl cfg; method := "POST";
                   content_type := "application/json"; body := body |} in
     fetch env req = Response true None ->
     handleSubmit cfg consentGiven env p = failed (sent p ++ [req])).
Proof.
  cbv zeta. intros Hvalid. split.
  - intros Hdec. unfold handleSubmit. cbv zeta. rewrite Hvalid. cbn [negb].
    unfold submit, buildPayload, getHubSpotCookie. cbv zeta. rewrite Hdec. reflexivity.
  - intros body Hbuild Hfetch. unfold handleSubmit. cbv zeta. rewrite Hvalid. cbn [negb].
    unfold submit. cbv zeta. rewrite Hbuild, Hfetch. reflexivity.
Qed.

Lemma requests_sent_when_valid cfg consentGiven env p :
  isValid (validate (collect cfg env) consentGiven) = true ->
  decodeURIComponent (document_cookie env) <> None ->
  exists req,
    sent (handleSubmit cfg consentGiven env p) = sent p ++ [req] /\
    map (fun f => (name f, value f)) (fields (body req)) = collect cfg env.
Proof.
  intros Hv Hdec. unfold handleSubmit. cbv zeta. rewrite Hv. cbn [negb].
  unfold submit, buildPayload, getHubSpotCookie. cbv zeta.
  destruct (decodeURIComponent (document_cookie env)) as [decoded|]; [|contradiction].
  eexists. split.
  - match goal with
    | |- context [fetch env ?r] => destruct (fetch env r) as [|[] [json|]]
    end; reflexivity.
  - cbn [body fields]. rewrite map_map. cbn [name value].
    rewrite <- (map_id (collect cfg env)) at 2. apply map_ext. now intros [k v].
Qed.

Lemma startsWith_app p s : JS.startsWith p (p +:+ s) = true.
Proof.
  induction p as [|a p IH]; [reflexivity|].
  cbn [String.append JS.startsWith]. now rewrite Ascii.eqb_refl.
Qed.

Lemma startsWith_refl p : JS.startsWith p p = true.
Proof. induction p as [|a p IH]; [reflexivity|]. cbn. now rewrite Ascii.eqb_refl. Qed.

Lemma startsWith_app_cancel a p s : JS.startsWith (a +:+ p) (a +:+ s) = JS.startsWith p s.
Proof.
  induction a as [|c a IH]; [reflexivity|].
  cbn [String.append JS.startsWith]. now rewrite Ascii.eqb_refl.
Qed.

Lemma unticked_step cfg c ev :
  Component.consentGiven c = false -> ev <> Component.ConsentChange true ->
  let c' := Component.on_event cfg c ev in
  Component.consentGiven c' = false /\
  sent (Component.elements c') = sent (Component.elements c) /\
  onSuccess_calls (Component.elements c') = onSuccess_calls (Component.elements c).
Proof.
  intros Hc Hev. cbv zeta. destruct ev as [[|]|value|env]; cbn [Component.on_event].
  - contradiction.
  - easy.
  - unfold Component.validateEmail. now destruct (negb (isValidEmail value)).
  - cbn [Component.consentGiven Component.elements]. split; [exact Hc|].
    rewrite handleSubmit_invalid; [easy|].
    destruct (isValid _) eqn:Hv; [|reflexivity].
    apply valid_data in Hv as (Hx & _). congruence.
Qed.

(** X16. No request before the box is ticked.  A form component starts
    with its consent flag unset, and only a change event of the checkbox
    that reports it ticked sets it.  Until then, whatever is typed and
    however often the form is submitted, nothing is sent and no success
    callback runs; each such submit shows the list of errors, which
    starts with the consent error. *)
Theorem nothing_is_sent_before_the_box_is_ticked
        (cfg : form_config) (events : list Component.form_event) (rendered : form_page) :
  Forall (fun ev => ev <> Component.ConsentChange true) events ->
  let c := Component.run cfg events (Component.constructor rendered) in
  Component.consentGiven c = false /\
  sent (Component.elements c) = sent rendered /\
  onSuccess_calls (Component.elements c) = onSuccess_calls rendered /\
  forall env,
    let shown := Component.elements (Component.on_event cfg c (Component.FormSubmit env)) in
    sent shown = sent rendered /\
    error_display shown = "block"%string /\
    JS.startsWith ("Please correct the following:" +:+ JS.newline +:+ consent_error)
                  (error_text shown) = true.
Proof.
  intros Hall. cbv zeta.
  assert (Hrun : forall c0,
    Component.consentGiven c0 = false ->
    Component.consentGiven (Component.run cfg events c0) = false /\
    sent (Component.elements (Component.run cfg events c0)) = sent (Component.elements c0) /\
    onSuccess_calls (Component.elements (Component.run cfg events c0)) =
      onSuccess_calls (Component.elements c0)).
  { unfold Component.run. induction Hall as [|ev events Hev Hevents IH]; intros c0 Hc0;
      [easy|].
    cbn [fold_left]. destruct (unticked_step cfg c0 ev Hc0 Hev) as (Hc1 & Hs1 & Ho1).
    destruct (IH _ Hc1) as (Hc2 & Hs2 & Ho2). split; [exact Hc2|]. split; congruence. }
  destruct (Hrun (Component.constructor rendered) eq_refl) as (Hc & Hs & Ho).
  split; [exact Hc|]. split; [exact Hs|]. split; [exact Ho|].
  intros env. cbn [Component.on_event Component.elements]. rewrite Hc.
  assert (Hv : isValid (validate (collect cfg env) false) = false).
  { destruct (isValid _) eqn:Hv; [|reflexivity]. apply valid_data in Hv as (Hx & _).
    discriminate Hx. }
  rewrite (handleSubmit_invalid _ _ _ _ Hv). cbn [sent error_display error_text].
  split; [exact Hs|]. split; [reflexivity|].
  rewrite validate_errors. cbn [app]. unfold JS.join. cbn [String.concat].
  match goal with
  | |- context [match ?l with [] => consent_error | _ :: _ => ?r end] =>
      destruct l
  end.
  - rewrite !startsWith_app_cancel. apply startsWith_refl.
  - rewrite !startsWith_app_cancel. apply startsWith_app.
Qed.

End FormSubmissions.

(** ** The three form definitions *)

Section FormDefinitions.
Import Forms Forms.GDPRComplianceValidator Terms.
Import FormConfigs.BRI_FORM_CONFIGS.
Context `{URIDecoder}.

Lemma field_outside_allowlist cfg consentGiven env p k :
  In k (map fst (entries env)) -> k <> "gdpr_consent"%string -> allowed k = false ->
  In (not_allowed_error k) (errors (validate (collect cfg env) consentGiven)) /\
  handleSubmit cfg consentGiven env p =
  FormPage (form_display p) "none" "block"
           ("Please correct the following:" +:+ JS.newline +:+
            JS.join JS.newline (errors (validate (collect cfg env) consentGiven)))
           (submit_disabled p) (submit_text p) (sent p) (onSuccess_calls p).
Proof.
  intros Hin Hne Hk.
  assert (He : In (not_allowed_error k) (errors (validate (collect cfg env) consentGiven))).
  { rewrite validate_errors, !in_app_iff. right. right. apply in_map, filter_In.
    split; [|now rewrite Hk]. apply collect_key_In. now left. }
  split; [exact He|]. apply handleSubmit_invalid.
  destruct (isValid _) eqn:Hv; [|reflexivity].
  apply isValid_errors in Hv. rewrite Hv in He. destruct He.
Qed.

(** X17. A form with a field outside the validator's allowlist can never
    be submitted; and the floating-banner form is such a form.  Its
    select field [interest_area] is in no allowlist, and the form data
    of the rendered form always has an entry of that name; so whatever
    the visitor enters and whether or not the box is ticked, the submit
    ends in the list of errors, among them that the field is not
    allowed, and nothing is sent. *)
Theorem floating_banner_form_is_always_rejected
        (v : FormConfigs.visitor) (consentGiven : bool) (env : environment) (p : form_page) :
  entries env = FormConfigs.FormData (FormConfigs.render floatingBanner) v ->
  let cfg := FormConfigs.settings floatingBanner in
  let p' := handleSubmit cfg consentGiven env p in
  In "interest_area"%string (map FormConfigs.fc_name (FormConfigs.fields floatingBanner)) /\
  allowed "interest_area" = false /\
  In (not_allowed_error "interest_area") (errors (validate (collect cfg env) consentGiven)) /\
  sent p' = sent p /\
  onSuccess_calls p' = onSuccess_calls p /\
  form_display p' = form_display p /\
  success_display p' = "none"%string /\
  error_display p' = "block"%string.
Proof.
  intros Hent. cbv zeta.
  split; [right; right; left; reflexivity|]. split; [reflexivity|].
  destruct (field_outside_allowlist (FormConfigs.settings floatingBanner) consentGiven env p
              "interest_area"%string) as [He ->].
  - rewrite Hent. right. right. left. reflexivity.
  - discriminate.
  - reflexivity.
  - split; [exact He|]. now repeat split.
Qed.

Lemma valid_email_nonempty e : isValidEmail e = true -> exists a s, e = String a s.
Proof. destruct e as [|a s]; [discriminate|]. intros _. now exists a, s. Qed.

Lemma email_form_data d v env :
  d = quickEmail \/ d = exitIntent ->
  entries env = FormConfigs.FormData (FormConfigs.render d) v ->
  collect (FormConfigs.settings d) env =
  [ ("email"%string, FormConfigs.typed v "email");
    ("cta_interaction_type"%string,
     or_string (FormConfigs.fc_value (nth 1 (FormConfigs.fields d) FormConfigs.email_field))
               EmptyString) ] ++
  (if BRI_populateFormFields env
   then getAnalyticsData (FormConfigs.settings d) env else []).
Proof.
  intros Hd Hent. unfold collect. rewrite Hent.
  destruct Hd as [-> | ->];
    unfold FormConfigs.FormData, FormConfigs.render, FormConfigs.renderFields;
    cbn [FormConfigs.fields quickEmail exitIntent flat_map FormConfigs.renderField
         FormConfigs.fc_type FormConfigs.fc_name FormConfigs.fc_value
         FormConfigs.email_field FormConfigs.hidden_field app
         FormConfigs.control_entries String.eqb Ascii.eqb Bool.eqb nth or_string];
    destruct (FormConfigs.ticked v), (BRI_populateFormFields env); reflexivity.
Qed.

(** X18. The quick-email form and the exit-intent form can be
    submitted.  With a valid address in the email field and the consent
    flag set, the data of either form pass the validator, with or
    without the analytics fields; and when the cookie string decodes,
    the submit sends exactly one request, whose fields are the email
    address, the interaction type of the form definition and, where the
    page asks for them, the two analytics fields. *)
Theorem email_forms_are_accepted
        (d : FormConfigs.form_definition) (v : FormConfigs.visitor)
        (env : environment) (p : form_page) :
  d = quickEmail \/ d = exitIntent ->
  entries env = FormConfigs.FormData (FormConfigs.render d) v ->
  isValidEmail (FormConfigs.typed v "email") = true ->
  let cfg := FormConfigs.settings d in
  validate (collect cfg env) true = {| isValid := true; errors := [] |} /\
  (decodeURIComponent (document_cookie env) <> None ->
   exists req,
     sent (handleSubmit cfg true env p) = sent p ++ [req] /\
     map (fun f => (name f, value f)) (fields (body req)) =
     [ ("email"%string, FormConfigs.typed v "email");
       ("cta_interaction_type"%string,
        if String.eqb (formGuid cfg) "bri-quick-email-capture"
        then "in_section_cta"%string else "exit_intent"%string) ] ++
     (if BRI_populateFormFields env then getAnalyticsData cfg env else [])).
Proof.
  intros Hd Hent Hemail. cbv zeta.
  pose proof (email_form_data d v env Hd Hent) as Hdata.
  destruct (valid_email_nonempty _ Hemail) as (a & s & He).
  assert (Hvalid : isValid (validate (collect (FormConfigs.settings d) env) true) = true).
  { apply valid_data. split; [reflexivity|]. split.
    - exists (FormConfigs.typed v "email"). split; [|exact Hemail].
      rewrite Hdata. unfold email_of. cbn [app JS.own_prop String.eqb Ascii.eqb Bool.eqb].
      now rewrite He.
    - rewrite Hdata, map_app. apply Forall_app. split; [now repeat constructor|].
      destruct (BRI_populateFormFields env); now repeat constructor. }
  split; [apply validate_ok; now apply isValid_errors|].
  intros Hdec.
  destruct (requests_sent_when_valid (FormConfigs.settings d) true env p Hvalid Hdec)
    as (req & Hsent & Hfields).
  exists req. split; [exact Hsent|]. rewrite Hfields, Hdata.
  destruct Hd as [-> | ->]; reflexivity.
Qed.

End FormDefinitions.

(** ** A visit on which the visitor accepts *)

Section AfterAccepting.
Import Browser Spec Terms.
Context `{URLParser}.

Lemma tracking_view_fields w w' :
  tracking_view w' = tracking_view w ->
  va w' = va w /\ hsq w' = hsq w /\ cta_listeners w' = cta_listeners w /\
  store w' = store w /\ EventAnalytics w' = EventAnalytics w /\
  campaign_present w' = campaign_present w /\ ctas (doc w') = ctas (doc w).
Proof.
  unfold tracking_view, listeners, campaign_present.
  intros [= Hva Hhs _ Hc _ Hs He Ha Hcs]. rewrite Ha. now repeat split.
Qed.

Lemma run_callback_tracking_view cb w :
  match cb with SectionDwell _ _ => False | _ => True end ->
  tracking_view (Page.run_callback cb w) = tracking_view w.
Proof. destruct cb; [reflexivity | reflexivity | contradiction]. Qed.

Lemma fire_tracking_view due w :
  Forall (fun tm => is_dwell tm = false) due ->
  tracking_view (fire due w) = tracking_view w.
Proof.
  intros Hall. revert w. induction Hall as [|tm due Htm Hdue IH]; intros w; [reflexivity|].
  unfold fire. cbn [fold_left]. fold (fire due). rewrite IH.
  rewrite run_callback_tracking_view; [reflexivity|].
  unfold is_dwell in Htm. now destruct (tm_callback tm).
Qed.

Lemma advance_tracking_view t w :
  no_dwell_timers w ->
  tracking_view (Page.advance t w) = tracking_view w /\ no_dwell_timers (Page.advance t w).
Proof.
  intros Hall. unfold Page.advance. cbv zeta. split.
  - change (tracking_view (fire (List.filter (Page.is_due t) (timers w))
                             (with_timers (List.filter (fun tm => negb (Page.is_due t tm))
                                                       (timers w)) (next_timer w) w))
            = tracking_view w).
    rewrite fire_tracking_view; [reflexivity | now apply filter_Forall].
  - unfold no_dwell_timers. cbn [timers with_clock].
    match goal with
    | |- Forall _ (timers (fold_left ?f ?due ?x)) =>
        assert (Ht : timers (fold_left f due x) = timers x)
    end.
    { generalize (List.filter (Page.is_due t) (timers w)). intros due.
      match goal with |- timers (fold_left ?f due ?x) = _ => generalize x end.
      induction due as [|tm due IH]; intros x; [reflexivity|].
      cbn [fold_left]. rewrite IH.
      destruct (tm_callback tm) as [| |a b]; cbn [Page.run_callback]; try reflexivity.
      now rewrite (surroundings_timers _ _ (proj1 (dwell_elapsed_frame a b _))). }
    rewrite Ht. cbn [timers with_timers]. now apply filter_Forall.
Qed.

Lemma handleConsentChoice_no_dwell accepted w :
  no_dwell_timers w -> no_dwell_timers (Banner.handleConsentChoice accepted w).
Proof.
  intros Hall. unfold no_dwell_timers.
  destruct (banner_setConsent_frame accepted w) as (Hd & _ & Ht & _).
  cbv zeta in Hd, Ht.
  unfold Banner.handleConsentChoice. cbv zeta.
  set (w1 := Banner.setConsent _ w) in *.
  destruct (banner (doc w1)); unfold setTimeout, Banner.set_banner;
    cbn [fst EventAnalytics with_timers with_doc];
    destruct (EventAnalytics w1); cbn [timers with_console with_timers with_doc];
    rewrite ?Ht; try exact Hall; now apply schedule_Forall.
Qed.

Lemma counts_of_view n m w w' :
  tracking_view w' = tracking_view w ->
  va_count n w' = va_count n w /\ hsq_count m w' = hsq_count m w /\
  is_some (va w') = is_some (va w) /\ is_some (hsq w') = is_some (hsq w) /\
  Analytics.hasUserConsent w' = Analytics.hasUserConsent w.
Proof.
  intros (Hva & Hhs & _ & Hs & _)%tracking_view_fields.
  unfold va_count, hsq_count, va_log, hsq_log. rewrite Hva, Hhs.
  repeat split. now apply hasUserConsent_store.
Qed.

(** The page as it stands when its scripts have run. *)
Lemma loaded_page p t0 s a c :
  Page.analytics_script p = true -> Page.has_va p = true -> Page.has_hsq p = true ->
  campaign_attr (Page.page_doc p) = Some (String a c) ->
  has_elements (ctas (Page.page_doc p)) = true ->
  let w := Page.load p t0 s in
  va_count "cta_conversion" w = 0%nat /\ hsq_count "CTA Click" w = 0%nat /\
  is_some (va w) = true /\ is_some (hsq w) = true /\
  cta_listeners w = 1%nat /\ EventAnalytics w = true /\
  campaign_present w = true /\ has_elements (ctas (doc w)) = true /\
  store w = s /\ no_dwell_timers w.
Proof.
  intros Hscript Hva Hhs Hattr Hctas. cbv zeta.
  unfold Page.load. cbv zeta. rewrite Hscript, Hva, Hhs.
  match goal with |- context [Analytics.init ?x] => set (w0 := x) end.
  assert (Hcp : campaign_present w0 = true)
    by (unfold campaign_present, w0; cbn [doc campaign_attr]; now rewrite Hattr).
  destruct (init_event_counts "cta_conversion" "CTA Click" w0) as [Hv Hh].
  change (String.eqb "page_view" "cta_conversion") with false in Hv.
  change (String.eqb "qr_scan_landing" "cta_conversion") with false in Hv.
  change (String.eqb "Landing Page View" "CTA Click") with false in Hh.
  change (String.eqb "QR Code Scan" "CTA Click") with false in Hh.
  rewrite !andb_false_r, !Nat.add_0_r in Hv, Hh.
  destruct (init_available w0) as [Hsv Hsh].
  pose proof (init_listeners w0) as Hl. unfold listeners in Hl. injection Hl as _ Hc _.
  rewrite Hcp in Hc. change (ctas (doc w0)) with (ctas (Page.page_doc p)) in Hc.
  rewrite Hctas in Hc.
  destruct (surroundings_fields _ _ (init_frame w0)) as (Hs1 & Hd1 & _ & Ht1 & _ & He1).
  set (w1 := Analytics.init w0) in *.
  assert (H1 : va_count "cta_conversion" w1 = 0%nat /\ hsq_count "CTA Click" w1 = 0%nat /\
               is_some (va w1) = true /\ is_some (hsq w1) = true /\
               cta_listeners w1 = 1%nat /\ EventAnalytics w1 = true /\
               campaign_present w1 = true /\ has_elements (ctas (doc w1)) = true /\
               store w1 = s /\ no_dwell_timers w1).
  { unfold campaign_present, no_dwell_timers. rewrite Hd1, Ht1.
    repeat split; try assumption. constructor. }
  destruct (Page.banner_script p); [|exact H1].
  unfold Banner.init. destruct (negb _); [|exact H1].
  destruct H1 as (? & ? & ? & ? & ? & ? & ? & ? & ? & Hnd).
  repeat split; try assumption.
  unfold no_dwell_timers, setTimeout. cbn [fst timers with_timers].
  now apply schedule_Forall.
Qed.

(** X19. After accepting, every click is reported twice.  On a campaign
    page with the analytics script, both sinks and a tracked CTA, a
    visitor who accepts in the banner and then clicks the CTA has the
    click reported twice to the generic sink and twice to the CRM
    queue: the page load installed one click listener and the re-run of
    [init()] on accepting installed a second one.  A visitor who only
    clicks has it reported once to the generic sink. *)
Theorem click_after_accepting_is_reported_twice
        (p : Page.page) (t0 t1 t2 : Z) (s : storage) (cta : cta_element) (a : ascii) (c : string) :
  Page.analytics_script p = true -> Page.has_va p = true -> Page.has_hsq p = true ->
  campaign_attr (Page.page_doc p) = Some (String a c) ->
  has_elements (ctas (Page.page_doc p)) = true ->
  (let w := Page.run [(t1, Page.ConsentChoice true); (t2, Page.Click cta)]
                     (Page.load p t0 s) in
   va_count "cta_conversion" w = 2%nat /\ hsq_count "CTA Click" w = 2%nat) /\
  (let w := Page.run [(t2, Page.Click cta)] (Page.load p t0 s) in
   va_count "cta_conversion" w = 1%nat).
Proof.
  intros Hscript Hva Hhs Hattr Hctas.
  destruct (loaded_page p t0 s a c Hscript Hva Hhs Hattr Hctas)
    as (Hv0 & Hh0 & Hsv0 & Hsh0 & Hc0 & He0 & Hcp0 & Hel0 & _ & Hnd0).
  cbv zeta in Hv0, Hh0, Hsv0, Hsh0, Hc0, He0, Hcp0, Hel0, Hnd0.
  set (w0 := Page.load p t0 s) in *.
  split; cbv zeta; unfold Page.run; cbn [fold_left]; unfold Page.step; cbn [fst snd].
  - destruct (advance_tracking_view t1 w0 Hnd0) as [Hview1 Hnd1].
    set (w1 := Page.advance t1 w0) in *.
    clearbody w1.
    destruct (counts_of_view "cta_conversion" "CTA Click" _ _ Hview1)
      as (Hv1 & Hh1 & Hsv1 & Hsh1 & _).
    destruct (tracking_view_fields _ _ Hview1) as (_ & _ & Hc1 & _ & He1 & Hcp1 & Hcs1).
    cbn [Page.handle].
    destruct (accept_effect "cta_conversion" "CTA Click" w1) as (Hv2 & Hh2 & Hl2 & Hsv2 & Hsh2).
    cbv zeta in Hv2, Hh2, Hl2, Hsv2, Hsh2.
    change (String.eqb "page_view" "cta_conversion") with false in Hv2.
    change (String.eqb "qr_scan_landing" "cta_conversion") with false in Hv2.
    change (String.eqb "Landing Page View" "CTA Click") with false in Hh2.
    change (String.eqb "QR Code Scan" "CTA Click") with false in Hh2.
    rewrite !andb_false_r, !Nat.add_0_r in Hv2, Hh2.
    unfold listeners in Hl2. injection Hl2 as _ Hc2 _.
    rewrite He1, He0, Hcp1, Hcp0, Hcs1, Hel0 in Hc2. cbn [andb] in Hc2.
    pose proof (consent_after_accepting w1) as Hcons2.
    pose proof (handleConsentChoice_no_dwell true w1 Hnd1) as Hnd2.
    set (w2 := Banner.handleConsentChoice true w1) in *.
    clearbody w2.
    destruct (advance_tracking_view t2 w2 Hnd2) as [Hview3 _].
    set (w3 := Page.advance t2 w2) in *.
    clearbody w3.
    destruct (counts_of_view "cta_conversion" "CTA Click" _ _ Hview3)
      as (Hv3 & Hh3 & Hsv3 & Hsh3 & Hcons3).
    destruct (tracking_view_fields _ _ Hview3) as (_ & _ & Hc3 & _).
    destruct (click_counts cta w3) as [Hv4 Hh4]. cbv zeta in Hv4, Hh4.
    change (Nat.iter (cta_listeners w3)
              (Analytics.trackCTAClick (data_track_cta cta)
                 (if is_anchor cta then "link" else "button")) w3)
      with (Page.handle (Page.Click cta) w3).
    rewrite Hv4, Hh4, Hv3, Hh3, Hsv3, Hsh3, Hcons3, Hc3, Hv2, Hh2, Hsv2, Hsh2, Hcons2, Hc2,
      Hv1, Hh1, Hsv1, Hsh1, Hc1, Hv0, Hh0, Hsv0, Hsh0, Hc0.
    now split.
  - destruct (advance_tracking_view t2 w0 Hnd0) as [Hview1 _].
    set (w1 := Page.advance t2 w0) in *.
    clearbody w1.
    destruct (counts_of_view "cta_conversion" "CTA Click" _ _ Hview1)
      as (Hv1 & _ & Hsv1 & _).
    destruct (tracking_view_fields _ _ Hview1) as (_ & _ & Hc1 & _).
    destruct (click_counts cta w1) as [Hv4 _]. cbv zeta in Hv4.
    change (Page.handle (Page.Click cta) w1) with
      (Nat.iter (cta_listeners w1)
              (Analytics.trackCTAClick (data_track_cta cta)
                 (if is_anchor cta then "link" else "button")) w1) in Hv4.
    cbn [Page.handle]. rewrite Hv4, Hv1, Hsv1, Hc1, Hv0, Hsv0, Hc0. reflexivity.
Qed.

End AfterAccepting.

(** ** The tracking cookie of the CRM *)

Section HubSpotCookie.
Import Browser Spec Terms.
Context `{Forms.URIDecoder}.

Lemma trim_space e : JS.trim (String " " e) = JS.trim e.
Proof. reflexivity. Qed.

Lemma trimmed_entries jar :
  Forall wf_cookie jar ->
  find (fun c => JS.startsWith "hubspotutk=" c) (map JS.trim (entries jar)) =
  match find (fun c => String.eqb (ck_name c) "hubspotutk") jar with
  | Some c => Some ("hubspotutk=" +:+ JS.trimEnd (ck_value c))
  | None => None
  end.
Proof.
  assert (Hone : forall c, wf_cookie c ->
            JS.startsWith "hubspotutk=" (JS.trim (render c)) =
            String.eqb (ck_name c) "hubspotutk" /\
            (String.eqb (ck_name c) "hubspotutk" = true ->
             JS.trim (render c) = "hubspotutk=" +:+ JS.trimEnd (ck_value c))).
  { intros c (_ & Heq & Hws & _). rewrite trim_render by exact Hws. split.
    - now apply (startsWith_name_eq "hubspotutk").
    - intros ->%String.eqb_eq. reflexivity. }
  intros Hwf. unfold entries. destruct Hwf as [|c jar Hc Hjar]; [reflexivity|].
  cbn [map find]. destruct (Hone c Hc) as [-> Hv].
  destruct (String.eqb (ck_name c) "hubspotutk"); [now rewrite Hv|].
  clear Hv. induction Hjar as [|c' jar Hc' Hjar IH]; [reflexivity|].
  cbn [map find]. rewrite trim_space. destruct (Hone c' Hc') as [-> Hv].
  destruct (String.eqb (ck_name c') "hubspotutk"); [now rewrite Hv | exact IH].
Qed.

(** X20. The tracking cookie that goes into a submission.  On the cookie
    string the browser makes of its jar, where decoding leaves the
    string as it is, [getHubSpotCookie()] returns the value of the first
    cookie named [hubspotutk], without white space at its end, and
    [null] when the jar has no such cookie; and it throws exactly when
    [decodeURIComponent] does. *)
Theorem hubspot_cookie_is_read_from_the_jar (jar : list cookie) (env : Forms.environment) :
  Forall wf_cookie jar ->
  Forms.document_cookie env = document_cookie jar ->
  (Forms.decodeURIComponent (Forms.document_cookie env) = Some (Forms.document_cookie env) ->
   Forms.getHubSpotCookie env =
   Some (match find (fun c => String.eqb (ck_name c) "hubspotutk") jar with
         | Some c => Some (JS.trimEnd (ck_value c))
         | None => None
         end)) /\
  (Forms.getHubSpotCookie env = None <->
   Forms.decodeURIComponent (Forms.document_cookie env) = None).
Proof.
  intros Hwf Hjar. split.
  - intros Hdec. unfold Forms.getHubSpotCookie. rewrite Hdec, Hjar.
    rewrite split_document_cookie by exact Hwf. rewrite trimmed_entries by exact Hwf.
    now destruct (find _ jar).
  - unfold Forms.getHubSpotCookie.
    destruct (Forms.decodeURIComponent (Forms.document_cookie env)); split; congruence.
Qed.

End HubSpotCookie.

(** ** A page without the campaign attribute *)

Section WithoutCampaign.
Import Browser Spec Terms.
Context `{URLParser}.

(** X21. Without the campaign attribute the analytics script is silent,
    but its exported functions are not.  On such a page the load sends
    nothing and installs no observer and no listener, so that no click,
    submit or intersection is tracked.  A script that calls the exported
    [trackSectionEngagement] still gets an event through to the generic
    sink, whose [analytics_id] is [null] and whose [time_to_view] is
    [NaN], the page-load time never having been set. *)
Theorem page_without_campaign_is_silent
        (p : Page.page) (t0 : Z) (s : storage) :
  Page.analytics_script p = true -> Page.has_va p = true ->
  campaign_attr (Page.page_doc p) = None ->
  let w := Page.load p t0 s in
  va w = Some [] /\ hsq_log w = [] /\ listeners w = (O, O, O) /\
  (forall ev, match ev with
              | Page.Intersections _ | Page.Click _ | Page.Submit _ => True
              | _ => False
              end -> Page.handle ev w = w) /\
  (forall id name,
     va (Page.handle (Page.CallTrackSectionEngagement id name) w) =
     Some [ {| va_command := "track"; va_event := "section_engagement";
               va_properties :=
                 [ ("section_id", JS.VStr id);
                   ("section_name", JS.VStr name);
                   ("time_to_view", JS.VNaN);
                   ("analytics_id", JS.VNull);
                   ("is_qr", JS.VBool false) ]%string |} ]).
Proof.
  intros Hscript Hva Hattr. cbv zeta.
  unfold Page.load. cbv zeta. rewrite Hscript, Hva, Hattr.
  match goal with |- context [Analytics.init ?x] => set (w0 := x) end.
  assert (Hinit : Analytics.init w0 = Analytics.read_campaign w0)
    by (rewrite init_unfold; reflexivity).
  rewrite Hinit.
  set (w1 := Analytics.read_campaign w0).
  assert (Htrack : forall w2 id name,
            va w2 = va w1 -> st w2 = st w1 -> EventAnalytics w2 = true ->
            va (Page.handle (Page.CallTrackSectionEngagement id name) w2) =
            Some [ {| va_command := "track"; va_event := "section_engagement";
                      va_properties :=
                        [ ("section_id", JS.VStr id);
                          ("section_name", JS.VStr name);
                          ("time_to_view", JS.VNaN);
                          ("analytics_id", JS.VNull);
                          ("is_qr", JS.VBool false) ]%string |} ]).
  { intros w2 id name Hv2 Hst2 He2. cbn [Page.handle]. rewrite He2.
    unfold Analytics.trackSectionEngagement. rewrite Hst2.
    case_decide as Hin; [now apply not_elem_of_empty in Hin|]. cbv zeta.
    match goal with
    | |- context [Analytics.sendHubSpotEvent ?e2 ?p2 (Analytics.sendVercelEvent ?e1 ?p1 ?x)] =>
        destruct (sendHubSpotEvent_frame e2 p2 (Analytics.sendVercelEvent e1 p1 x))
          as (_ & _ & -> & _)
    end.
    unfold Analytics.sendVercelEvent. cbn [va with_st st]. rewrite Hv2. reflexivity. }
  assert (Hquiet : forall w2 ev,
            listeners w2 = (O, O, O) ->
            match ev with
            | Page.Intersections _ | Page.Click _ | Page.Submit _ => True
            | _ => False
            end -> Page.handle ev w2 = w2).
  { intros w2 ev Hl Hev. unfold listeners in Hl. injection Hl as Ho Hc Hf.
    destruct ev; try contradiction; cbn [Page.handle]; rewrite ?Ho, ?Hc, ?Hf; reflexivity. }
  destruct (Page.banner_script p).
  - unfold Banner.init. destruct (negb _).
    + repeat split; try reflexivity.
      * destruct (Page.has_hsq p); reflexivity.
      * intros ev Hev. now apply Hquiet.
      * intros id name. now apply Htrack.
    + repeat split; try reflexivity.
      * destruct (Page.has_hsq p); reflexivity.
      * intros ev Hev. now apply Hquiet.
      * intros id name. now apply Htrack.
  - repeat split; try reflexivity.
    + destruct (Page.has_hsq p); reflexivity.
    + intros ev Hev. now apply Hquiet.
    + intros id name. now apply Htrack.
Qed.

End WithoutCampaign.

(** ** Who writes the storage *)

Section StorageWrites.
Import Browser Spec Terms.
Context `{URLParser}.

Lemma handle_store ev w :
  match ev with
  | Page.ConsentChoice _ | Page.CallSetConsent _ => False
  | _ => True
  end -> store (Page.handle ev w) = store w.
Proof.
  destruct ev as [|entries|cta|ft|accepted|a b|a b|a|value]; cbn [Page.handle];
    intros Hev; try contradiction.
  - reflexivity.
  - destruct (observers w); [reflexivity | apply observer_callback_quiet].
  - apply surroundings_store, iter_surroundings. intros w'. apply trackCTAClick_frame.
  - apply surroundings_store, iter_surroundings. intros w'. apply trackFormSubmit_frame.
  - destruct (EventAnalytics w); [|reflexivity].
    apply surroundings_store, trackSectionEngagement_frame.
  - destruct (EventAnalytics w); [|reflexivity].
    apply surroundings_store, trackCTAClick_frame.
  - destruct (EventAnalytics w); [|reflexivity].
    apply surroundings_store, trackFormSubmit_frame.
Qed.

Lemma handle_cookies ev w :
  match ev with Page.ConsentChoice _ => False | _ => True end ->
  cookies (store (Page.handle ev w)) = cookies (store w).
Proof.
  destruct ev as [|entries|cta|ft|accepted|a b|a b|a|value]; intros Hev;
    try contradiction; try (now rewrite handle_store).
  cbn [Page.handle]. destruct (EventAnalytics w); [|reflexivity].
  now rewrite analytics_setConsent_store.
Qed.

(** X22. Only a consent decision writes the storage.  Whatever else
    happens on a page (timers, intersections, clicks, submits, calls of
    the exported tracking functions), cookies and local store stay as
    they are; and as long as no banner button is pressed the cookie jar
    stays as it is, calls of [EventAnalytics.setConsent] included. *)
Theorem only_consent_decisions_write_storage (trace : list (Z * Page.event)) (w : world) :
  (Forall (fun tev => match snd tev with
                      | Page.ConsentChoice _ | Page.CallSetConsent _ => False
                      | _ => True
                      end) trace ->
   store (Page.run trace w) = store w) /\
  (Forall (fun tev => match snd tev with
                      | Page.ConsentChoice _ => False
                      | _ => True
                      end) trace ->
   cookies (store (Page.run trace w)) = cookies (store w)).
Proof.
  unfold Page.run. split; intros Hall; revert w;
    induction Hall as [|[t ev] trace Hev Htrace IH]; intros w; try reflexivity;
    cbn [fold_left]; rewrite IH; unfold Page.step; cbn [fst snd] in *.
  - now rewrite handle_store, advance_store.
  - now rewrite handle_cookies, advance_store.
Qed.

End StorageWrites.

(** ** The page-load time after accepting *)

Section PageClock.
Import Browser Spec Terms.
Context `{URLParser}.

Lemma handleConsentChoice_st (accepted : bool) w :
  st (Banner.handleConsentChoice accepted w) =
  st (Banner.setConsent (if accepted then "true" else "false") w).
Proof.
  unfold Banner.handleConsentChoice. cbv zeta.
  set (w1 := Banner.setConsent _ w).
  destruct (banner (doc w1));
    unfold setTimeout, Banner.set_banner;
    cbn [fst EventAnalytics with_timers with_doc];
    destruct (EventAnalytics w1); reflexivity.
Qed.

Lemma st_after_accepting w :
  EventAnalytics w = true -> campaign_present w = true ->
  st (Banner.handleConsentChoice true w) =
  AnalyticsState (campaign_attr (doc w)) (Analytics.detectQRScan w) (Analytics.getUTMParams w)
                 (trackedSections (st w)) (sectionTimers (st w)) (Some (clock w)).
Proof.
  intros He Hcp. rewrite handleConsentChoice_st, banner_setConsent_true. cbv zeta.
  rewrite He. unfold Analytics.setConsent. cbv zeta.
  match goal with |- context [Analytics.init ?x] => set (w2 := x) end.
  rewrite (st_init w2 Hcp). reflexivity.
Qed.

(** X23. Accepting restarts the clock of [time_to_view].  On a campaign
    page with the analytics script, [handleConsentChoice(true)] re-runs
    [init()], which keeps the tracked sections and the registered
    timers but sets [state.pageLoadTime] to the time of the click.  A
    section engaged with afterwards is therefore reported with the
    whole seconds since the visitor accepted, not since the page
    loaded: the nearest whole number, a half rounded up. *)
Theorem accepting_restarts_the_page_clock (w : world) (t : Z) :
  EventAnalytics w = true -> campaign_present w = true ->
  let w' := Banner.handleConsentChoice true w in
  let seconds := (t - clock w + 500) / 1000 in
  pageLoadTime (st w') = Some (clock w) /\
  trackedSections (st w') = trackedSections (st w) /\
  sectionTimers (st w') = sectionTimers (st w) /\
  1000 * seconds - 500 <= t - clock w < 1000 * seconds + 500 /\
  (forall id name calls,
     id ∉ trackedSections (st w) -> va w' = Some calls ->
     exists properties,
       va (Analytics.trackSectionEngagement id name (with_clock t w')) =
       Some (calls ++ [ {| va_command := "track"; va_event := "section_engagement";
                           va_properties := properties |} ]) /\
       JS.get_prop "section_id" properties = JS.VStr id /\
       JS.get_prop "time_to_view" properties = JS.VNum seconds).
Proof.
  intros He Hcp. cbv zeta. pose proof (st_after_accepting w He Hcp) as Hst.
  rewrite Hst. cbn [pageLoadTime trackedSections sectionTimers].
  split; [reflexivity|]. split; [reflexivity|]. split; [reflexivity|]. split.
  - pose proof (Z.div_mod (t - clock w + 500) 1000 ltac:(lia)) as Hdm.
    pose proof (Z.mod_pos_bound (t - clock w + 500) 1000 ltac:(lia)) as Hb. lia.
  - intros id name calls Hin Hva.
    set (w' := Banner.handleConsentChoice true w) in *.
    unfold Analytics.trackSectionEngagement.
    change (st (with_clock t w')) with (st w'). rewrite Hst. cbn [trackedSections].
    case_decide; [contradiction|]. cbv zeta.
    match goal with
    | |- context [Analytics.sendHubSpotEvent ?e2 ?p2 (Analytics.sendVercelEvent ?e1 ?p1 ?x)] =>
        destruct (sendHubSpotEvent_frame e2 p2 (Analytics.sendVercelEvent e1 p1 x))
          as (_ & _ & -> & _)
    end.
    unfold Analytics.sendVercelEvent. cbn [va with_st with_clock st]. rewrite Hva.
    eexists. split; [reflexivity|].
    unfold JS.get_prop, JS.spread.
    rewrite !own_prop_assign_none by reflexivity.
    split; [reflexivity|].
    cbn [JS.own_prop String.eqb Ascii.eqb Bool.eqb].
    unfold Analytics.time_to_view. cbn [st with_st pageLoadTime Analytics.add_tracked clock].
    reflexivity.
Qed.

End PageClock.

(** ** The further theorems at concrete pages *)

Lemma consent_granted_is_decided_witness :
  JS.truthy (Banner.hasExistingConsent
               (Examples.fresh Examples.qr_document Examples.accepted_storage)) = true /\
  Banner.init (Examples.fresh Examples.qr_document Examples.accepted_storage)
  = Examples.fresh Examples.qr_document Examples.accepted_storage.
Proof.
  apply consent_granted_is_decided. vm_compute. reflexivity.
Defined.

Lemma banner_choice_decides_consent_witness :
  Analytics.hasUserConsent
    (Banner.handleConsentChoice (H := Examples.https_parser) false
       (Examples.fresh Examples.qr_document Examples.accepted_storage)) = false.
Proof.
  apply (proj2 (banner_choice_decides_consent (H := Examples.https_parser)
                  (Examples.fresh Examples.qr_document Examples.accepted_storage))).
  - exact wf_accepted_storage.
  - constructor; [intros _; reflexivity | constructor].
Defined.

Lemma exported_setter_cannot_withdraw_witness :
  Analytics.hasUserConsent
    (Analytics.setConsent (H := Examples.https_parser) false
       (Examples.fresh Examples.qr_document Examples.accepted_storage)) = true /\
  Analytics.hasUserConsent
    (Analytics.setConsent (H := Examples.https_parser) false
       (Banner.handleConsentChoice (H := Examples.https_parser) true
          (Examples.fresh Examples.qr_document Examples.no_storage))) = true.
Proof.
  split.
  - apply (proj1 (exported_setter_cannot_withdraw (H := Examples.https_parser)
                    (Examples.fresh Examples.qr_document Examples.accepted_storage)
                    wf_accepted_storage)
                 (Examples.consent_cookie "true")); reflexivity.
  - apply (proj2 (exported_setter_cannot_withdraw (H := Examples.https_parser)
                    (Examples.fresh Examples.qr_document Examples.no_storage)
                    wf_no_storage)).
    constructor.
Defined.

Lemma interactions_counted_once_per_listener_witness :
  Spec.va_count "cta_conversion"
    (Page.handle (H := Examples.https_parser)
       (Page.Click {| Browser.data_track_cta := "book-demo"; Browser.is_anchor := true |})
       (Analytics.init (H := Examples.https_parser)
          (Analytics.init (H := Examples.https_parser)
             (Examples.fresh Examples.qr_document Examples.no_storage)))) = 2%nat.
Proof.
  destruct (interactions_counted_once_per_listener (H := Examples.https_parser)
              (Examples.fresh Examples.qr_document Examples.no_storage))
    as (_ & _ & _ & _ & Htwice).
  apply (Htwice eq_refl eq_refl eq_refl).
Defined.

Lemma utm_parameters_after_init_witness :
  Browser.isQR (Browser.st (Analytics.init (H := Examples.https_parser)
                              (Examples.fresh Examples.qr_document Examples.no_storage)))
  = true /\
  Analytics.getCampaignContext
    (Analytics.init (H := Examples.https_parser)
       (Examples.fresh Examples.qr_document Examples.no_storage)) =
  [ ("analyticsId", JS.VStr "AI_Week_Frankfurt_2025");
    ("isQR", JS.VBool true);
    ("source", JS.VStr "booth");
    ("medium", JS.VStr "qr");
    ("campaign", JS.VNull);
    ("content", JS.VNull);
    ("term", JS.VNull) ]%string.
Proof.
  destruct (utm_parameters_after_init (H := Examples.https_parser)
              (Examples.fresh Examples.qr_document Examples.no_storage) eq_refl)
    as (_ & Hqr & _ & _ & _ & Hctx).
  split; [exact Hqr | exact Hctx].
Defined.

Lemma qr_landing_never_says_unknown_witness :
  exists pv,
    Browser.va_event pv = "page_view"%string /\
    Browser.va (Analytics.init (H := Examples.https_parser)
                  (Examples.fresh Examples.qr_document Examples.accepted_storage)) =
    Some ([] ++
          [ pv;
            {| Browser.va_command := "track"; Browser.va_event := "qr_scan_landing";
               Browser.va_properties :=
                 [ ("campaign", JS.VNull);
                   ("source", JS.VStr "booth");
                   ("analytics_id", JS.VStr "AI_Week_Frankfurt_2025");
                   ("is_qr", JS.VBool true);
                   ("medium", JS.VStr "qr");
                   ("content", JS.VNull);
                   ("term", JS.VNull) ]%string |} ]).
Proof.
  apply (proj1 (qr_landing_never_says_unknown (H := Examples.https_parser)
                  (Examples.fresh Examples.qr_document Examples.accepted_storage)
                  eq_refl eq_refl) [] eq_refl).
Defined.

Lemma banner_leaves_after_choice_witness :
  Browser.banner
    (Browser.doc
       (Page.advance 300
          (Banner.handleConsentChoice (H := Examples.https_parser) true Scenes.banner_shown)))
  = None.
Proof.
  destruct (proj1 (banner_leaves_after_choice (H := Examples.https_parser) true
                     Scenes.banner_shown) EmptyString eq_refl) as (_ & _ & Hgone).
  apply Hgone; [constructor | vm_compute; discriminate].
Defined.

Lemma section_reported_after_dwell_witness :
  let w := Examples.fresh Examples.qr_document Examples.accepted_storage in
  let w' := Page.advance 2000
              (Analytics.observe_entry Examples.hero_in w) in
  "hero"%string ∈ Browser.trackedSections (Browser.st w') /\
  Spec.va_engagements "hero" w' =
    (Spec.va_engagements "hero" w + if Spec.is_some (Browser.va w) then 1 else 0)%nat /\
  Spec.hsq_engagements "hero" w' =
    (Spec.hsq_engagements "hero" w +
     if Analytics.hasUserConsent w && Spec.is_some (Browser.hsq w) then 1 else 0)%nat.
Proof.
  apply (section_reported_after_dwell Examples.hero_in
           (Examples.fresh Examples.qr_document Examples.accepted_storage) 2000).
  - reflexivity.
  - apply not_elem_of_empty.
  - apply lookup_empty.
  - constructor.
  - reflexivity.
  - vm_compute. discriminate.
Defined.

Lemma tracked_section_is_not_reported_again_witness :
  let w := Page.run (H := Examples.https_parser)
             [ (500, Page.ConsentChoice true);
               (3000, Page.CallTrackSectionEngagement "hero" "top") ]
             Scenes.hero_reported in
  "hero"%string ∈ Browser.trackedSections (Browser.st w) /\
  Spec.hsq_engagements "hero" w = Spec.hsq_engagements "hero" Scenes.hero_reported /\
  (Spec.utm_ok Scenes.hero_reported ->
   Spec.va_engagements "hero" w = Spec.va_engagements "hero" Scenes.hero_reported).
Proof.
  apply (tracked_section_is_not_reported_again (H := Examples.https_parser) "hero"
           [ (500, Page.ConsentChoice true);
             (3000, Page.CallTrackSectionEngagement "hero" "top") ]
           Scenes.hero_reported).
  apply elem_of_union. left. apply elem_of_singleton. reflexivity.
Defined.


Lemma successful_submit_shows_thanks_witness :
  Forms.handleSubmit (H := Examples.plain_decoder) Examples.quick_email true
    Scenes.accepting_environment Examples.idle_form
  = {| Forms.form_display := "none";
       Forms.success_display := "block";
       Forms.error_display := "none";
       Forms.error_text := "";
       Forms.submit_disabled := true;
       Forms.submit_text := "Submitting...";
       Forms.sent :=
         [] ++ [ {| Forms.url := Forms.apiUrl Examples.quick_email; Forms.method := "POST";
                    Forms.content_type := "application/json";
                    Forms.body := Scenes.accepted_payload |} ];
       Forms.onSuccess_calls :=
         [] ++ [ (Forms.collect Examples.quick_email Scenes.accepting_environment,
                  "{}"%string) ] |}.
Proof.
  apply (successful_submit_shows_thanks (H := Examples.plain_decoder)
           Examples.quick_email true Scenes.accepting_environment Examples.idle_form
           Scenes.accepted_payload "{}").
  - vm_compute. reflexivity.
  - vm_compute. reflexivity.
  - reflexivity.
Defined.

Lemma submit_fails_on_cookie_or_body_witness :
  Forms.sent (Forms.handleSubmit (H := Examples.plain_decoder) Examples.quick_email true
                Scenes.undecodable_environment Examples.idle_form) = [] /\
  Forms.error_display
    (Forms.handleSubmit (H := Examples.plain_decoder) Examples.quick_email true
       Scenes.garbled_environment Examples.idle_form) = "block"%string.
Proof.
  split.
  - rewrite (proj1 (submit_fails_on_cookie_or_body (H := Examples.plain_decoder)
                      Examples.quick_email true Scenes.undecodable_environment
                      Examples.idle_form eq_refl) eq_refl).
    reflexivity.
  - rewrite (proj2 (submit_fails_on_cookie_or_body (H := Examples.plain_decoder)
                      Examples.quick_email true Scenes.garbled_environment
                      Examples.idle_form eq_refl)
                   Examples.quick_email_payload eq_refl eq_refl).
    reflexivity.
Defined.

Lemma nothing_is_sent_before_the_box_is_ticked_witness :
  let c := Component.run (H := Examples.plain_decoder) Examples.quick_email
             [ Component.EmailBlur "user@example.com";
               Component.FormSubmit Scenes.accepting_environment;
               Component.ConsentChange false;
               Component.FormSubmit Scenes.accepting_environment ]
             (Component.constructor Examples.idle_form) in
  Component.consentGiven c = false /\
  Forms.sent (Component.elements c) = [] /\
  Forms.onSuccess_calls (Component.elements c) = [].
Proof.
  destruct (nothing_is_sent_before_the_box_is_ticked (H := Examples.plain_decoder)
              Examples.quick_email
              [ Component.EmailBlur "user@example.com";
                Component.FormSubmit Scenes.accepting_environment;
                Component.ConsentChange false;
                Component.FormSubmit Scenes.accepting_environment ]
              Examples.idle_form) as (Hc & Hs & Ho & _).
  - repeat constructor; discriminate.
  - cbv zeta. split; [exact Hc|]. split; [exact Hs | exact Ho].
Defined.

Lemma floating_banner_form_is_always_rejected_witness :
  Forms.sent
    (Forms.handleSubmit (H := Examples.plain_decoder)
       (FormConfigs.settings FormConfigs.BRI_FORM_CONFIGS.floatingBanner) true
       (Scenes.submitting FormConfigs.BRI_FORM_CONFIGS.floatingBanner) Examples.idle_form)
  = [] /\
  Forms.error_display
    (Forms.handleSubmit (H := Examples.plain_decoder)
       (FormConfigs.settings FormConfigs.BRI_FORM_CONFIGS.floatingBanner) true
       (Scenes.submitting FormConfigs.BRI_FORM_CONFIGS.floatingBanner) Examples.idle_form)
  = "block"%string.
Proof.
  destruct (floating_banner_form_is_always_rejected (H := Examples.plain_decoder)
              Scenes.keen_visitor true
              (Scenes.submitting FormConfigs.BRI_FORM_CONFIGS.floatingBanner)
              Examples.idle_form eq_refl)
    as (_ & _ & _ & Hsent & _ & _ & _ & Herr).
  split; [exact Hsent | exact Herr].
Defined.

Lemma email_forms_are_accepted_witness :
  Forms.GDPRComplianceValidator.validate
    (Forms.collect (FormConfigs.settings FormConfigs.BRI_FORM_CONFIGS.quickEmail)
                   (Scenes.submitting FormConfigs.BRI_FORM_CONFIGS.quickEmail)) true
  = {| Forms.GDPRComplianceValidator.isValid := true;
       Forms.GDPRComplianceValidator.errors := [] |} /\
  exists req,
    Forms.sent
      (Forms.handleSubmit (H := Examples.plain_decoder)
         (FormConfigs.settings FormConfigs.BRI_FORM_CONFIGS.quickEmail) true
         (Scenes.submitting FormConfigs.BRI_FORM_CONFIGS.quickEmail) Examples.idle_form)
    = [] ++ [req] /\
    map (fun f => (Forms.name f, Forms.value f)) (Forms.fields (Forms.body req)) =
    [ ("email", "user@example.com"); ("cta_interaction_type", "in_section_cta") ]%string.
Proof.
  destruct (email_forms_are_accepted (H := Examples.plain_decoder)
              FormConfigs.BRI_FORM_CONFIGS.quickEmail Scenes.keen_visitor
              (Scenes.submitting FormConfigs.BRI_FORM_CONFIGS.quickEmail)
              Examples.idle_form (or_introl eq_refl) eq_refl eq_refl) as [Hvalid Hsent].
  split; [exact Hvalid|].
  destruct Hsent as (req & Hreq & Hfields); [vm_compute; discriminate|].
  exists req. split; [exact Hreq | exact Hfields].
Defined.

Lemma click_after_accepting_is_reported_twice_witness :
  let w := Page.run (H := Examples.https_parser)
             [ (1200, Page.ConsentChoice true);
               (3000, Page.Click {| Browser.data_track_cta := "book-demo";
                                    Browser.is_anchor := true |}) ]
             (Page.load (H := Examples.https_parser) Examples.campaign_page 0
                Examples.no_storage) in
  Spec.va_count "cta_conversion" w = 2%nat /\ Spec.hsq_count "CTA Click" w = 2%nat.
Proof.
  apply (proj1 (click_after_accepting_is_reported_twice (H := Examples.https_parser)
                  Examples.campaign_page 0 1200 3000 Examples.no_storage
                  {| Browser.data_track_cta := "book-demo"; Browser.is_anchor := true |}
                  "A"%char "I_Week_Frankfurt_2025"
                  eq_refl eq_refl eq_refl eq_refl eq_refl)).
Defined.

Lemma hubspot_cookie_is_read_from_the_jar_witness :
  Forms.getHubSpotCookie (H := Examples.plain_decoder) Examples.failing_environment
  = Some (Some "abc123"%string).
Proof.
  apply (proj1 (hubspot_cookie_is_read_from_the_jar (H := Examples.plain_decoder)
                  Scenes.tracked_jar Examples.failing_environment
                  ltac:(repeat constructor) eq_refl)).
  reflexivity.
Defined.

Lemma page_without_campaign_is_silent_witness :
  Browser.va (Page.load (H := Examples.https_parser) Scenes.plain_page 0 Examples.no_storage)
  = Some [] /\
  Spec.hsq_log (Page.load (H := Examples.https_parser) Scenes.plain_page 0 Examples.no_storage)
  = [].
Proof.
  destruct (page_without_campaign_is_silent (H := Examples.https_parser)
              Scenes.plain_page 0 Examples.no_storage eq_refl eq_refl eq_refl)
    as (Hva & Hhs & _).
  split; [exact Hva | exact Hhs].
Defined.

Lemma only_consent_decisions_write_storage_witness :
  Browser.store
    (Page.run (H := Examples.https_parser) Examples.glance
       (Page.load (H := Examples.https_parser) Examples.campaign_page 0
          Examples.rejected_storage))
  = Browser.store
      (Page.load (H := Examples.https_parser) Examples.campaign_page 0
         Examples.rejected_storage).
Proof.
  apply (proj1 (only_consent_decisions_write_storage (H := Examples.https_parser)
                  Examples.glance
                  (Page.load (H := Examples.https_parser) Examples.campaign_page 0
                     Examples.rejected_storage))).
  repeat constructor.
Defined.

Lemma accepting_restarts_the_page_clock_witness :
  Browser.pageLoadTime
    (Browser.st
       (Banner.handleConsentChoice (H := Examples.https_parser) true
          (Page.advance 1200
             (Page.load (H := Examples.https_parser) Examples.campaign_page 0
                Examples.no_storage))))
  = Some 1200.
Proof.
  apply (proj1 (accepting_restarts_the_page_clock (H := Examples.https_parser)
                  (Page.advance 1200
                     (Page.load (H := Examples.https_parser) Examples.campaign_page 0
                        Examples.no_storage))
                  5000 eq_refl eq_refl)).
Defined.
